(** * Ministr: the tiered data-acquisition layer of the Czech Culture dashboard

    A shallow embedding of [data_loader.py], [scripts/update_data.py] and the
    data-facing parts of [app.py], with the properties of the acquisition
    layer stated and proved over it.

    Python values are modelled by inductive types, exceptions by a result
    type, and the effects of the code (printing, logging, HTTP requests, file
    reads) by a state-and-exception monad over an explicit [World].  The
    behaviour of the third-party libraries the code calls ([json], [pandas],
    [numpy], string-to-number conversion) is taken as an interface,
    [Library]; the general theorems hold for every implementation of it. *)

From Stdlib Require Import ZArith Floats Lia Permutation Sorted Ascii.
From stdpp Require Import base gmap strings list pretty sorting.

Open Scope string_scope.
Open Scope Z_scope.
#[local] Set Warnings "-register-all".

(** ** Python values *)

(** A scalar held in a pandas cell: [numpy.int64], [numpy.float64] (NaN
    included), [str] or [bool]. *)
Inductive value : Type :=
  | VInt (z : Z)
  | VFloat (f : float)
  | VStr (s : string)
  | VBool (b : bool).

(** What [json.load] returns.  Objects keep the order of the document; a
    lookup takes the first binding of a key. *)
Inductive json : Type :=
  | JNull
  | JBool (b : bool)
  | JInt (z : Z)
  | JFloat (f : float)
  | JStr (s : string)
  | JList (l : list json)
  | JDict (kv : list (string * json)).

(** A [pandas.DataFrame]: the column labels and the rows in index order, each
    row holding one cell per column. *)
Record DataFrame : Type := mkDF {
  columns : list string;
  rows : list (list value)
}.

(** [pd.DataFrame()] *)
Definition empty_frame : DataFrame := mkDF [] [].

(** [df.empty]: some axis has length zero. *)
Definition df_empty (df : DataFrame) : bool :=
  match columns df, rows df with
  | [], _ | _, [] => true
  | _, _ => false
  end.

(** ** Exceptions and results *)

(** The subclasses of [Exception] the modelled code can meet. *)
Inductive exn : Type :=
  | FileNotFoundError
  | ParseError
  | KeyError (k : string)
  | IndexError
  | TypeError
  | ValueError
  | OverflowError
  | ConnectionError
  | Timeout
  | HTTPError (status : Z).

Inductive res (A : Type) : Type :=
  | Ok (a : A)
  | Raise (e : exn).
Arguments Ok {A} a.
Arguments Raise {A} e.

(** [str(e)] as the handlers print it, abridged to the name of the
    exception. *)
Definition exn_name (e : exn) : string :=
  match e with
  | FileNotFoundError => "FileNotFoundError"
  | ParseError => "ParseError"
  | KeyError k => "KeyError: " +:+ k
  | IndexError => "IndexError"
  | TypeError => "TypeError"
  | ValueError => "ValueError"
  | OverflowError => "OverflowError"
  | ConnectionError => "ConnectionError"
  | Timeout => "Timeout"
  | HTTPError _ => "HTTPError"
  end.

(** ** The world the code runs in *)

(** A [requests.Response]. *)
Record Response : Type := mkResponse {
  status_code : Z;
  text : string
}.

Inductive level : Type := INFO | WARNING | ERROR.

(** [files] maps a path to the content of the file there; [net] is what a GET
    of a URL with a timeout (in seconds) yields.  [stdout], [log], [requests]
    and [written] record the effects of the code in the order they happen:
    lines printed, records logged, GET requests sent, paths written to. *)
Record World : Type := mkWorld {
  files : gmap string string;
  net : string -> Z -> res Response;
  stdout : list string;
  log : list (level * string);
  requests : list (string * Z);
  written : list string
}.

(** ** A state-and-exception monad *)

Definition M (A : Type) : Type := World -> res A * World.

Definition ret {A} (a : A) : M A := fun w => (Ok a, w).

Definition raise {A} (e : exn) : M A := fun w => (Raise e, w).

Definition bind {A B} (m : M A) (k : A -> M B) : M B :=
  fun w =>
    match m w with
    | (Ok a, w') => k a w'
    | (Raise e, w') => (Raise e, w')
    end.

(** [try: body  except Exception as e: handler e] *)
Definition try_except {A} (body : M A) (handler : exn -> M A) : M A :=
  fun w =>
    match body w with
    | (Ok a, w') => (Ok a, w')
    | (Raise e, w') => handler e w'
    end.

Declare Scope py_scope.
Delimit Scope py_scope with py.
Notation "x <- c ;; k" := (bind c (fun x => k))
  (at level 100, c at next level, right associativity) : py_scope.
Notation "c ;; k" := (bind c (fun _ => k))
  (at level 100, right associativity) : py_scope.
Open Scope py_scope.

Definition lift {A} (e : exn) (o : option A) : M A :=
  match o with
  | Some a => ret a
  | None => raise e
  end.

Definition of_res {A} (r : res A) : M A :=
  match r with
  | Ok a => ret a
  | Raise e => raise e
  end.

(** [print(line)] *)
Definition print (line : string) : M unit :=
  fun w => (Ok tt, mkWorld (files w) (net w) (stdout w ++ [line]) (log w)
                           (requests w) (written w)).

(** [logger.info], [logger.warning], [logger.error] *)
Definition logger (l : level) (msg : string) : M unit :=
  fun w => (Ok tt, mkWorld (files w) (net w) (stdout w) (log w ++ [(l, msg)])
                           (requests w) (written w)).

(** [requests.get(url, timeout=t)] *)
Definition requests_get (url : string) (t : Z) : M Response :=
  fun w => of_res (net w url t)
             (mkWorld (files w) (net w) (stdout w) (log w)
                      (requests w ++ [(url, t)]) (written w)).

(** [open(path, "r")] followed by reading the whole file. *)
Definition read_file (path : string) : M string :=
  fun w => lift FileNotFoundError (files w !! path) w.

(** [os.path.exists(path)] *)
Definition path_exists (path : string) : M bool :=
  fun w => (Ok (bool_decide (is_Some (files w !! path))), w).

(** ** Machine numbers *)

(** The range of [numpy.int64], and two's-complement wrap-around to it. *)
Definition in_int64 (z : Z) : Prop := - 2 ^ 63 <= z < 2 ^ 63.

Definition wrap_int64 (z : Z) : Z := (z + 2 ^ 63) mod 2 ^ 64 - 2 ^ 63.

(** The whole number a float holds, when it holds one. *)
Definition exact_int (f : float) : option Z :=
  match Prim2SF f with
  | S754_zero _ => Some 0
  | S754_finite s m e =>
      if 0 <=? e then
        let a := Z.pos m * 2 ^ e in Some (if s then - a else a)
      else if Z.pos m mod 2 ^ (- e) =? 0 then
        let a := Z.pos m / 2 ^ (- e) in Some (if s then - a else a)
      else None
  | _ => None
  end.

(** What a cell of a [float64] column adds to the sum of the column when it
    is missing (NaN) or holds a whole number: nothing, or that number. *)
Definition addend (f : float) : option Z :=
  if PrimFloat.is_nan f then Some 0 else exact_int f.

Definition Zsum (zs : list Z) : Z := fold_right Z.add 0 zs.

Definition Zsum_abs (zs : list Z) : Z := fold_right (fun z a => Z.abs z + a) 0 zs.

(** ** The library interface *)

(** The functions of [json], [pandas], [numpy] and the Python runtime that the
    code calls and whose algorithms are not part of this repository.  [None]
    stands for the call raising. *)
Class Library : Type := {
  (** [json.load] and [Response.json] on a text. *)
  json_loads : string -> option json;
  (** [pandas.read_csv] on the content of a file. *)
  read_csv_text : string -> option DataFrame;
  (** [int(s)] and [float(s)] for a [str]. *)
  int_of_str : string -> option Z;
  float_of_str : string -> option float;
  (** [Series.sum()] on the cells of a column. *)
  series_sum : list value -> option value;
  (** A column of integers is an [int64] column: numpy adds it up in [int64],
      wrapping around without a warning ... *)
  series_sum_int64 : forall zs : list Z,
    zs <> [] ->
    Forall in_int64 zs ->
    series_sum (List.map VInt zs) = Some (VInt (wrap_int64 (Zsum zs)));
  (** ... and a [float64] column is added up as floats with the missing
      values skipped.  In which order numpy adds is not fixed here; where the
      cells hold whole numbers whose absolute values sum to less than [2^53],
      no addition rounds in any order and the sum is exact. *)
  series_sum_float64 : forall (fs : list float) (zs : list Z),
    fs <> [] ->
    List.map addend fs = List.map Some zs ->
    Zsum_abs zs < 2 ^ 53 ->
    exists f : float,
      series_sum (List.map VFloat fs) = Some (VFloat f)
      /\ exact_int f = Some (Zsum zs);
  (** The order in which [sort_values(col, ascending=False)] arranges the
      rows: the positions of the rows, computed from the cells of the key
      column alone (pandas hands only that column to numpy's quicksort). *)
  argsort_desc : list value -> list nat;
  (** It is an arrangement of all the rows ... *)
  argsort_desc_perm : forall ks : list value,
    Permutation (argsort_desc ks) (seq 0 (length ks));
  (** ... and along it integer keys never increase. *)
  argsort_desc_sorted : forall zs : list Z,
    Sorted (fun a b : Z => b <= a)
           (List.map (fun i => nth i zs 0) (argsort_desc (List.map VInt zs)))
}.

(** ** Python built-ins on scalars *)

Definition Z2float (z : Z) : float :=
  SF2Prim (binary_normalize prec emax z 0 false).

Definition bool2Z (b : bool) : Z := if b then 1 else 0.

(** [int(f)] for a float: truncation toward zero; NaN and the infinities
    raise. *)
Definition float_trunc (f : float) : res Z :=
  match Prim2SF f with
  | S754_zero _ => Ok 0
  | S754_finite s m e =>
      let a := if 0 <=? e then Z.pos m * 2 ^ e else Z.pos m / 2 ^ (- e) in
      Ok (if s then - a else a)
  | S754_infinity _ => Raise OverflowError
  | S754_nan => Raise ValueError
  end.

Section WithLibrary.
Context {L : Library}.

(** [int(v)] *)
Definition py_int (v : value) : res Z :=
  match v with
  | VInt z => Ok z
  | VFloat f => float_trunc f
  | VStr s => match int_of_str s with Some z => Ok z | None => Raise ValueError end
  | VBool b => Ok (bool2Z b)
  end.

(** [float(v)] *)
Definition py_float (v : value) : res float :=
  match v with
  | VInt z => Ok (Z2float z)
  | VFloat f => Ok f
  | VStr s => match float_of_str s with Some f => Ok f | None => Raise ValueError end
  | VBool b => Ok (Z2float (bool2Z b))
  end.

End WithLibrary.

(** *** [format(v, ",.0f")] *)

(** The whole number nearest to [m * 2^e], the even one of two that are
    equally near: Python rounds the exact value of the float. *)
Definition round_half_even (m : positive) (e : Z) : Z :=
  if 0 <=? e then Z.pos m * 2 ^ e
  else
    let d := 2 ^ (- e) in
    let q := Z.pos m / d in
    let r := Z.pos m mod d in
    if 2 * r <? d then q
    else if d <? 2 * r then q + 1
    else if Z.even q then q else q + 1.

(** Commas between groups of three digits, on the digits in reverse. *)
Fixpoint commas (n : nat) (ds : list Ascii.ascii) : list Ascii.ascii :=
  match ds with
  | [] => []
  | d :: ds' => match n with
                | 3%nat => ","%char :: d :: commas 1 ds'
                | _ => d :: commas (S n) ds'
                end
  end.

(** The decimal digits of a natural number, grouped by three. *)
Definition grouped (n : Z) : string :=
  String.string_of_list_ascii
    (rev (commas 0 (rev (String.list_ascii_of_string (pretty (Z.abs n)))))).

(** A whole number written with its sign and its digits grouped by three. *)
Definition thousands (z : Z) : string :=
  (if z <? 0 then "-" else "") +:+ grouped z.

(** [format(f, ",.0f")] for a float; a negative float that rounds to zero
    keeps its sign. *)
Definition format_f0 (f : float) : string :=
  match Prim2SF f with
  | S754_nan => "nan"
  | S754_infinity s => if s then "-inf" else "inf"
  | S754_zero s => if s then "-0" else "0"
  | S754_finite s m e => (if s then "-" else "") +:+ grouped (round_half_even m e)
  end.

(** [format(v, ",.0f")]: an integer is converted to a float first, which
    raises when the float would be infinite; a string has no such format. *)
Definition format_amount (v : value) : res string :=
  match v with
  | VFloat f => Ok (format_f0 f)
  | VInt z =>
      match Prim2SF (Z2float z) with
      | S754_infinity _ => Raise OverflowError
      | _ => Ok (format_f0 (Z2float z))
      end
  | VBool b => Ok (format_f0 (Z2float (bool2Z b)))
  | VStr _ => Raise ValueError
  end.

(** [a == b] on scalars: numbers compare by value across [int], [float] and
    [bool] (an integer meets a float as a float, as numpy does), a string
    equals only the same string, NaN equals nothing. *)
Definition py_eq (a b : value) : bool :=
  match a, b with
  | VStr s, VStr t => String.eqb s t
  | VStr _, _ | _, VStr _ => false
  | VFloat f, VFloat g => PrimFloat.eqb f g
  | VFloat f, VInt z | VInt z, VFloat f => PrimFloat.eqb f (Z2float z)
  | VFloat f, VBool c | VBool c, VFloat f => PrimFloat.eqb f (Z2float (bool2Z c))
  | VInt y, VInt z => y =? z
  | VInt z, VBool c | VBool c, VInt z => z =? bool2Z c
  | VBool c, VBool d => Bool.eqb c d
  end.

Definition is_nan_value (v : value) : bool :=
  match v with
  | VFloat f => PrimFloat.is_nan f
  | _ => false
  end.

(** ** Data frames *)

Fixpoint col_index (name : string) (cols : list string) : option nat :=
  match cols with
  | [] => None
  | c :: cols' => if String.eqb c name then Some O
                  else option_map S (col_index name cols')
  end.

(** The cell of a row at a column position; a cell that is missing reads as
    NaN, which is how pandas fills short rows. *)
Definition cell (i : nat) (row : list value) : value :=
  nth i row (VFloat nan).

(** The position of the column [name], as [df[name]] needs it: [KeyError]
    when the frame has no such column. *)
Definition column_pos (df : DataFrame) (name : string) : res nat :=
  match col_index name (columns df) with
  | Some i => Ok i
  | None => Raise (KeyError name)
  end.

(** [df[df[name] == v]]: the rows whose cell in column [name] equals [v], in
    index order, under the same columns. *)
Definition filter_eq (df : DataFrame) (name : string) (v : value) : res DataFrame :=
  match column_pos df name with
  | Ok i => Ok (mkDF (columns df) (List.filter (fun r => py_eq (cell i r) v) (rows df)))
  | Raise e => Raise e
  end.

(** [row[name]] for a row of [df]. *)
Definition row_get (df : DataFrame) (row : list value) (name : string) : res value :=
  match column_pos df name with
  | Ok i => Ok (cell i row)
  | Raise e => Raise e
  end.

(** *** Column types and [df.iterrows()] *)

(** The numpy types pandas gives the columns of a table. *)
Inductive dtype : Type := Int64 | Float64 | Bool | Object.

Definition dtype_of (v : value) : dtype :=
  match v with
  | VInt _ => Int64
  | VFloat _ => Float64
  | VBool _ => Bool
  | VStr _ => Object
  end.

(** The type that holds values of both types: integers and floats meet in
    [float64], anything else that differs in [object]. *)
Definition common_dtype (a b : dtype) : dtype :=
  match a, b with
  | Int64, Int64 => Int64
  | Bool, Bool => Bool
  | Int64, Float64 | Float64, Int64 | Float64, Float64 => Float64
  | _, _ => Object
  end.

Definition common_dtypes (ts : list dtype) : dtype :=
  match ts with
  | [] => Object
  | t :: ts' => fold_left common_dtype ts' t
  end.

(** The type of the column at position [i], from its cells: a column of
    integers is [int64], one of integers and floats (a missing value is the
    float NaN) is [float64], one that holds a string is [object]. *)
Definition column_dtype (i : nat) (rs : list (list value)) : dtype :=
  common_dtypes (List.map (fun r => dtype_of (cell i r)) rs).

(** The type of [df.values], the array [iterrows] cuts its rows from: the
    common type of the columns. *)
Definition values_dtype (df : DataFrame) : dtype :=
  common_dtypes (List.map (fun i => column_dtype i (rows df))
                          (seq 0 (length (columns df)))).

(** A cell as it comes out of an array of type [t]: in a [float64] array an
    integer has become a float. *)
Definition as_dtype (t : dtype) (v : value) : value :=
  match t, v with
  | Float64, VInt z => VFloat (Z2float z)
  | _, _ => v
  end.

(** The rows [df.iterrows()] yields: each a [Series] over the columns, of
    the type of [df.values].  In a table of numbers with a float column the
    integers come out as floats; in a table with a string column every cell
    comes out as stored. *)
Definition iterrows (df : DataFrame) : list (list value) :=
  List.map (List.map (as_dtype (values_dtype df))) (rows df).

(** Whether the missing values of the column [name] are one and the same
    object: in an [object] column pandas marks each missing cell with the one
    [numpy.nan], while each NaN read out of a [float64] column is a float
    object of its own. *)
Definition nan_is_one_object (df : DataFrame) (name : string) : bool :=
  match col_index name (columns df) with
  | Some i => match column_dtype i (rows df) with
              | Object => true
              | _ => false
              end
  | None => false
  end.

(** ** Python dictionaries keyed by scalars *)

(** Keys are equal when [==] holds or when both are the NaN that marks a
    missing cell.  An assignment to a present key replaces its value in place;
    a new key goes last. *)
Definition key_eqb (a b : value) : bool :=
  py_eq a b || (is_nan_value a && is_nan_value b).

Fixpoint dict_set {V} (d : list (value * V)) (k : value) (v : V) : list (value * V) :=
  match d with
  | [] => [(k, v)]
  | (k', v') :: d' => if key_eqb k' k then (k', v) :: d'
                      else (k', v') :: dict_set d' k v
  end.

(** [d[k] = v].  A dictionary finds a key by identity first and by [==]
    next: a NaN that is an object of its own equals no key already there and
    goes last, a NaN that is the one [numpy.nan] is found again. *)
Definition setitem {V} (one_nan : bool) (d : list (value * V)) (k : value) (v : V)
    : list (value * V) :=
  if is_nan_value k && negb one_nan then (d ++ [(k, v)])%list
  else dict_set d k v.

(** [d[k]] on a JSON object, and [d.get(k)]. *)
Fixpoint assoc {V} (k : string) (d : list (string * V)) : option V :=
  match d with
  | [] => None
  | (k', v) :: d' => if String.eqb k' k then Some v else assoc k d'
  end.

(** ** JSON values as Python objects *)

(** [bool(j)] *)
Definition truthy (j : json) : bool :=
  match j with
  | JNull => false
  | JBool b => b
  | JInt z => negb (z =? 0)
  | JFloat f => negb (PrimFloat.eqb f 0)
  | JStr s => negb (String.eqb s "")
  | JList l => match l with [] => false | _ => true end
  | JDict kv => match kv with [] => false | _ => true end
  end.

(** [len(j)]; of a string the model counts bytes, which is zero exactly
    when the count of characters is. *)
Definition py_len (j : json) : res Z :=
  match j with
  | JStr s => Ok (Z.of_nat (String.length s))
  | JList l => Ok (Z.of_nat (length l))
  | JDict kv => Ok (Z.of_nat (length kv))
  | _ => Raise TypeError
  end.

(** [j[0]]; of a non-empty string, a one-character string. *)
Definition index0 (j : json) : res json :=
  match j with
  | JList (x :: _) => Ok x
  | JList [] => Raise IndexError
  | JStr (String c _) => Ok (JStr (String c ""))
  | JStr "" => Raise IndexError
  | JDict _ => Raise (KeyError "0")
  | _ => Raise TypeError
  end.

(** [j[k]] for a string [k] *)
Definition getitem (j : json) (k : string) : res json :=
  match j with
  | JDict kv => match assoc k kv with Some v => Ok v | None => Raise (KeyError k) end
  | _ => Raise TypeError
  end.

(** [response.raise_for_status()] *)
Definition raise_for_status (r : Response) : M unit :=
  if (400 <=? status_code r) && (status_code r <? 600)
  then raise (HTTPError (status_code r))
  else ret tt.

(** ** data_loader.py *)

(** The record [load_artist_status] builds: a [dict] with the keys
    [registered_count] and [disciplines]. *)
Record ArtistStatus : Type := mkArtistStatus {
  registered_count : Z;
  disciplines : list (value * float)
}.

Module DataLoader.
Section WithLibrary.
Context {L : Library}.

Definition NKOD_MONUMENTS_URL : string := "https://data.gov.cz/soubor/kulturni-pamatky.csv".
Definition CZSO_API_URL : string := "https://data.csu.gov.cz/api/katalog/v1".
Definition ARTIST_SHEET_CSV_URL : string :=
  "https://docs.google.com/spreadsheets/d/e/2PACX-1vR_placeholder_id/pub?output=csv".

(** The argument of each [st.cache_data(ttl=...)], in seconds. *)
Definition ttl_economic_indicators : Z := 86400.
Definition ttl_unesco_sites : Z := 604800.
Definition ttl_budget : Z := 86400.
Definition ttl_nameday : Z := 3600.
Definition ttl_artist_status : Z := 86400.

(** [json.load(f)] on an opened file, [pd.read_csv(path)] *)
Definition json_load (path : string) : M json :=
  f <- read_file path ;;
  lift ParseError (json_loads f).

Definition read_csv (path : string) : M DataFrame :=
  f <- read_file path ;;
  lift ParseError (read_csv_text f).

(** The messages are those of the source without their leading pictograph;
    [None] is [JNull]. *)
Definition load_economic_indicators : M json :=
  try_except
    (response <- requests_get (CZSO_API_URL +:+ "/sady/mzdy/ukazatele") 3 ;;
     if status_code response =? 200
     then print "CZSO API Connection Established."
     else ret tt)
    (fun e => print ("CZSO API Connection Failed: " +:+ exn_name e)) ;;
  try_except
    (json_load "data/fallback_economics.json")
    (fun e => print ("Economic Data Error: " +:+ exn_name e) ;; ret JNull).

(** The first [try] only prints and defines a local function that is never
    called. *)
Definition load_unesco_sites : M DataFrame :=
  try_except
    (print ("Fetching NKOD data from " +:+ NKOD_MONUMENTS_URL +:+ "..."))
    (fun e => print ("NKOD API Connection Failed: " +:+ exn_name e)) ;;
  try_except
    (read_csv "data/fallback_unesco.csv")
    (fun e => print ("UNESCO Data Error: " +:+ exn_name e) ;; ret empty_frame).

Definition load_budget (year : Z) : M DataFrame :=
  try_except
    (df <- read_csv "data/budget_official.csv" ;;
     filtered_df <- of_res (filter_eq df "Year" (VInt year)) ;;
     ret filtered_df)
    (fun e => print ("Budget Data Error: " +:+ exn_name e) ;; ret empty_frame).

Definition load_nameday : M json :=
  try_except
    (response <- requests_get "https://svatky.adresa.info/json" 3 ;;
     raise_for_status response ;;
     data <- lift ParseError (json_loads (text response)) ;;
     if truthy data then
       n <- of_res (py_len data) ;;
       if 0 <? n then
         first <- of_res (index0 data) ;;
         of_res (getitem first "name")
       else ret (JStr "Unknown")
     else ret (JStr "Unknown"))
    (fun e => print ("Nameday API Error: " +:+ exn_name e) ;; ret JNull).

(** The body of the [for _, row in df.iterrows()] loop, over the rows [rs]
    still to come: a row other than [registered_count] enters [disciplines]
    under its indicator when its value converts to a float, and is skipped
    otherwise (the bare [except]). *)
Fixpoint disciplines_loop (df : DataFrame) (rs : list (list value))
    (d : list (value * float)) : res (list (value * float)) :=
  match rs with
  | [] => Ok d
  | row :: rs' =>
      match row_get df row "indicator" with
      | Raise e => Raise e
      | Ok ind =>
          let d' :=
            if negb (py_eq ind (VStr "registered_count")) then
              match row_get df row "value" with
              | Ok v => match py_float v with
                        | Ok f => setitem (nan_is_one_object df "indicator") d ind f
                        | Raise _ => d
                        end
              | Raise _ => d
              end
            else d in
          disciplines_loop df rs' d'
      end
  end.

Definition load_artist_status : M (option ArtistStatus) :=
  try_except (ret tt)
    (fun e => print ("Artist Live Sheet Error: " +:+ exn_name e)) ;;
  try_except
    (df <- read_csv "data/fallback_artists.csv" ;;
     reg_row <- of_res (filter_eq df "indicator" (VStr "registered_count")) ;;
     count <- (if negb (df_empty reg_row) then
                 first <- lift IndexError (hd_error (rows reg_row)) ;;
                 v <- of_res (row_get reg_row first "value") ;;
                 of_res (py_int v)
               else ret 0) ;;
     d <- of_res (disciplines_loop df (iterrows df) []) ;;
     ret (Some (mkArtistStatus count d)))
    (fun e => print ("Artist Registry Error: " +:+ exn_name e) ;; ret None).

End WithLibrary.
End DataLoader.

(** ** scripts/update_data.py *)

Module UpdateData.

Inductive dataset : Type := unesco | economics | artists.

Definition key (d : dataset) : string :=
  match d with
  | unesco => "unesco"
  | economics => "economics"
  | artists => "artists"
  end.

Definition DATA_URLS : list (string * string) :=
  [ ("unesco", "https://data.gov.cz/some/generic/path/unesco.csv");
    ("economics", "https://data.csu.gov.cz/api/katalog/v1/wages");
    ("artists", "https://docs.google.com/spreadsheets/d/e/2PACX-1vR_placeholder_id/pub?output=csv") ].

(** [DATA_URLS[k]] *)
Definition data_url (k : string) : M string :=
  lift (KeyError k) (assoc k DATA_URLS).

(** [os.path.join(a, b)] for a relative [b] *)
Definition path_join (a b : string) : string := a +:+ "/" +:+ b.

Section WithDataDir.
(** [DATA_DIR]: the [data] directory beside the [scripts] directory, computed
    from the location of the script when the module is loaded. *)
Variable DATA_DIR : string.

Definition target_path (d : dataset) : string :=
  path_join DATA_DIR
    match d with
    | unesco => "fallback_unesco.csv"
    | economics => "fallback_economics.json"
    | artists => "fallback_artists.csv"
    end.

(** In the three functions the request and the write to [target_path] are
    commented out in the source; what is left only logs. *)
Definition fetch_unesco_data : M unit :=
  url <- data_url "unesco" ;;
  let target_path := target_path unesco in
  try_except
    (logger INFO ("Fetching UNESCO data from " +:+ url +:+ "...") ;;
     found <- path_exists target_path ;;
     if found : bool then logger INFO "Local UNESCO file verified."
     else logger WARNING "No local UNESCO file found.")
    (fun e => logger ERROR ("Failed to update UNESCO data: " +:+ exn_name e)).

Definition fetch_economic_data : M unit :=
  url <- data_url "economics" ;;
  let target_path := target_path economics in
  try_except
    (logger INFO ("Fetching Economic data from " +:+ url +:+ "...") ;;
     logger INFO "Economic data processing skipped (placeholder URL).")
    (fun e => logger ERROR ("Failed to update Economic data: " +:+ exn_name e)).

Definition fetch_artist_data : M unit :=
  url <- data_url "artists" ;;
  let target_path := target_path artists in
  try_except
    (logger INFO ("Fetching Artist data from " +:+ url +:+ "...") ;;
     logger INFO "Artist data processing skipped (placeholder URL).")
    (fun e => logger ERROR ("Failed to update Artist data: " +:+ exn_name e)).

Definition update_all_data : M unit :=
  logger INFO "Starting daily data update..." ;;
  fetch_unesco_data ;;
  fetch_economic_data ;;
  fetch_artist_data ;;
  logger INFO "Daily data update completed.".

End WithDataDir.
End UpdateData.

(** ** app.py *)

Module App.

(** *** The background scheduler *)

Record Job : Type := mkJob {
  func : string;
  hour : Z;
  minute : Z
}.

(** An [apscheduler] [BackgroundScheduler]: its jobs and whether it runs. *)
Record BackgroundScheduler : Type := mkScheduler {
  jobs : list Job;
  running : bool
}.

(** The state of the server process that outlives a run of the script: the
    schedulers created so far, the [atexit] handlers (each shuts down the
    scheduler at the given position), and the [st.session_state] of every
    session, which Streamlit keeps per browser session. *)
Record Process : Type := mkProcess {
  schedulers : list BackgroundScheduler;
  atexit_handlers : list nat;
  session_states : gmap nat (gmap string value)
}.

Definition add_job (s : BackgroundScheduler) (j : Job) : BackgroundScheduler :=
  mkScheduler (jobs s ++ [j]) (running s).

Definition start (s : BackgroundScheduler) : BackgroundScheduler :=
  mkScheduler (jobs s) true.

Definition init_scheduler (p : Process) : Process :=
  let scheduler := mkScheduler [] false in
  let scheduler := add_job scheduler (mkJob "update_all_data" 6 0) in
  let scheduler := start scheduler in
  mkProcess (schedulers p ++ [scheduler])
            (atexit_handlers p ++ [length (schedulers p)])
            (session_states p).

(** The head of the script, executed at every run of the script for the
    session [sid]:
    [if "scheduler_started" not in st.session_state: init_scheduler(); ...] *)
Definition startup (sid : nat) (p : Process) : Process :=
  let session_state := default ∅ (session_states p !! sid) in
  if bool_decide (is_Some (session_state !! "scheduler_started")) then
    mkProcess (schedulers p) (atexit_handlers p)
              (<[sid := session_state]> (session_states p))
  else
    let p' := init_scheduler p in
    mkProcess (schedulers p') (atexit_handlers p')
              (<[sid := <["scheduler_started" := VBool true]> session_state]>
                 (session_states p')).

(** The script runs once for every element of [sids], in that order: a new
    session when the identifier is new, a rerun of the session otherwise. *)
Definition runs (sids : list nat) (p : Process) : Process :=
  fold_left (fun p sid => startup sid p) sids p.

(** A process that has just started. *)
Definition fresh_process : Process := mkProcess [] [] ∅.

(** The jobs that fire when the clock reaches [h]:[m]: every job with that
    trigger, of every running scheduler. *)
Definition fired (h m : Z) (p : Process) : list Job :=
  List.concat
    (List.map (fun s => if running s
                        then List.filter (fun j => (hour j =? h) && (minute j =? m)) (jobs s)
                        else [])
              (schedulers p)).

(** *** Heritage & UNESCO Map: the table of top sites *)

Section WithLibrary.
Context {L : Library}.

Fixpoint column_positions (df : DataFrame) (names : list string) : res (list nat) :=
  match names with
  | [] => Ok []
  | n :: names' =>
      match column_pos df n with
      | Raise e => Raise e
      | Ok i => match column_positions df names' with
                | Raise e => Raise e
                | Ok l => Ok (i :: l)
                end
      end
  end.

(** [df[[n1, n2, ...]]] *)
Definition select_columns (df : DataFrame) (names : list string) : res DataFrame :=
  match column_positions df names with
  | Raise e => Raise e
  | Ok l => Ok (mkDF names (List.map (fun r => List.map (fun i => cell i r) l) (rows df)))
  end.

(** [df.sort_values(col, ascending=False)] *)
Definition sort_values_desc (df : DataFrame) (col : string) : res DataFrame :=
  match column_pos df col with
  | Raise e => Raise e
  | Ok i =>
      let order := argsort_desc (List.map (cell i) (rows df)) in
      Ok (mkDF (columns df) (List.map (fun j => nth j (rows df) []) order))
  end.

(** [df.head(n)] *)
Definition head (n : nat) (df : DataFrame) : DataFrame :=
  mkDF (columns df) (firstn n (rows df)).

Definition visitor_col : string := "visitors_2024".

(** [sites_df[["name", visitor_col, "renovation_roi"]]
      .sort_values(visitor_col, ascending=False).head(5)] *)
Definition top_sites (sites_df : DataFrame) : res DataFrame :=
  match select_columns sites_df ["name"; visitor_col; "renovation_roi"] with
  | Raise e => Raise e
  | Ok selected =>
      match sort_values_desc selected visitor_col with
      | Raise e => Raise e
      | Ok sorted => Ok (head 5 sorted)
      end
  end.

(** *** State Budget *)

Inductive widget : Type :=
  | Metric (label val delta : string)
  | ErrorBox (msg : string).

(** [budget_df['Amount_CZK'].sum()] *)
Definition total_budget (budget_df : DataFrame) : res value :=
  match column_pos budget_df "Amount_CZK" with
  | Raise e => Raise e
  | Ok i => match series_sum (List.map (cell i) (rows budget_df)) with
            | Some t => Ok t
            | None => Raise TypeError
            end
  end.

(** The head of the State Budget module: the total as a key metric, or the
    error box when no row is served. *)
Definition state_budget (current_year : Z) : M widget :=
  budget_df <- DataLoader.load_budget current_year ;;
  if negb (df_empty budget_df) then
    total <- of_res (total_budget budget_df) ;;
    shown <- of_res (format_amount total) ;;
    ret (Metric ("Total Ministry Budget " +:+ pretty current_year)
                (shown +:+ " CZK") "Approved")
  else
    ret (ErrorBox ("Budget Data Unavailable for " +:+ pretty current_year)).

End WithLibrary.
End App.

(** ** The dataset accessors *)

(** The datasets the loader serves, by the method of [DataLoader] that serves
    each; the budget is one dataset per year. *)
Inductive Dataset : Type :=
  | economic_indicators
  | unesco_sites
  | budget (year : Z)
  | nameday
  | artist_status.

Definition dataset_name (D : Dataset) : string :=
  match D with
  | economic_indicators => "economic_indicators"
  | unesco_sites => "unesco_sites"
  | budget year => "budget:" +:+ pretty year
  | nameday => "nameday"
  | artist_status => "artist_status"
  end.

(** What an accessor returns: a JSON value ([None] is [JNull]), a table, or
    the artist record ([None] when unavailable). *)
Inductive Resolved : Type :=
  | RJson (j : json)
  | RFrame (df : DataFrame)
  | RArtist (a : option ArtistStatus).

Section WithLibrary.
Context {L : Library}.

Definition resolve (D : Dataset) : M Resolved :=
  match D with
  | economic_indicators => j <- DataLoader.load_economic_indicators ;; ret (RJson j)
  | unesco_sites => df <- DataLoader.load_unesco_sites ;; ret (RFrame df)
  | budget year => df <- DataLoader.load_budget year ;; ret (RFrame df)
  | nameday => j <- DataLoader.load_nameday ;; ret (RJson j)
  | artist_status => a <- DataLoader.load_artist_status ;; ret (RArtist a)
  end.

(** The [ttl] of the [st.cache_data] decorator on each method. *)
Definition ttl_of (D : Dataset) : Z :=
  match D with
  | economic_indicators => DataLoader.ttl_economic_indicators
  | unesco_sites => DataLoader.ttl_unesco_sites
  | budget _ => DataLoader.ttl_budget
  | nameday => DataLoader.ttl_nameday
  | artist_status => DataLoader.ttl_artist_status
  end.

End WithLibrary.

(** *** The TTL cache *)

(** Modelled from the spec: the cache behind [st.cache_data] is Streamlit's
    and no part of this repository; the source only decorates each method and
    fixes its [ttl].  Following sections 3 and 4.3 of the specification, an
    entry holds the last resolved value, the time it was resolved and the TTL
    that governs it; it is served only while [now - resolved_at < ttl], and an
    expired entry is treated as absent. *)
Record CacheEntry : Type := mkEntry {
  entry_value : Resolved;
  resolved_at : Z;
  entry_ttl : Z
}.

(** The entries by dataset name, and the resolver invocations so far. *)
Record Cache : Type := mkCache {
  entries : gmap string CacheEntry;
  invocations : list string
}.

Definition empty_cache : Cache := mkCache ∅ [].

Definition live (now : Z) (e : CacheEntry) : option Resolved :=
  if now - resolved_at e <? entry_ttl e then Some (entry_value e) else None.

(** Modelled from the spec: [getOrResolve(datasetName, resolverFn)] of section
    4.3, with the clock reading [now] of the access: a live entry is returned
    as it is; otherwise the resolver runs once and its value is stored with
    the time of the access. *)
Definition get_or_resolve (now : Z) (name : string) (ttl : Z)
    (resolver : M Resolved) (c : Cache) (w : World) : res Resolved * Cache * World :=
  match entries c !! name ≫= live now with
  | Some v => (Ok v, c, w)
  | None =>
      let called := (invocations c ++ [name])%list in
      match resolver w with
      | (Ok v, w') => (Ok v, mkCache (<[name := mkEntry v now ttl]> (entries c)) called, w')
      | (Raise e, w') => (Raise e, mkCache (entries c) called, w')
      end
  end.

(** A decorated method of [DataLoader], called at time [now]. *)
Definition cached_accessor {L : Library} (now : Z) (D : Dataset)
    (c : Cache) (w : World) : res Resolved * Cache * World :=
  get_or_resolve now (dataset_name D) (ttl_of D) (resolve D) c w.

(** ** What the loaders compute *)

(** Where each dataset keeps its snapshot; the nameday has none. *)
Definition snapshot_path (D : Dataset) : option string :=
  match D with
  | economic_indicators => Some "data/fallback_economics.json"
  | unesco_sites => Some "data/fallback_unesco.csv"
  | budget _ => Some "data/budget_official.csv"
  | artist_status => Some "data/fallback_artists.csv"
  | nameday => None
  end.

(** The live request a loader makes before it turns to the snapshot, with its
    timeout: only the economic indicators have one (the requests for the
    UNESCO sites and the artist registry are commented out in the source). *)
Definition probe (D : Dataset) : option (string * Z) :=
  match D with
  | economic_indicators => Some (DataLoader.CZSO_API_URL +:+ "/sady/mzdy/ukazatele", 3)
  | _ => None
  end.

(** The probe failed: the request raised (connection error, timeout) or the
    status is not 200.  A dataset without a probe counts as failed. *)
Definition probe_fails (D : Dataset) (w : World) : Prop :=
  match probe D with
  | Some (url, t) => match net w url t with
                     | Raise _ => True
                     | Ok r => status_code r <> 200
                     end
  | None => True
  end.

(** The value by which each accessor signals that it has nothing to serve:
    [None], or an empty table. *)
Definition unavailable (D : Dataset) : Resolved :=
  match D with
  | economic_indicators | nameday => RJson JNull
  | unesco_sites | budget _ => RFrame empty_frame
  | artist_status => RArtist None
  end.

Section WithLibrary.
Context {L : Library}.

(** The record the fallback branch of [load_artist_status] builds from the
    parsed table. *)
Definition artist_record (df : DataFrame) : res ArtistStatus :=
  match filter_eq df "indicator" (VStr "registered_count") with
  | Raise e => Raise e
  | Ok reg_row =>
      let count :=
        if negb (df_empty reg_row) then
          match hd_error (rows reg_row) with
          | Some first => match row_get reg_row first "value" with
                          | Ok v => py_int v
                          | Raise e => Raise e
                          end
          | None => Raise IndexError
          end
        else Ok 0 in
      match count with
      | Raise e => Raise e
      | Ok n => match DataLoader.disciplines_loop df (iterrows df) [] with
                | Ok d => Ok (mkArtistStatus n d)
                | Raise e => Raise e
                end
      end
  end.

(** The rows of a budget table for one year, as [load_budget] serves them;
    a table without a [Year] column has none. *)
Definition year_rows (df : DataFrame) (year : Z) : DataFrame :=
  match filter_eq df "Year" (VInt year) with
  | Ok filtered => filtered
  | Raise _ => empty_frame
  end.

(** The content of a dataset as read from the text of its snapshot: the
    parsed JSON value, the parsed table, the rows of the year, the registry
    record.  [None] when the text does not parse into such a content. *)
Definition snapshot_read (D : Dataset) (c : string) : option Resolved :=
  match D with
  | economic_indicators => RJson <$> json_loads c
  | unesco_sites => RFrame <$> read_csv_text c
  | budget year =>
      df ← read_csv_text c;
      match filter_eq df "Year" (VInt year) with
      | Ok filtered => Some (RFrame filtered)
      | Raise _ => None
      end
  | artist_status =>
      df ← read_csv_text c;
      match artist_record df with
      | Ok a => Some (RArtist (Some a))
      | Raise _ => None
      end
  | nameday => None
  end.

(** What [load_nameday] makes of a parsed response. *)
Definition nameday_of (data : json) : res json :=
  if truthy data then
    match py_len data with
    | Raise e => Raise e
    | Ok n => if 0 <? n then
                match index0 data with
                | Ok first => getitem first "name"
                | Raise e => Raise e
                end
              else Ok (JStr "Unknown")
    end
  else Ok (JStr "Unknown").

End WithLibrary.

(** ** Specified behaviour, for comparison with the code *)

(** A served artist record is populated from the snapshot: its
    [registered_count] is the integer of the [registered_count] row of the
    table read from the snapshot file. *)
Definition count_from_snapshot {L : Library} (w : World) (a : ArtistStatus) : Prop :=
  exists (c : string) (df : DataFrame) (row : list value) (v : value),
    files w !! "data/fallback_artists.csv" = Some c
    /\ read_csv_text c = Some df
    /\ In row (rows df)
    /\ row_get df row "indicator" = Ok (VStr "registered_count")
    /\ row_get df row "value" = Ok v
    /\ py_int v = Ok (registered_count a).

(** The refresh run as specified, for a run started in [w]: the file of a
    dataset whose endpoint answers 200 within the ten seconds of the batch
    timeout is written, the file of any other dataset keeps its content. *)
Definition probe_succeeds (w : World) (d : UpdateData.dataset) : Prop :=
  exists (url : string) (r : Response),
    assoc (UpdateData.key d) UpdateData.DATA_URLS = Some url
    /\ net w url 10 = Ok r
    /\ status_code r = 200.

Definition refresh_as_specified (DATA_DIR : string) (w : World) : Prop :=
  let w' := snd (UpdateData.update_all_data DATA_DIR w) in
  forall d : UpdateData.dataset,
    (probe_succeeds w d -> In (UpdateData.target_path DATA_DIR d) (written w'))
    /\ (~ probe_succeeds w d ->
        files w' !! UpdateData.target_path DATA_DIR d
        = files w !! UpdateData.target_path DATA_DIR d).

(** In a table of top sites, rows with equal [visitors_2024] stand in
    ascending order of [name]: of two such rows the one higher up has the
    name that compares smaller or equal, by code points as Python compares
    strings. *)
Definition ties_by_name (t : DataFrame) : Prop :=
  forall (a b : nat) (ra rb : list value) (v : value) (na nb : string),
    (a < b)%nat ->
    rows t !! a = Some ra ->
    rows t !! b = Some rb ->
    row_get t ra App.visitor_col = Ok v ->
    row_get t rb App.visitor_col = Ok v ->
    row_get t ra "name" = Ok (VStr na) ->
    row_get t rb "name" = Ok (VStr nb) ->
    String.leb na nb = true.

(** ** Notions the properties are stated with *)

(** A row of a budget table belongs to the year [y]: the table has a [Year]
    column and the cell of the row in it equals [y]. *)
Definition in_year (df : DataFrame) (y : Z) (row : list value) : bool :=
  match col_index "Year" (columns df) with
  | Some i => py_eq (cell i row) (VInt y)
  | None => false
  end.

(** The same world with other files. *)
Definition set_files (fs : gmap string string) (w : World) : World :=
  mkWorld fs (net w) (stdout w) (log w) (requests w) (written w).

(** The job [init_scheduler] registers. *)
Definition daily_job : App.Job := App.mkJob "update_all_data" 6 0.

(** What holds of a process between runs of the script: every session that
    has run carries the flag, there is one scheduler per such session, and
    each scheduler runs with the daily job alone. *)
Definition process_inv (p : App.Process) : Prop :=
  (forall (sid : nat) (ss : gmap string value),
     App.session_states p !! sid = Some ss -> is_Some (ss !! "scheduler_started"))
  /\ length (App.schedulers p) = size (dom (App.session_states p))
  /\ Forall (fun s => s = App.mkScheduler [daily_job] true) (App.schedulers p).

(** The three cells of a site that the table shows. *)
Definition shown_cells (iN iV iR : nat) (r : list value) : list value :=
  [cell iN r; cell iV r; cell iR r].

(** The cells shown of a site of [tied_frame]. *)
Definition tied_cells (n : string) : list value :=
  [VStr n; VInt 100000; VFloat 200].

Section WithLibrary.
Context {L : Library}.

(** What the head of the State Budget module shows, from the table
    [load_budget] serves. *)
Definition budget_widget (year : Z) (served : DataFrame) : res App.widget :=
  if negb (df_empty served) then
    match App.total_budget served with
    | Raise e => Raise e
    | Ok total =>
        match format_amount total with
        | Raise e => Raise e
        | Ok shown =>
            Ok (App.Metric ("Total Ministry Budget " +:+ pretty year)
                           (shown +:+ " CZK") "Approved")
        end
    end
  else Ok (App.ErrorBox ("Budget Data Unavailable for " +:+ pretty year)).

End WithLibrary.

(** ** The snapshots in the formats of the specification *)

(** What the specification calls the content of a snapshot, written from its
    description of the file formats and not from the loaders: the parsed
    record of the economic indicators, the table of the sites, the budget
    lines of the year, and the registry as a record of the registered count
    and the percentage of each discipline. *)

Section WithLibrary.
Context {L : Library}.

(** The whole number in a cell: an integer, a float that holds one, or the
    text of one. *)
Definition whole_number (v : value) : option Z :=
  match v with
  | VInt z => Some z
  | VFloat f => exact_int f
  | VStr s => int_of_str s
  | VBool _ => None
  end.

(** The percentage in a cell: a number that is not missing, or the text of
    one. *)
Definition percentage (v : value) : option float :=
  match v with
  | VInt z => Some (Z2float z)
  | VFloat f => if PrimFloat.is_nan f then None else Some f
  | VStr s => float_of_str s
  | VBool _ => None
  end.

(** The rows of a registry table as pairs of an indicator, which is a
    string, and a value. *)
Definition registry_entries (df : DataFrame) : option (list (string * value)) :=
  iI ← col_index "indicator" (columns df);
  iV ← col_index "value" (columns df);
  mapM (fun row => match cell iI row with
                   | VStr s => Some (s, cell iV row)
                   | _ => None
                   end) (rows df).

(** The registry record of a table in the format of the specification: one
    row has the indicator [registered_count] and a whole number, every other
    row names a discipline, each discipline once, with its percentage. *)
Definition registry_as_specified (df : DataFrame) : option ArtistStatus :=
  entries ← registry_entries df;
  match List.filter (fun e => String.eqb e.1 "registered_count") entries with
  | [(_, v)] =>
      n ← whole_number v;
      ds ← mapM (fun e => f ← percentage e.2; Some (e.1, f))
                (List.filter (fun e => negb (String.eqb e.1 "registered_count")) entries);
      if bool_decide (NoDup ds.*1)
      then Some (mkArtistStatus n (List.map (fun e => (VStr e.1, e.2)) ds))
      else None
  | _ => None
  end.

(** The budget lines of the year [y]: the rows of the table whose [Year] is
    [y], under the same columns. *)
Definition budget_as_specified (df : DataFrame) (y : Z) : option DataFrame :=
  match col_index "Year" (columns df) with
  | Some _ => Some (mkDF (columns df) (List.filter (in_year df y) (rows df)))
  | None => None
  end.

(** The content of the snapshot of [D] with the text [c]; [None] when the
    text is no snapshot of [D] in its format. *)
Definition snapshot_content (D : Dataset) (c : string) : option Resolved :=
  match D with
  | economic_indicators => RJson <$> json_loads c
  | unesco_sites => RFrame <$> read_csv_text c
  | budget y => df ← read_csv_text c; RFrame <$> budget_as_specified df y
  | artist_status =>
      df ← read_csv_text c;
      a ← registry_as_specified df;
      Some (RArtist (Some a))
  | nameday => None
  end.

(** The total as specified, for the State Budget page of the year [y] in the
    world [w]: where the amounts of the budget lines of the year are
    integers, the page displays their sum. *)
Definition total_as_specified (w : World) (y : Z) : Prop :=
  forall (c : string) (df : DataFrame) (i : nat) (zs : list Z),
    files w !! "data/budget_official.csv" = Some c ->
    read_csv_text c = Some df ->
    col_index "Amount_CZK" (columns df) = Some i ->
    List.map (cell i) (List.filter (in_year df y) (rows df)) = List.map VInt zs ->
    zs <> [] ->
    Forall in_int64 zs ->
    fst (App.state_budget y w)
    = Ok (App.Metric ("Total Ministry Budget " +:+ pretty y)
                     (thousands (Zsum zs) +:+ " CZK") "Approved").

End WithLibrary.

(** ** Whole numbers in floats *)

(** What the conversion of an integer to a float and the comparison of floats
    do, from the specification of the floats: needed to run the reference
    library and to read off what a formatted total shows. *)

Lemma digits2_iter (m k : positive) :
  digits2_pos (Pos.iter xO m k) = (digits2_pos m + k)%positive.
Proof.
  induction k as [|k IH] using Pos.peano_ind.
  - cbn. lia.
  - rewrite Pos.iter_succ. cbn [digits2_pos]. rewrite IH. lia.
Qed.

Lemma Zpos_iter (m k : positive) :
  Z.pos (Pos.iter xO m k) = Z.pos m * 2 ^ Z.pos k.
Proof.
  induction k as [|k IH] using Pos.peano_ind.
  - cbn. lia.
  - rewrite Pos.iter_succ, Pos2Z.inj_succ, Z.pow_succ_r by lia.
    rewrite Pos2Z.inj_xO, IH. lia.
Qed.

Lemma digits2_lower (m : positive) : 2 ^ (Z.pos (digits2_pos m) - 1) <= Z.pos m.
Proof.
  induction m as [m IH|m IH|]; cbn [digits2_pos].
  - rewrite Pos2Z.inj_succ.
    replace (Z.succ (Z.pos (digits2_pos m)) - 1) with (Z.succ (Z.pos (digits2_pos m) - 1)) by lia.
    rewrite Z.pow_succ_r by lia. lia.
  - rewrite Pos2Z.inj_succ.
    replace (Z.succ (Z.pos (digits2_pos m)) - 1) with (Z.succ (Z.pos (digits2_pos m) - 1)) by lia.
    rewrite Z.pow_succ_r by lia. lia.
  - cbn. lia.
Qed.

Lemma digits2_le_53 (m : positive) : Z.pos m < 2 ^ 53 -> Z.pos (digits2_pos m) <= 53.
Proof.
  intros Hm. destruct (Z_le_gt_dec (Z.pos (digits2_pos m)) 53) as [H|H]; [exact H|].
  exfalso. pose proof (digits2_lower m) as Hlow.
  assert (2 ^ 53 <= 2 ^ (Z.pos (digits2_pos m) - 1)) by (apply Z.pow_le_mono_r; lia).
  lia.
Qed.

Lemma binary_round_aux_exact (sx : bool) (mz : positive) (ez : Z) :
  Z.pos (digits2_pos mz) = 53 -> -1074 <= ez <= 971 ->
  binary_round_aux prec emax sx (Z.pos mz) ez loc_Exact = S754_finite sx mz ez.
Proof.
  intros Hd He. unfold binary_round_aux, shr_fexp, fexp, emin.
  cbn [Zdigits2 shr_record_of_loc]. rewrite Hd.
  replace (Z.max (53 + ez - prec) (3 - emax - prec) - ez) with 0
    by (unfold prec, emax; lia).
  cbn [shr shr_m loc_of_shr_record round_nearest_even Zdigits2 shr_record_of_loc].
  rewrite Hd.
  replace (Z.max (53 + ez - prec) (3 - emax - prec) - ez) with 0
    by (unfold prec, emax; lia).
  cbn [shr shr_m].
  replace (ez <=? emax - prec) with true; [reflexivity|].
  symmetry. apply Z.leb_le. unfold prec, emax. lia.
Qed.

Definition aligned (m : positive) : positive :=
  match (53 - Z.pos (digits2_pos m))%Z with
  | Z.pos k => Pos.iter xO m k
  | _ => m
  end.

Lemma binary_normalize_exact (s : bool) (m : positive) :
  Z.pos m < 2 ^ 53 ->
  binary_normalize prec emax (if s then Z.neg m else Z.pos m) 0 false
  = S754_finite s (aligned m) (Z.pos (digits2_pos m) - 53).
Proof.
  intros Hm. pose proof (digits2_le_53 m Hm) as Hd.
  assert (Hround : binary_round prec emax s m 0
                   = S754_finite s (aligned m) (Z.pos (digits2_pos m) - 53)).
  { unfold binary_round, shl_align, fexp, emin, aligned.
    set (d := Z.pos (digits2_pos m)) in *.
    assert (0 < d) by (unfold d; lia).
    replace (Z.max (d + 0 - prec) (3 - emax - prec) - 0) with (d - 53)
      by (unfold prec, emax; lia).
    replace (Z.max (d + 0 - prec) (3 - emax - prec)) with (d - 53)
      by (unfold prec, emax; lia).
    destruct (d - 53) as [|k|k] eqn:Hk; [| lia |].
    - replace (53 - d) with 0 by lia.
      apply binary_round_aux_exact; [fold d; lia | lia].
    - replace (53 - d) with (Z.pos k) by lia.
      rewrite <- Hk.
      apply binary_round_aux_exact; [|lia].
      rewrite digits2_iter, Pos2Z.inj_add. fold d. lia. }
  destruct s; exact Hround.
Qed.

Lemma aligned_value (m : positive) :
  Z.pos m < 2 ^ 53 ->
  Z.pos (aligned m) = Z.pos m * 2 ^ (53 - Z.pos (digits2_pos m)).
Proof.
  intros Hm. pose proof (digits2_le_53 m Hm) as Hd. unfold aligned.
  destruct (53 - Z.pos (digits2_pos m)) as [|k|k] eqn:Hk; [cbn; lia | | lia].
  apply Zpos_iter.
Qed.

Lemma aligned_digits (m : positive) :
  Z.pos m < 2 ^ 53 -> Z.pos (digits2_pos (aligned m)) = 53.
Proof.
  intros Hm. pose proof (digits2_le_53 m Hm) as Hd. unfold aligned.
  destruct (53 - Z.pos (digits2_pos m)) as [|k|k] eqn:Hk; [lia | | lia].
  rewrite digits2_iter, Pos2Z.inj_add. lia.
Qed.

(** The float of a whole number below [2^53] in absolute value holds it
    exactly. *)
Lemma Prim2SF_Z2float (s : bool) (m : positive) :
  Z.pos m < 2 ^ 53 ->
  Prim2SF (Z2float (if s then Z.neg m else Z.pos m))
  = S754_finite s (aligned m) (Z.pos (digits2_pos m) - 53).
Proof.
  intros Hm. unfold Z2float. rewrite binary_normalize_exact by exact Hm.
  apply Prim2SF_SF2Prim. cbn [valid_binary]. unfold bounded, canonical_mantissa, fexp, emin.
  rewrite (aligned_digits m Hm).
  pose proof (digits2_le_53 m Hm) as Hd.
  apply andb_true_intro. split.
  - apply Z.eqb_eq. unfold prec, emax. lia.
  - apply Z.leb_le. unfold prec, emax. lia.
Qed.

Lemma whole_of_aligned (m : positive) (e : Z) :
  Z.pos m < 2 ^ 53 ->
  e = Z.pos (digits2_pos m) - 53 ->
  ((0 <=? e) = true /\ Z.pos (aligned m) * 2 ^ e = Z.pos m)
  \/ ((0 <=? e) = false /\ Z.pos (aligned m) mod 2 ^ (- e) = 0
      /\ Z.pos (aligned m) / 2 ^ (- e) = Z.pos m).
Proof.
  intros Hm He. pose proof (digits2_le_53 m Hm) as Hd.
  rewrite (aligned_value m Hm).
  replace (53 - Z.pos (digits2_pos m)) with (- e) by lia.
  assert (Hle : e <= 0) by lia. clear He Hd.
  destruct (Z.eq_dec e 0) as [->|Hne].
  - left. split; [reflexivity|]. change (- 0) with 0. change (2 ^ 0) with 1. lia.
  - right. assert (H2 : 0 < 2 ^ (- e)) by (apply Z.pow_pos_nonneg; lia).
    split; [apply Z.leb_gt; lia|]. split.
    + apply Z.mod_mul. lia.
    + apply Z.div_mul. lia.
Qed.

Lemma exact_int_Z2float (z : Z) : Z.abs z < 2 ^ 53 -> exact_int (Z2float z) = Some z.
Proof.
  intros Hz. destruct z as [|m|m].
  - reflexivity.
  - unfold exact_int. rewrite (Prim2SF_Z2float false m) by exact Hz.
    destruct (whole_of_aligned m _ Hz eq_refl) as [[-> H] | (-> & -> & H)];
      cbn [Z.eqb]; cbv zeta; now rewrite H.
  - unfold exact_int. rewrite (Prim2SF_Z2float true m) by exact Hz.
    destruct (whole_of_aligned m _ Hz eq_refl) as [[-> H] | (-> & -> & H)];
      cbn [Z.eqb]; cbv zeta; now rewrite H.
Qed.

Lemma is_nan_Prim2SF (f : float) : PrimFloat.is_nan f = true -> Prim2SF f = S754_nan.
Proof.
  unfold PrimFloat.is_nan. rewrite FloatAxioms.eqb_spec. unfold SFeqb.
  destruct (Prim2SF f) as [s|s| |s m e]; cbn [SFcompare negb]; try reflexivity.
  - discriminate.
  - destruct s; discriminate.
  - destruct s; rewrite Z.compare_refl, Pos.compare_cont_refl; discriminate.
Qed.

Lemma eqb_nan_r (f g : float) : PrimFloat.is_nan g = true -> PrimFloat.eqb f g = false.
Proof.
  intros Hg. rewrite FloatAxioms.eqb_spec, (is_nan_Prim2SF g Hg). unfold SFeqb.
  now destruct (Prim2SF f).
Qed.

Lemma eqb_nan_l (f g : float) : PrimFloat.is_nan f = true -> PrimFloat.eqb f g = false.
Proof.
  intros Hf. rewrite FloatAxioms.eqb_spec, (is_nan_Prim2SF f Hf). reflexivity.
Qed.

(** ** A reference library and reference worlds *)

(** One implementation of [Library], small enough to compute with: the texts
    it parses are the snapshot and response texts defined below, it converts
    decimal digits, sums columns of whole numbers, and sorts by merge sort.  The general theorems hold for every library; this one serves
    to run the model on concrete inputs. *)
Module Fixture.

Definition sort_key (v : value) : Z :=
  match v with
  | VInt z => z
  | VBool b => bool2Z b
  | _ => 0
  end.

Definition before (a b : Z * nat) : Prop := b.1 <= a.1.

#[local] Instance before_dec : RelDecision before.
Proof. intros a b. unfold before. apply _. Defined.

#[local] Instance before_total : Total before.
Proof. intros a b. unfold before. lia. Qed.

Definition argsort (ks : list value) : list nat :=
  (merge_sort before (zip (sort_key <$> ks) (seq 0 (length ks)))).*2.

Lemma argsort_perm (ks : list value) :
  Permutation (argsort ks) (seq 0 (length ks)).
Proof.
  unfold argsort.
  rewrite merge_sort_Permutation.
  rewrite snd_zip; [reflexivity|].
  rewrite length_seq, length_fmap. lia.
Qed.

Lemma zip_seq_nth (l : list Z) (s : nat) (k : Z) (i : nat) :
  (k, i) ∈ zip l (seq s (length l)) -> nth (i - s) l 0 = k.
Proof.
  revert s. induction l as [|x l IH]; intros s Hin; simpl in Hin.
  - inversion Hin.
  - apply elem_of_cons in Hin as [Heq | Hin].
    + injection Heq as -> ->. now rewrite Nat.sub_diag.
    + assert (Hlt : (S s <= i)%nat).
      { apply elem_of_zip_r, elem_of_seq in Hin. lia. }
      specialize (IH (S s) Hin).
      replace (i - s)%nat with (S (i - S s)) by lia.
      exact IH.
Qed.

Lemma keyed_fst (zs : list Z) (l : list (Z * nat)) :
  Forall (fun p => nth p.2 zs 0 = p.1) l ->
  List.map (fun i => nth i zs 0) (l.*2) = l.*1.
Proof.
  induction l as [|[k i] l IH]; intros H; [reflexivity|].
  apply Forall_cons in H as [Hp H]. cbn in Hp.
  change (nth i zs 0 :: List.map (fun i => nth i zs 0) (l.*2) = k :: l.*1).
  rewrite Hp. f_equal. apply IH, H.
Qed.

Lemma argsort_sorted (zs : list Z) :
  Sorted (fun a b : Z => b <= a)
         (List.map (fun i => nth i zs 0) (argsort (List.map VInt zs))).
Proof.
  unfold argsort.
  set (l := merge_sort before _).
  assert (Hkeys : sort_key <$> List.map VInt zs = zs).
  { induction zs as [|z zs IH]; [reflexivity | cbn; f_equal; exact IH]. }
  rewrite keyed_fst.
  - apply Sorted_fmap with (R1 := before); [now intros [] [] | ].
    apply (Sorted_merge_sort before).
  - apply Forall_forall. intros [k i] Hin.
    subst l.
    rewrite merge_sort_Permutation in Hin.
    rewrite Hkeys, length_map in Hin.
    apply zip_seq_nth in Hin. simpl. now rewrite Nat.sub_0_r in Hin.
Qed.

(** *** Conversions and formatting *)

Definition digit_of (c : Ascii.ascii) : option Z :=
  let n := Z.of_N (Ascii.N_of_ascii c) in
  if (48 <=? n) && (n <=? 57) then Some (n - 48) else None.

Fixpoint digits_value (acc : Z) (s : string) : option Z :=
  match s with
  | EmptyString => Some acc
  | String c s' => match digit_of c with
                   | Some d => digits_value (10 * acc + d) s'
                   | None => None
                   end
  end.

(** A non-empty run of decimal digits. *)
Definition decimal (s : string) : option Z :=
  match s with
  | EmptyString => None
  | _ => digits_value 0 s
  end.

(** The sum of a column: of integers in [int64]; of floats that hold whole
    numbers, the missing ones skipped, where no addition can round.  Other
    columns this library does not sum. *)
Fixpoint ints (vs : list value) : option (list Z) :=
  match vs with
  | [] => Some []
  | VInt z :: vs' => cons z <$> ints vs'
  | _ => None
  end.

Fixpoint addends (vs : list value) : option (list Z) :=
  match vs with
  | [] => Some []
  | VFloat f :: vs' =>
      match addend f, addends vs' with
      | Some z, Some zs => Some (z :: zs)
      | _, _ => None
      end
  | _ => None
  end.

Definition sum_cells (vs : list value) : option value :=
  match ints vs with
  | Some zs => Some (VInt (wrap_int64 (Zsum zs)))
  | None =>
      match addends vs with
      | Some zs => if Zsum_abs zs <? 2 ^ 53
                   then Some (VFloat (Z2float (Zsum zs)))
                   else None
      | None => None
      end
  end.

Lemma ints_map (zs : list Z) : ints (List.map VInt zs) = Some zs.
Proof. induction zs as [|z zs IH]; cbn; [reflexivity | now rewrite IH]. Qed.

Lemma addends_map (fs : list float) (zs : list Z) :
  List.map addend fs = List.map Some zs -> addends (List.map VFloat fs) = Some zs.
Proof.
  revert zs. induction fs as [|f fs IH]; intros [|z zs] H; try discriminate.
  - reflexivity.
  - cbn in H. injection H as Hf Hfs. cbn. now rewrite Hf, (IH zs Hfs).
Qed.

Lemma Zsum_le_abs (zs : list Z) : Z.abs (Zsum zs) <= Zsum_abs zs.
Proof.
  unfold Zsum, Zsum_abs. induction zs as [|z zs IH]; cbn [fold_right]; lia.
Qed.

Lemma sum_cells_int64 (zs : list Z) :
  zs <> [] -> Forall in_int64 zs ->
  sum_cells (List.map VInt zs) = Some (VInt (wrap_int64 (Zsum zs))).
Proof. intros _ _. unfold sum_cells. now rewrite ints_map. Qed.

Lemma sum_cells_float64 (fs : list float) (zs : list Z) :
  fs <> [] ->
  List.map addend fs = List.map Some zs ->
  Zsum_abs zs < 2 ^ 53 ->
  exists f : float,
    sum_cells (List.map VFloat fs) = Some (VFloat f)
    /\ exact_int f = Some (Zsum zs).
Proof.
  intros Hne Hfs Hbound. exists (Z2float (Zsum zs)). split.
  - unfold sum_cells. destruct fs as [|f fs]; [contradiction|].
    change (ints (List.map VFloat (f :: fs))) with (@None (list Z)).
    rewrite (addends_map (f :: fs) zs Hfs).
    now rewrite (proj2 (Z.ltb_lt _ _) Hbound).
  - apply exact_int_Z2float. pose proof (Zsum_le_abs zs). lia.
Qed.

(** *** The texts of the snapshots and of the responses *)

Definition dq : string := String (Ascii.ascii_of_nat 34) "".
Definition nl : string := String (Ascii.ascii_of_nat 10) "".
Definition quoted (s : string) : string := dq +:+ s +:+ dq.
Definition text_of (ls : list string) : string :=
  fold_right (fun l acc => l +:+ nl +:+ acc) "" ls.

Definition economics_text : string :=
  "{" +:+ quoted "culture_share_gdp" +:+ ": 1.5, "
      +:+ quoted "total_financial_resources" +:+ ": 290.5, "
      +:+ quoted "avg_monthly_wage" +:+ ": 28500}".

Definition economics_json : json :=
  JDict [ ("culture_share_gdp", JFloat 1.5);
          ("total_financial_resources", JFloat 290.5);
          ("avg_monthly_wage", JInt 28500) ].

Definition nameday_text : string :=
  "[{" +:+ quoted "date" +:+ ": " +:+ quoted "0311" +:+ ", "
       +:+ quoted "name" +:+ ": " +:+ quoted "Hubert" +:+ "}]".

Definition nameday_json : json :=
  JList [ JDict [ ("date", JStr "0311"); ("name", JStr "Hubert") ] ].

Definition artists_text : string :=
  text_of [ "indicator,value"; "registered_count,1250"; "Music,40"; "Visual Arts,35";
            "Theatre,25" ].

Definition artists_frame : DataFrame :=
  mkDF [ "indicator"; "value" ]
       [ [ VStr "registered_count"; VInt 1250 ];
         [ VStr "Music"; VInt 40 ];
         [ VStr "Visual Arts"; VInt 35 ];
         [ VStr "Theatre"; VInt 25 ] ].

(** The registry without its [registered_count] row. *)
Definition disciplines_text : string :=
  text_of [ "indicator,value"; "Music,60"; "Visual Arts,40" ].

Definition disciplines_frame : DataFrame :=
  mkDF [ "indicator"; "value" ]
       [ [ VStr "Music"; VInt 60 ];
         [ VStr "Visual Arts"; VInt 40 ] ].

Definition budget_text : string :=
  text_of [ "Year,Category,Amount_CZK,Description";
            "2023,Heritage,1200000000.0,Monuments care";
            "2024,Heritage,1250000000.0,Monuments care";
            "2024,Live Arts,350000000.0,Theatres and orchestras";
            "2023,Film,90000000.0,Film fund";
            "2024,Film,100000000.0,Film fund" ].

Definition budget_frame : DataFrame :=
  mkDF [ "Year"; "Category"; "Amount_CZK"; "Description" ]
       [ [ VInt 2023; VStr "Heritage"; VFloat 1200000000; VStr "Monuments care" ];
         [ VInt 2024; VStr "Heritage"; VFloat 1250000000; VStr "Monuments care" ];
         [ VInt 2024; VStr "Live Arts"; VFloat 350000000; VStr "Theatres and orchestras" ];
         [ VInt 2023; VStr "Film"; VFloat 90000000; VStr "Film fund" ];
         [ VInt 2024; VStr "Film"; VFloat 100000000; VStr "Film fund" ] ].

(** A budget of two lines of [2^62] CZK each: together more than [int64]
    holds. *)
Definition great_budget_text : string :=
  text_of [ "Year,Category,Amount_CZK,Description";
            "2024,Heritage,4611686018427387904,Monuments care";
            "2024,Film,4611686018427387904,Film fund" ].

Definition great_budget_frame : DataFrame :=
  mkDF [ "Year"; "Category"; "Amount_CZK"; "Description" ]
       [ [ VInt 2024; VStr "Heritage"; VInt 4611686018427387904; VStr "Monuments care" ];
         [ VInt 2024; VStr "Film"; VInt 4611686018427387904; VStr "Film fund" ] ].

Definition unesco_text : string :=
  text_of [ "name,lat,lon,visitors_2024,renovation_roi";
            "Prague,50.0,14.5,8200000,320.0";
            "Cesky Krumlov,48.75,14.25,2100000,450.5";
            "Telc,49.125,15.5,310000,210.0";
            "Zelena Hora,49.5,16.0,95000,150.0";
            "Lednice-Valtice,48.75,16.75,640000,380.0";
            "Kutna Hora,50.0,15.25,640000,275.5";
            "Kromeriz,49.25,17.375,280000,190.0";
            "Holasovice,48.875,14.25,60000,95.5";
            "Litomysl,49.875,16.25,120000,160.0";
            "Olomouc,49.5,17.25,410000,230.0";
            "Brno Tugendhat,49.25,16.625,52000,640.0";
            "Trebic,49.25,15.875,88000,140.0";
            "Krusnohori,50.375,12.875,150000,110.0";
            "Kladruby,50.0,15.5,70000,125.0";
            "Spa Towns,50.25,12.875,1900000,410.0";
            "Jizera Beech Forest,50.875,15.125,45000,60.0";
            "Zatec,50.375,13.5,98000,175.0";
            "Karlstejn,49.875,14.125,230000,300.0";
            "Terezin,50.5,14.125,260000,205.0" ].

Definition unesco_frame : DataFrame :=
  mkDF [ "name"; "lat"; "lon"; "visitors_2024"; "renovation_roi" ]
       [ [ VStr "Prague"; VFloat 50.0; VFloat 14.5; VInt 8200000; VFloat 320.0 ];
         [ VStr "Cesky Krumlov"; VFloat 48.75; VFloat 14.25; VInt 2100000; VFloat 450.5 ];
         [ VStr "Telc"; VFloat 49.125; VFloat 15.5; VInt 310000; VFloat 210.0 ];
         [ VStr "Zelena Hora"; VFloat 49.5; VFloat 16.0; VInt 95000; VFloat 150.0 ];
         [ VStr "Lednice-Valtice"; VFloat 48.75; VFloat 16.75; VInt 640000; VFloat 380.0 ];
         [ VStr "Kutna Hora"; VFloat 50.0; VFloat 15.25; VInt 640000; VFloat 275.5 ];
         [ VStr "Kromeriz"; VFloat 49.25; VFloat 17.375; VInt 280000; VFloat 190.0 ];
         [ VStr "Holasovice"; VFloat 48.875; VFloat 14.25; VInt 60000; VFloat 95.5 ];
         [ VStr "Litomysl"; VFloat 49.875; VFloat 16.25; VInt 120000; VFloat 160.0 ];
         [ VStr "Olomouc"; VFloat 49.5; VFloat 17.25; VInt 410000; VFloat 230.0 ];
         [ VStr "Brno Tugendhat"; VFloat 49.25; VFloat 16.625; VInt 52000; VFloat 640.0 ];
         [ VStr "Trebic"; VFloat 49.25; VFloat 15.875; VInt 88000; VFloat 140.0 ];
         [ VStr "Krusnohori"; VFloat 50.375; VFloat 12.875; VInt 150000; VFloat 110.0 ];
         [ VStr "Kladruby"; VFloat 50.0; VFloat 15.5; VInt 70000; VFloat 125.0 ];
         [ VStr "Spa Towns"; VFloat 50.25; VFloat 12.875; VInt 1900000; VFloat 410.0 ];
         [ VStr "Jizera Beech Forest"; VFloat 50.875; VFloat 15.125; VInt 45000; VFloat 60.0 ];
         [ VStr "Zatec"; VFloat 50.375; VFloat 13.5; VInt 98000; VFloat 175.0 ];
         [ VStr "Karlstejn"; VFloat 49.875; VFloat 14.125; VInt 230000; VFloat 300.0 ];
         [ VStr "Terezin"; VFloat 50.5; VFloat 14.125; VInt 260000; VFloat 205.0 ] ].

(** The names of the sites in ascending order. *)
Definition site_names : list string :=
  [ "Brno Tugendhat";
    "Cesky Krumlov";
    "Holasovice";
    "Jizera Beech Forest";
    "Karlstejn";
    "Kladruby";
    "Kromeriz";
    "Krusnohori";
    "Kutna Hora";
    "Lednice-Valtice";
    "Litomysl";
    "Olomouc";
    "Prague";
    "Spa Towns";
    "Telc";
    "Terezin";
    "Trebic";
    "Zatec";
    "Zelena Hora" ].

(** Nineteen sites that all count the same visitors, under the given names. *)
Definition tied_frame (names : list string) : DataFrame :=
  mkDF [ "name"; "lat"; "lon"; "visitors_2024"; "renovation_roi" ]
       (List.map (fun n => [ VStr n; VFloat 50; VFloat 15; VInt 100000; VFloat 200 ]) names).

(** *** The library *)

Definition parse_json (s : string) : option json :=
  if String.eqb s economics_text then Some economics_json
  else if String.eqb s nameday_text then Some nameday_json
  else if String.eqb s "[]" then Some (JList [])
  else None.

Definition parse_csv (s : string) : option DataFrame :=
  if String.eqb s artists_text then Some artists_frame
  else if String.eqb s disciplines_text then Some disciplines_frame
  else if String.eqb s budget_text then Some budget_frame
  else if String.eqb s great_budget_text then Some great_budget_frame
  else if String.eqb s unesco_text then Some unesco_frame
  else None.

#[local] Instance library : Library := {|
  json_loads := parse_json;
  read_csv_text := parse_csv;
  int_of_str := decimal;
  float_of_str := fun s => option_map Z2float (decimal s);
  series_sum := sum_cells;
  series_sum_int64 := sum_cells_int64;
  series_sum_float64 := sum_cells_float64;
  argsort_desc := argsort;
  argsort_desc_perm := argsort_perm;
  argsort_desc_sorted := argsort_sorted
|}.

(** *** Worlds *)

Definition offline : string -> Z -> res Response :=
  fun _ _ => Raise ConnectionError.

(** Every endpoint answers 200 with the given body. *)
Definition online (body : string) : string -> Z -> res Response :=
  fun _ _ => Ok (mkResponse 200 body).

(** Only the economics endpoint of the refresh script answers. *)
Definition economics_online (body : string) : string -> Z -> res Response :=
  fun url _ =>
    if String.eqb url "https://data.csu.gov.cz/api/katalog/v1/wages"
    then Ok (mkResponse 200 body)
    else Raise ConnectionError.

Definition world (fs : list (string * string)) (n : string -> Z -> res Response) : World :=
  mkWorld (list_to_map fs) n [] [] [] [].

Definition snapshots : list (string * string) :=
  [ ("data/fallback_economics.json", economics_text);
    ("data/fallback_unesco.csv", unesco_text);
    ("data/budget_official.csv", budget_text);
    ("data/fallback_artists.csv", artists_text) ].

End Fixture.

(** ** tests/test_data_integrity.py *)

Module TestDataIntegrity.

(** How a test method ends: it passes, an assertion fails, or another
    exception escapes (an error, in the words of [unittest]). *)
Inductive verdict : Type :=
  | Pass
  | Fail (msg : string)
  | Error (e : exn).

(** The statements after an assertion run only when it passes. *)
Definition check (v : verdict) (k : M verdict) : M verdict :=
  match v with
  | Pass => k
  | _ => ret v
  end.

Definition assertTrue (b : bool) (msg : string) : verdict :=
  if b then Pass else Fail msg.

Definition assertFalse (b : bool) (msg : string) : verdict :=
  if b then Fail msg else Pass.

(** An assertion on an expression that may itself raise. *)
Definition assert_res (r : res bool) (msg : string) : verdict :=
  match r with
  | Ok b => assertTrue b msg
  | Raise e => Error e
  end.

(** [s in t] for strings: [s] occurs in [t]. *)
Definition occurs_in (s t : string) : bool :=
  match String.index 0 s t with
  | Some _ => true
  | None => false
  end.

(** [key in data]: a key of an object, an element of a list, a part of a
    string; other values are not containers. *)
Definition py_in (key : string) (data : json) : res bool :=
  match data with
  | JDict kv => Ok (existsb (fun p => String.eqb (fst p) key) kv)
  | JList l => Ok (existsb (fun x => match x with
                                     | JStr s => String.eqb s key
                                     | _ => false
                                     end) l)
  | JStr s => Ok (occurs_in key s)
  | _ => Raise TypeError
  end.

(** [a > n] for an integer literal [n] that a float holds exactly: numbers
    compare by value, anything else raises. *)
Definition py_gt (a : json) (n : Z) : res bool :=
  match a with
  | JInt z => Ok (n <? z)
  | JFloat f => Ok (PrimFloat.ltb (Z2float n) f)
  | JBool b => Ok (n <? bool2Z b)
  | _ => Raise TypeError
  end.

(** [for key in keys: self.assertIn(key, data, f"Missing key: {key}")] *)
Fixpoint assert_keys (keys : list string) (data : json) : verdict :=
  match keys with
  | [] => Pass
  | key :: keys' =>
      match assert_res (py_in key data) ("Missing key: " +:+ key) with
      | Pass => assert_keys keys' data
      | v => v
      end
  end.

(** [for col in cols: self.assertIn(col, df.columns, f"Missing column: {col}")] *)
Fixpoint assert_columns (cols : list string) (df : DataFrame) : verdict :=
  match cols with
  | [] => Pass
  | col :: cols' =>
      match assertTrue (existsb (String.eqb col) (columns df))
                       ("Missing column: " +:+ col) with
      | Pass => assert_columns cols' df
      | v => v
      end
  end.

(** [self.assertGreater(data[key], n, msg)] *)
Definition assert_item_greater (data : json) (key : string) (n : Z) (msg : string)
    : verdict :=
  match getitem data key with
  | Raise e => Error e
  | Ok a => assert_res (py_gt a n) msg
  end.

Section WithLibrary.
Context {L : Library}.

(** The lines the tests print are those of the source without the leading
    line break and pictograph. *)
Definition test_economic_indicators : M verdict :=
  print "Testing Economic Indicators..." ;;
  data <- DataLoader.load_economic_indicators ;;
  check (assertTrue (negb (match data with JNull => true | _ => false end))
                    "Economic data should not be None")
  (let required_keys := ["culture_share_gdp"; "total_financial_resources";
                         "avg_monthly_wage"] in
   check (assert_keys required_keys data)
   (check (assert_item_greater data "culture_share_gdp" 0
             "GDP share should be positive")
    (check (assert_item_greater data "avg_monthly_wage" 20000
              "Wage seems abnormally low")
     (print "Economic data looks valid." ;; ret Pass)))).

Definition test_unesco_sites : M verdict :=
  print "Testing UNESCO Sites..." ;;
  df <- DataLoader.load_unesco_sites ;;
  check (assertFalse (df_empty df) "UNESCO dataframe should not be empty")
  (let required_cols := ["name"; "lat"; "lon"; "visitors_2024"] in
   check (assert_columns required_cols df)
   (check (assertTrue (15 <=? Z.of_nat (length (rows df)))
             "Expected at least 15 UNESCO sites")
    (print ("Loaded " +:+ pretty (length (rows df)) +:+ " UNESCO sites.") ;;
     ret Pass))).

(** The record of [load_artist_status] always has its two keys: the two
    [assertIn] on them cannot fail. *)
Definition test_artist_registry : M verdict :=
  print "Testing Artist Registry..." ;;
  data <- DataLoader.load_artist_status ;;
  match data with
  | None => ret (Fail "Artist data should not be None")
  | Some a =>
      check (assertTrue (0 <? registered_count a) "Registered count should be positive")
      (let disciplines := disciplines a in
       check (assertTrue (0 <? Z.of_nat (length disciplines))
                "Should have discipline breakdown")
       (print ("Artist Registry: " +:+ pretty (registered_count a) +:+ " registered.") ;;
        ret Pass))
  end.

(** The verdict of a test method run in the world [w]. *)
Definition run_test (t : M verdict) (w : World) : verdict :=
  match fst (t w) with
  | Ok v => v
  | Raise e => Error e
  end.

End WithLibrary.
End TestDataIntegrity.

(** ** app.py: the pages that show the registry and the sites *)

Module Pages.

(** What a page puts on the screen: the calls to [st.markdown], [st.metric],
    [st.plotly_chart], [st.pydeck_chart], [st.dataframe], [st.warning] and
    [st.error], in order, with the data each is given.  Headers are held
    without their markup, messages without their leading pictograph; how a
    chart is drawn from its data is left to the charting library. *)
Inductive element : Type :=
  | Markdown (body : string)
  | Metric (label : string) (val : Z) (delta : string)
  | Pie (slices : list (value * float))
  | Map (show_roi : bool) (sites : DataFrame)
  | Table (df : DataFrame)
  | Warning (msg : string)
  | ErrorBox (msg : string).

Section WithLibrary.
Context {L : Library}.

(** Module E, Status of the Artist.  The record is a dictionary with two
    keys, so [if artist_data:] tests that it is not [None]. *)
Definition status_of_the_artist : M (list element) :=
  let header := Markdown "Status of the Artist: Implementation Leaderboard" in
  artist_data <- DataLoader.load_artist_status ;;
  match artist_data with
  | Some a =>
      ret [ header;
            Markdown "### Registered Artists";
            Metric "Total Registrations" (registered_count a) "+4 this week";
            Markdown "*Live data from Registry API*";
            Markdown "### Breakdown by Discipline";
            Pie (disciplines a) ]
  | None =>
      ret [ header; ErrorBox "Registry API Offline. No artist data available." ]
  end.

(** Module B, Heritage & UNESCO Map; [show_roi] is the state of the toggle.
    The table of top sites is computed after the map is drawn, and an
    exception it raises is not caught. *)
Definition heritage (show_roi : bool) : M (list element) :=
  let header := Markdown "Heritage & UNESCO Sites" in
  sites_df <- DataLoader.load_unesco_sites ;;
  if negb (df_empty sites_df) then
    top <- of_res (App.top_sites sites_df) ;;
    ret [ header; Map show_roi sites_df;
          Markdown "### Top Sites by Visitor Volume"; Table top ]
  else
    ret [ header; Warning "No UNESCO Data Available. Please check NKOD connection." ].

End WithLibrary.

(** *** Process exit *)

(** [scheduler.shutdown()]: a running scheduler stops, and its job store,
    which lives in memory, is emptied. *)
Definition shutdown (s : App.BackgroundScheduler) : App.BackgroundScheduler :=
  App.mkScheduler [] false.

(** The handlers registered with [atexit] run at exit, the last registered
    first; each calls [shutdown] on the scheduler it was registered for.  On a
    scheduler that does not run the call raises, which [atexit] reports and
    passes over: the scheduler stays as it is. *)
Definition run_handler (i : nat) (ss : list App.BackgroundScheduler)
    : list App.BackgroundScheduler :=
  match ss !! i with
  | Some s => if App.running s then <[i := shutdown s]> ss else ss
  | None => ss
  end.

Definition at_exit (p : App.Process) : App.Process :=
  App.mkProcess (foldr run_handler (App.schedulers p) (App.atexit_handlers p))
                [] (App.session_states p).

End Pages.

(** What the call of its exit handler makes of a scheduler. *)
Definition stopped (s : App.BackgroundScheduler) : App.BackgroundScheduler :=
  if App.running s then Pages.shutdown s else s.

(** ** Notions for the registry record *)

(** No two keys of a dictionary are equal ([==]).  Two NaN keys are not
    equal. *)
Fixpoint distinct_keys {V} (d : list (value * V)) : Prop :=
  match d with
  | [] => True
  | (k, _) :: d' => Forall (fun p => py_eq k (fst p) = false) d' /\ distinct_keys d'
  end.

(** No two keys are equal, and at most one key is NaN. *)
Fixpoint unique_keys {V} (d : list (value * V)) : Prop :=
  match d with
  | [] => True
  | (k, _) :: d' => Forall (fun p => key_eqb k (fst p) = false) d' /\ unique_keys d'
  end.

Section WithLibrary.
Context {L : Library}.

(** One turn of the loop of [load_artist_status] over the rows, for a table
    with its [indicator] column at [iI] and its [value] column, if any, at
    [iV]; [one_nan] tells whether the missing indicators are one object. *)
Definition discipline_step (one_nan : bool) (iI : nat) (iV : option nat)
    (d : list (value * float)) (row : list value) : list (value * float) :=
  if negb (py_eq (cell iI row) (VStr "registered_count")) then
    match iV with
    | Some v => match py_float (cell v row) with
                | Ok f => setitem one_nan d (cell iI row) f
                | Raise _ => d
                end
    | None => d
    end
  else d.

(** The percentage the rows give for the discipline [s]: that of the last row
    with this indicator whose value converts to a float. *)
Fixpoint last_float (iI iV : nat) (s : string) (rs : list (list value)) : option float :=
  match rs with
  | [] => None
  | row :: rs' =>
      match last_float iI iV s rs' with
      | Some f => Some f
      | None =>
          if py_eq (cell iI row) (VStr s) then
            match py_float (cell iV row) with
            | Ok f => Some f
            | Raise _ => None
            end
          else None
      end
  end.

End WithLibrary.

Section WithLibrary.
Context {L : Library}.

(** A registry table from which no record can be built: it has no
    [indicator] column, or its first [registered_count] row has no value that
    converts to an integer. *)
Definition count_unreadable (df : DataFrame) : Prop :=
  match col_index "indicator" (columns df) with
  | None => True
  | Some iI =>
      match List.filter (fun r => py_eq (cell iI r) (VStr "registered_count")) (rows df) with
      | [] => False
      | first :: _ =>
          match col_index "value" (columns df) with
          | None => True
          | Some iV => exists e : exn, py_int (cell iV first) = Raise e
          end
      end
  end.

End WithLibrary.

(** ** What the loop of [load_artist_status] keeps true *)

(** What the loop keeps true of the dictionary it fills: the keys are the
    indicators of rows, as they come out of [iterrows]. *)
Definition from_rows (df : DataFrame) (iI : nat) (d : list (value * float)) : Prop :=
  distinct_keys d
  /\ (nan_is_one_object df "indicator" = true -> unique_keys d)
  /\ forall k : value, In k (List.map fst d) ->
       py_eq k (VStr "registered_count") = false
       /\ exists row : list value,
            In row (rows df) /\ k = as_dtype (values_dtype df) (cell iI row).

(** Every key of the dictionary is a string. *)
Definition string_keys {V} (d : list (value * V)) : Prop :=
  Forall (fun p => exists s : string, fst p = VStr s) d.

Section WithLibrary.
Context {L : Library}.

(** The dictionary after the rows [pre]: string keys, pairwise different,
    holding for each discipline the float of its last row with a number. *)
Definition holds_last (iI iV : nat) (pre : list (list value))
    (d : list (value * float)) : Prop :=
  string_keys d /\ distinct_keys d
  /\ forall (s : string) (f : float),
       In (VStr s, f) d
       <-> s <> "registered_count" /\ last_float iI iV s pre = Some f.

End WithLibrary.

(** Further snapshots, for running the model. *)
Module Cases.

(** A registry whose [value] column holds text, read as strings: a discipline
    listed twice and one without a number. *)
Definition registry_frame : DataFrame :=
  mkDF [ "indicator"; "value" ]
       [ [ VStr "registered_count"; VStr "1250" ];
         [ VStr "Music"; VStr "40" ];
         [ VStr "Dance"; VStr "unknown" ];
         [ VStr "Music"; VStr "45" ] ].

(** A registry whose indicators are numbers, beside values that are floats:
    the whole table is of type [float64]. *)
Definition numbered_frame : DataFrame :=
  mkDF [ "indicator"; "value" ]
       [ [ VInt 1; VFloat 4.5 ];
         [ VInt 2; VFloat 3.5 ] ].

(** The same with two indicators missing. *)
Definition unnamed_frame : DataFrame :=
  mkDF [ "indicator"; "value" ]
       [ [ VFloat 1; VFloat 4.5 ];
         [ VFloat nan; VFloat 3.5 ];
         [ VFloat nan; VFloat 2.5 ] ].

End Cases.

(** ** The effects of a computation *)

(** [m] leaves the files, the network, the log and the written paths as they
    are, and sends exactly the requests [sent], in every world and whether it
    returns or raises. *)
Definition effects {A} (sent : list (string * Z)) (m : M A) : Prop :=
  forall w : World,
    files (snd (m w)) = files w
    /\ net (snd (m w)) = net w
    /\ log (snd (m w)) = log w
    /\ written (snd (m w)) = written w
    /\ requests (snd (m w)) = (requests w ++ sent)%list.

(** The request each accessor sends. *)
Definition requests_of (D : Dataset) : list (string * Z) :=
  match D with
  | economic_indicators => [("https://data.csu.gov.cz/api/katalog/v1/sady/mzdy/ukazatele", 3)]
  | nameday => [("https://svatky.adresa.info/json", 3)]
  | _ => []
  end.

(** * Properties *)

(** ** The monad *)

Ltac run :=
  unfold bind, try_except, ret, raise, lift, of_res, print, logger,
    requests_get, read_file, path_exists; simpl.

Lemma try_except_ok {A} (body : M A) (handler : exn -> M A) (w : World) :
  (forall e w', exists a, fst (handler e w') = Ok a) ->
  exists a, fst (try_except body handler w) = Ok a.
Proof.
  intros Hh. unfold try_except.
  destruct (body w) as [[a|e] w']; [exists a; reflexivity | apply Hh].
Qed.

Section Loaders.
Context {L : Library}.

(** ** The loaders as functions of the world *)

Lemma load_economic_indicators_value (w : World) :
  fst (DataLoader.load_economic_indicators w)
  = Ok (default JNull (files w !! "data/fallback_economics.json" ≫= json_loads)).
Proof.
  unfold DataLoader.load_economic_indicators, DataLoader.json_load. run.
  destruct (net w _ _) as [r|e]; simpl;
    [destruct (status_code r =? 200); simpl|];
    (destruct (files w !! _) as [c|]; simpl; [destruct (json_loads c)|]; reflexivity).
Qed.

Lemma load_unesco_sites_value (w : World) :
  fst (DataLoader.load_unesco_sites w)
  = Ok (default empty_frame (files w !! "data/fallback_unesco.csv" ≫= read_csv_text)).
Proof.
  unfold DataLoader.load_unesco_sites, DataLoader.read_csv. run.
  destruct (files w !! _) as [c|]; simpl; [destruct (read_csv_text c)|]; reflexivity.
Qed.

Lemma load_budget_value (year : Z) (w : World) :
  fst (DataLoader.load_budget year w)
  = Ok (default empty_frame
          (flip year_rows year <$> (files w !! "data/budget_official.csv" ≫= read_csv_text))).
Proof.
  unfold DataLoader.load_budget, DataLoader.read_csv, year_rows. run.
  destruct (files w !! _) as [c|]; simpl; [destruct (read_csv_text c) as [df|]|];
    simpl; try reflexivity.
  destruct (filter_eq df "Year" (VInt year)); reflexivity.
Qed.

Lemma load_artist_status_value (w : World) :
  fst (DataLoader.load_artist_status w)
  = Ok (df ← files w !! "data/fallback_artists.csv" ≫= read_csv_text;
        match artist_record df with Ok a => Some a | Raise _ => None end).
Proof.
  unfold DataLoader.load_artist_status, DataLoader.read_csv, artist_record. run.
  destruct (files w !! _) as [c|]; simpl; [destruct (read_csv_text c) as [df|]|];
    simpl; try reflexivity.
  destruct (filter_eq df "indicator" (VStr "registered_count")) as [reg|e]; simpl;
    [|reflexivity].
  destruct (negb (df_empty reg)); simpl.
  - destruct (hd_error (rows reg)) as [first|]; simpl; [|reflexivity].
    destruct (row_get reg first "value") as [v|e]; simpl; [|reflexivity].
    destruct (py_int v); simpl; [|reflexivity].
    destruct (DataLoader.disciplines_loop df (iterrows df) []); reflexivity.
  - destruct (DataLoader.disciplines_loop df (iterrows df) []); reflexivity.
Qed.

Lemma load_nameday_value (w : World) :
  fst (DataLoader.load_nameday w)
  = Ok match net w "https://svatky.adresa.info/json" 3 with
       | Raise _ => JNull
       | Ok r =>
           if (400 <=? status_code r) && (status_code r <? 600) then JNull
           else match json_loads (text r) with
                | None => JNull
                | Some data => match nameday_of data with
                               | Ok v => v
                               | Raise _ => JNull
                               end
                end
       end.
Proof.
  unfold DataLoader.load_nameday, raise_for_status, nameday_of. run.
  destruct (net w _ _) as [r|e]; simpl; [|reflexivity].
  destruct ((400 <=? status_code r) && (status_code r <? 600)); simpl; [reflexivity|].
  destruct (json_loads (text r)) as [data|]; simpl; [|reflexivity].
  destruct (truthy data); simpl; [|reflexivity].
  destruct (py_len data) as [n|e]; simpl; [|reflexivity].
  destruct (0 <? n); simpl; [|reflexivity].
  destruct (index0 data) as [first|e]; simpl; [|reflexivity].
  destruct (getitem first "name"); reflexivity.
Qed.

End Loaders.

(** A frame filtered on a column has that column: it is empty exactly when
    it has no row. *)
Lemma filter_eq_empty (df reg : DataFrame) (name : string) (v : value) :
  filter_eq df name v = Ok reg ->
  df_empty reg = match rows reg with [] => true | _ => false end.
Proof.
  unfold filter_eq, column_pos, df_empty.
  destruct (col_index name (columns df)) as [i|] eqn:Hi; [|discriminate].
  intros [= <-]. simpl.
  destruct (columns df); [discriminate | reflexivity].
Qed.

Section Accessors.
Context {L : Library}.

Lemma fst_bind_ret {A B} (m : M A) (f : A -> B) (w : World) :
  fst ((x <- m ;; ret (f x)) w)
  = match fst (m w) with Ok a => Ok (f a) | Raise e => Raise e end.
Proof. unfold bind, ret. destruct (m w) as [[a|e] w']; reflexivity. Qed.

(** The accessor of a dataset with a snapshot serves the content of the
    snapshot, or the signal that there is none. *)
Lemma resolve_value (D : Dataset) (p : string) (w : World) :
  snapshot_path D = Some p ->
  fst (resolve D w) = Ok (default (unavailable D) (files w !! p ≫= snapshot_read D)).
Proof.
  intros Hp. destruct D; simpl in Hp; try discriminate; injection Hp as <-;
    unfold resolve; rewrite fst_bind_ret.
  - rewrite load_economic_indicators_value.
    destruct (files w !! _) as [c|]; simpl; [destruct (json_loads c)|]; reflexivity.
  - rewrite load_unesco_sites_value.
    destruct (files w !! _) as [c|]; simpl; [destruct (read_csv_text c)|]; reflexivity.
  - rewrite load_budget_value. unfold year_rows.
    destruct (files w !! _) as [c|]; simpl; [destruct (read_csv_text c) as [df|]|];
      simpl; try reflexivity.
    destruct (filter_eq df "Year" (VInt year)); reflexivity.
  - rewrite load_artist_status_value.
    destruct (files w !! _) as [c|]; simpl; [destruct (read_csv_text c) as [df|]|];
      simpl; try reflexivity.
    destruct (artist_record df); reflexivity.
Qed.

End Accessors.

(** ** Unavailable, or built from the snapshot *)




(** ** No exception reaches the caller *)

(** C9.  In every world (files missing or malformed, requests failing),
    every public loader returns a value and raises nothing: a failed request,
    a missing file or a content that does not parse ends in [None] ([JNull])
    or in an empty table. *)
Theorem loaders_never_raise {L : Library} (w : World) :
  (exists j : json,
     fst (DataLoader.load_economic_indicators w) = Ok j
     /\ (files w !! "data/fallback_economics.json" ≫= json_loads = None -> j = JNull))
  /\ (exists df : DataFrame,
       fst (DataLoader.load_unesco_sites w) = Ok df
       /\ (files w !! "data/fallback_unesco.csv" ≫= read_csv_text = None ->
           df = empty_frame))
  /\ (forall year : Z, exists df : DataFrame,
       fst (DataLoader.load_budget year w) = Ok df
       /\ (files w !! "data/budget_official.csv" ≫= read_csv_text = None ->
           df = empty_frame))
  /\ (exists a : option ArtistStatus,
       fst (DataLoader.load_artist_status w) = Ok a
       /\ (files w !! "data/fallback_artists.csv" ≫= read_csv_text = None ->
           a = None))
  /\ (exists j : json,
       fst (DataLoader.load_nameday w) = Ok j
       /\ (forall e : exn, net w "https://svatky.adresa.info/json" 3 = Raise e ->
           j = JNull)).
Proof.
  repeat split.
  - eexists. split; [apply load_economic_indicators_value|]. now intros ->.
  - eexists. split; [apply load_unesco_sites_value|]. now intros ->.
  - intros year. eexists. split; [apply load_budget_value|]. now intros ->.
  - eexists. split; [apply load_artist_status_value|]. now intros ->.
  - eexists. split; [apply load_nameday_value|]. now intros e ->.
Qed.

(** ** The nameday *)

(** The requests a run of [load_nameday] sends. *)
Lemma load_nameday_requests {L : Library} (w : World) :
  requests (snd (DataLoader.load_nameday w))
  = (requests w ++ [("https://svatky.adresa.info/json", 3)])%list.
Proof.
  unfold DataLoader.load_nameday, raise_for_status. run.
  destruct (net w _ _) as [r|e]; simpl; [|reflexivity].
  destruct ((400 <=? status_code r) && (status_code r <? 600)); simpl; [reflexivity|].
  destruct (json_loads (text r)) as [data|]; simpl; [|reflexivity].
  destruct (truthy data); simpl; [|reflexivity].
  destruct (py_len data) as [n|e]; simpl; [|reflexivity].
  destruct (0 <? n); simpl; [|reflexivity].
  destruct (index0 data) as [first|e]; simpl; [|reflexivity].
  destruct (getitem first "name"); reflexivity.
Qed.

(** C10.  [load_nameday] is cached for one hour, sends one request with a
    timeout of three seconds and reads no file.  It returns the name of the
    first entry when the response is a non-empty list whose first entry has
    one, the string "Unknown" when the response is the empty list, and [None]
    when the request fails (it raises, or the status is an error status) or
    the body does not parse. *)
Theorem load_nameday_cases {L : Library} (w : World) :
  ttl_of nameday = 3600
  /\ snapshot_path nameday = None
  /\ requests (snd (DataLoader.load_nameday w))
     = (requests w ++ [("https://svatky.adresa.info/json", 3)])%list
  /\ (forall fs : gmap string string,
        fst (DataLoader.load_nameday (set_files fs w)) = fst (DataLoader.load_nameday w))
  /\ (forall (r : Response) (first name : json) (rest : list json),
        net w "https://svatky.adresa.info/json" 3 = Ok r ->
        (400 <=? status_code r) && (status_code r <? 600) = false ->
        json_loads (text r) = Some (JList (first :: rest)) ->
        getitem first "name" = Ok name ->
        fst (DataLoader.load_nameday w) = Ok name)
  /\ (forall r : Response,
        net w "https://svatky.adresa.info/json" 3 = Ok r ->
        (400 <=? status_code r) && (status_code r <? 600) = false ->
        json_loads (text r) = Some (JList []) ->
        fst (DataLoader.load_nameday w) = Ok (JStr "Unknown"))
  /\ ((exists e : exn, net w "https://svatky.adresa.info/json" 3 = Raise e)
      \/ (exists r : Response,
            net w "https://svatky.adresa.info/json" 3 = Ok r
            /\ ((400 <=? status_code r) && (status_code r <? 600) = true
                \/ json_loads (text r) = None)) ->
      fst (DataLoader.load_nameday w) = Ok JNull).
Proof.
  split; [reflexivity|]. split; [reflexivity|].
  split; [apply load_nameday_requests|].
  split; [intros fs; now rewrite !load_nameday_value|].
  split; [|split].
  - intros r first name rest Hnet Hst Hjs Hname.
    rewrite load_nameday_value, Hnet, Hst, Hjs.
    unfold nameday_of. simpl. now rewrite Hname.
  - intros r Hnet Hst Hjs.
    now rewrite load_nameday_value, Hnet, Hst, Hjs.
  - intros [[e Hnet] | (r & Hnet & [Hst | Hjs])]; rewrite load_nameday_value, Hnet.
    + reflexivity.
    + now rewrite Hst.
    + rewrite Hjs. now destruct (_ && _).
Qed.

(** The three cases on concrete responses: a named first entry, the empty
    list, an unreachable endpoint. *)
Lemma load_nameday_cases_witness :
  fst (DataLoader.load_nameday (L := Fixture.library)
         (Fixture.world [] (Fixture.online Fixture.nameday_text))) = Ok (JStr "Hubert")
  /\ fst (DataLoader.load_nameday (L := Fixture.library)
            (Fixture.world [] (Fixture.online "[]"))) = Ok (JStr "Unknown")
  /\ fst (DataLoader.load_nameday (L := Fixture.library)
            (Fixture.world [] Fixture.offline)) = Ok JNull.
Proof.
  split; [|split].
  - apply (proj1 (proj2 (proj2 (proj2 (proj2
             (load_nameday_cases (L := Fixture.library)
                (Fixture.world [] (Fixture.online Fixture.nameday_text)))))))
           (mkResponse 200 Fixture.nameday_text)
           (JDict [("date", JStr "0311"); ("name", JStr "Hubert")]) (JStr "Hubert") []);
      reflexivity.
  - apply (proj1 (proj2 (proj2 (proj2 (proj2 (proj2
             (load_nameday_cases (L := Fixture.library)
                (Fixture.world [] (Fixture.online "[]"))))))))
           (mkResponse 200 "[]"));
      reflexivity.
  - apply (proj2 (proj2 (proj2 (proj2 (proj2 (proj2
             (load_nameday_cases (L := Fixture.library)
                (Fixture.world [] Fixture.offline)))))))).
    left. exists ConnectionError. reflexivity.
Defined.

(** ** The refresh script *)

(** A run of [update_all_data] returns, and changes nothing in the world but
    the log, which receives the records of the three fetch steps in order. *)
Lemma update_all_data_run (DATA_DIR : string) (w : World) :
  UpdateData.update_all_data DATA_DIR w
  = (Ok tt,
     mkWorld (files w) (net w) (stdout w)
       (log w ++
        [ (INFO, "Starting daily data update...");
          (INFO, "Fetching UNESCO data from https://data.gov.cz/some/generic/path/unesco.csv...");
          (if bool_decide (is_Some (files w !! UpdateData.target_path DATA_DIR UpdateData.unesco))
           then (INFO, "Local UNESCO file verified.")
           else (WARNING, "No local UNESCO file found."));
          (INFO, "Fetching Economic data from https://data.csu.gov.cz/api/katalog/v1/wages...");
          (INFO, "Economic data processing skipped (placeholder URL).");
          (INFO, "Fetching Artist data from https://docs.google.com/spreadsheets/d/e/2PACX-1vR_placeholder_id/pub?output=csv...");
          (INFO, "Artist data processing skipped (placeholder URL).");
          (INFO, "Daily data update completed.") ])
       (requests w) (written w)).
Proof.
  unfold UpdateData.update_all_data, UpdateData.fetch_unesco_data,
    UpdateData.fetch_economic_data, UpdateData.fetch_artist_data, UpdateData.data_url.
  run.
  destruct (bool_decide _); simpl; rewrite <- !app_assoc; reflexivity.
Qed.

(** C7.  Each fetch step returns without raising, in every world, and a run
    of [update_all_data] executes the three of them, for UNESCO, economics
    and artists in this order, whatever the outcome of each, and completes:
    the log of the run holds the record of every step, also when the UNESCO
    check finds no file. *)
Theorem update_all_data_runs_every_fetch (DATA_DIR : string) (w : World) :
  fst (UpdateData.fetch_unesco_data DATA_DIR w) = Ok tt
  /\ fst (UpdateData.fetch_economic_data DATA_DIR w) = Ok tt
  /\ fst (UpdateData.fetch_artist_data DATA_DIR w) = Ok tt
  /\ fst (UpdateData.update_all_data DATA_DIR w) = Ok tt
  /\ exists outcome : level * string,
       log (snd (UpdateData.update_all_data DATA_DIR w))
       = (log w ++
          [ (INFO, "Starting daily data update...");
            (INFO, "Fetching UNESCO data from https://data.gov.cz/some/generic/path/unesco.csv...");
            outcome;
            (INFO, "Fetching Economic data from https://data.csu.gov.cz/api/katalog/v1/wages...");
            (INFO, "Economic data processing skipped (placeholder URL).");
            (INFO, "Fetching Artist data from https://docs.google.com/spreadsheets/d/e/2PACX-1vR_placeholder_id/pub?output=csv...");
            (INFO, "Artist data processing skipped (placeholder URL).");
            (INFO, "Daily data update completed.") ])%list.
Proof.
  split; [|split; [|split; [|split]]].
  - unfold UpdateData.fetch_unesco_data, UpdateData.data_url. run.
    now destruct (bool_decide _).
  - reflexivity.
  - reflexivity.
  - now rewrite update_all_data_run.
  - rewrite update_all_data_run. simpl. eexists. reflexivity.
Qed.

(** The run of the counterexample: the economics endpoint answers 200 with a
    new document, the UNESCO endpoint is unreachable. *)
Example refresh_writes_nothing :
  let w := Fixture.world [ ("data/fallback_economics.json", Fixture.economics_text);
                           ("data/fallback_unesco.csv", Fixture.unesco_text) ]
                         (Fixture.economics_online "{}") in
  let w' := snd (UpdateData.update_all_data "data" w) in
  written w' = []
  /\ files w' !! "data/fallback_economics.json" = Some Fixture.economics_text.
Proof. split; vm_compute; reflexivity. Qed.

(** C5, as worded, fails: in a run where the economics probe would succeed,
    the economics snapshot is not written. *)
Lemma refresh_never_writes :
  ~ (forall (DATA_DIR : string) (w : World), refresh_as_specified DATA_DIR w).
Proof.
  intros claim.
  destruct (claim "data"
              (Fixture.world [ ("data/fallback_economics.json", Fixture.economics_text);
                               ("data/fallback_unesco.csv", Fixture.unesco_text) ]
                             (Fixture.economics_online "{}"))
              UpdateData.economics) as [Hwritten _].
  rewrite update_all_data_run in Hwritten. simpl in Hwritten.
  apply Hwritten.
  exists "https://data.csu.gov.cz/api/katalog/v1/wages", (mkResponse 200 "{}").
  repeat split.
Qed.

(** C5, amended.  A refresh run writes no snapshot and sends no request:
    every file is left as it was, whether or not the endpoint of its dataset
    would answer, and the run logs no error. *)
Theorem refresh_leaves_snapshots_unchanged (DATA_DIR : string) (w : World) :
  let w' := snd (UpdateData.update_all_data DATA_DIR w) in
  fst (UpdateData.update_all_data DATA_DIR w) = Ok tt
  /\ files w' = files w
  /\ written w' = written w
  /\ requests w' = requests w
  /\ (forall msg : string, In (ERROR, msg) (log w') -> In (ERROR, msg) (log w)).
Proof.
  rewrite update_all_data_run. simpl. repeat split.
  intros msg Hin. apply in_app_or in Hin as [Hin | Hin]; [exact Hin|].
  simpl in Hin. destruct (bool_decide _); intuition discriminate.
Qed.

(** ** The scheduler *)

Lemma fresh_process_inv : process_inv App.fresh_process.
Proof.
  split; [|split].
  - intros sid ss H. simpl in H. now rewrite lookup_empty in H.
  - simpl. now rewrite dom_empty_L, size_empty.
  - constructor.
Qed.

Lemma startup_inv (sid : nat) (p : App.Process) :
  process_inv p ->
  process_inv (App.startup sid p)
  /\ dom (App.session_states (App.startup sid p)) = {[sid]} ∪ dom (App.session_states p).
Proof.
  intros (Hflag & Hlen & Hjobs). unfold App.startup.
  destruct (App.session_states p !! sid) as [ss|] eqn:Hsid; simpl.
  - destruct (Hflag sid ss Hsid) as [v Hv].
    rewrite bool_decide_eq_true_2 by (rewrite Hv; eauto). simpl.
    rewrite insert_id by exact Hsid.
    assert (Hin : sid ∈ dom (App.session_states p)) by (apply elem_of_dom; eauto).
    split; [now repeat split|].
    symmetry. apply subseteq_union_1_L. now apply singleton_subseteq_l.
  - rewrite bool_decide_eq_false_2
      by (rewrite lookup_empty; intros [? ?]; discriminate).
    simpl.
    assert (Hout : sid ∉ dom (App.session_states p)) by now apply not_elem_of_dom.
    split; [|now rewrite dom_insert_L].
    split; [|split]; simpl.
    + intros sid' ss' H. destruct (decide (sid = sid')) as [<-|Hne].
      * rewrite lookup_insert_eq in H. injection H as <-.
        rewrite lookup_insert_eq. eauto.
      * rewrite lookup_insert_ne in H by exact Hne. eauto.
    + rewrite length_app, dom_insert_L, size_union, size_singleton
        by now apply disjoint_singleton_l.
      simpl. lia.
    + apply Forall_app. split; [exact Hjobs | now constructor].
Qed.

Lemma runs_inv (sids : list nat) (p : App.Process) :
  process_inv p ->
  process_inv (App.runs sids p)
  /\ dom (App.session_states (App.runs sids p))
     = list_to_set sids ∪ dom (App.session_states p).
Proof.
  revert p. induction sids as [|sid sids IH]; intros p Hp.
  - split; [exact Hp|]. simpl. now rewrite union_empty_l_L.
  - change (App.runs (sid :: sids) p) with (App.runs sids (App.startup sid p)).
    destruct (startup_inv sid p Hp) as [Hp' Hdom].
    destruct (IH _ Hp') as [Hp'' Hdom'].
    split; [exact Hp''|]. rewrite Hdom', Hdom, list_to_set_cons.
    rewrite (union_comm_L {[sid]} (list_to_set sids)). now rewrite union_assoc_L.
Qed.

Lemma fired_daily (p : App.Process) :
  Forall (fun s => s = App.mkScheduler [daily_job] true) (App.schedulers p) ->
  length (App.fired 6 0 p) = length (App.schedulers p).
Proof.
  unfold App.fired. generalize (App.schedulers p). intros ss Hall.
  induction Hall as [|s ss -> _ IH]; simpl; [reflexivity|].
  now rewrite IH.
Qed.

(** C3 does not hold of the code.  The flag that guards [init_scheduler]
    lives in the session state, so the scheduler is started once for every
    session and not once for the process: after the script has run for the
    sessions [sids] (reruns included), the process holds as many running
    schedulers as there are distinct sessions, and each fires the daily job.
    With two sessions, [init_scheduler] has run twice and the refresh job
    fires twice at 06:00. *)
Theorem scheduler_started_once_per_session (sids : list nat) :
  length (App.schedulers (App.runs sids App.fresh_process))
  = size (list_to_set sids : gset nat)
  /\ length (App.fired 6 0 (App.runs sids App.fresh_process))
     = size (list_to_set sids : gset nat)
  /\ length (App.schedulers (App.runs [1; 1; 2]%nat App.fresh_process)) = 2%nat
  /\ App.fired 6 0 (App.runs [1; 1; 2]%nat App.fresh_process) = [daily_job; daily_job].
Proof.
  destruct (runs_inv sids App.fresh_process fresh_process_inv)
    as [(_ & Hlen & Hjobs) Hdom].
  assert (Hsize : length (App.schedulers (App.runs sids App.fresh_process))
                  = size (list_to_set sids : gset nat)).
  { rewrite Hlen, Hdom. simpl. now rewrite dom_empty_L, union_empty_r_L. }
  split; [exact Hsize|]. split; [|split].
  - rewrite <- Hsize. now apply fired_daily.
  - reflexivity.
  - reflexivity.
Qed.

(** ** The cache *)

Lemma resolve_total {L : Library} (D : Dataset) (w : World) :
  exists v : Resolved, fst (resolve D w) = Ok v.
Proof.
  destruct D; unfold resolve; rewrite fst_bind_ret.
  - rewrite load_economic_indicators_value. eauto.
  - rewrite load_unesco_sites_value. eauto.
  - rewrite load_budget_value. eauto.
  - rewrite load_nameday_value. eauto.
  - rewrite load_artist_status_value. eauto.
Qed.

(** C8.  When an access at time [t1] finds no live entry for the dataset, the
    accessor runs the loader once and stores its value.  Every access at a
    time [t2] with [t2 - t1 < ttl] then returns that same value and leaves
    the cache, the count of resolver invocations and the world as they are:
    the loader is not run again, whatever has become of the snapshot and of
    the network.  At a time with [t2 - t1 >= ttl] the entry is treated as
    absent: the loader runs again and its new value is served. *)
Theorem cached_twice_within_ttl {L : Library}
    (D : Dataset) (t1 : Z) (c : Cache) (w : World) :
  entries c !! dataset_name D ≫= live t1 = None ->
  exists (v : Resolved) (c1 : Cache) (w1 : World),
    cached_accessor t1 D c w = (Ok v, c1, w1)
    /\ invocations c1 = (invocations c ++ [dataset_name D])%list
    /\ (forall (t2 : Z) (w2 : World),
          t2 - t1 < ttl_of D ->
          cached_accessor t2 D c1 w2 = (Ok v, c1, w2))
    /\ (forall (t2 : Z) (w2 : World),
          ttl_of D <= t2 - t1 ->
          exists (v2 : Resolved) (c2 : Cache) (w3 : World),
            cached_accessor t2 D c1 w2 = (Ok v2, c2, w3)
            /\ resolve D w2 = (Ok v2, w3)
            /\ invocations c2 = (invocations c1 ++ [dataset_name D])%list).
Proof.
  intros Hmiss. unfold cached_accessor, get_or_resolve. rewrite Hmiss.
  destruct (resolve_total D w) as [v Hv].
  destruct (resolve D w) as [r w1] eqn:Hr. simpl in Hv. subst r.
  eexists v, _, w1. split; [reflexivity|]. split; [reflexivity|]. split.
  - intros t2 w2 Hlt. simpl. rewrite lookup_insert_eq. simpl. unfold live. simpl.
    now rewrite (proj2 (Z.ltb_lt _ _) Hlt).
  - intros t2 w2 Hge. simpl. rewrite lookup_insert_eq. simpl. unfold live. simpl.
    rewrite (proj2 (Z.ltb_ge _ _) Hge).
    destruct (resolve_total D w2) as [v2 Hv2].
    destruct (resolve D w2) as [r w3] eqn:Hr2. simpl in Hv2. subst r.
    eexists v2, _, w3. repeat split.
Qed.

(** Two accesses to the economic indicators one hour apart, the snapshot
    having been removed in between: the second is served from the cache. *)
Lemma cached_twice_within_ttl_witness :
  exists (c1 : Cache) (w1 : World),
    cached_accessor (L := Fixture.library) 0 economic_indicators empty_cache
      (Fixture.world Fixture.snapshots Fixture.offline)
    = (Ok (RJson Fixture.economics_json), c1, w1)
    /\ invocations c1 = ["economic_indicators"]
    /\ cached_accessor (L := Fixture.library) 3600 economic_indicators c1
         (Fixture.world [] Fixture.offline)
       = (Ok (RJson Fixture.economics_json), c1, Fixture.world [] Fixture.offline).
Proof.
  destruct (cached_twice_within_ttl (L := Fixture.library) economic_indicators 0
              empty_cache (Fixture.world Fixture.snapshots Fixture.offline) eq_refl)
    as (v & c1 & w1 & Hfirst & Hcount & Hhit & _).
  exists c1, w1.
  assert (Hv : v = RJson Fixture.economics_json).
  { vm_compute in Hfirst. now injection Hfirst as <- _ _. }
  subst v. split; [exact Hfirst|]. split; [exact Hcount|].
  apply Hhit. reflexivity.
Defined.

(** ** The budget of a year *)

Section Budget.
Context {L : Library}.

Lemma year_rows_filter (df : DataFrame) (y : Z) :
  rows (year_rows df y) = List.filter (in_year df y) (rows df).
Proof.
  unfold year_rows, filter_eq, column_pos, in_year.
  destruct (col_index "Year" (columns df)) as [i|]; simpl; [reflexivity|].
  now induction (rows df).
Qed.

Lemma state_budget_value (year : Z) (w : World) (served : DataFrame) :
  fst (DataLoader.load_budget year w) = Ok served ->
  fst (App.state_budget year w) = budget_widget year served.
Proof.
  unfold App.state_budget, budget_widget, bind.
  destruct (DataLoader.load_budget year w) as [[df|e] w']; simpl; [|discriminate].
  intros [= ->].
  destruct (negb (df_empty served)); [|reflexivity].
  unfold of_res, lift, ret, raise.
  destruct (App.total_budget served) as [total|e]; [|reflexivity].
  destruct (format_amount total); reflexivity.
Qed.

(** *** What the formatted total shows *)

Lemma wrap_int64_small (z : Z) : in_int64 z -> wrap_int64 z = z.
Proof. unfold in_int64, wrap_int64. intros Hz. rewrite Z.mod_small by lia. lia. Qed.

Lemma grouped_opp (z : Z) : grouped (- z) = grouped z.
Proof. unfold grouped. now rewrite Z.abs_opp. Qed.

(** A float that holds a whole number other than zero is shown as that
    number. *)
Lemma format_f0_exact (f : float) (z : Z) :
  exact_int f = Some z -> z <> 0 -> format_f0 f = thousands z.
Proof.
  unfold exact_int, format_f0, thousands, round_half_even.
  destruct (Prim2SF f) as [s|s| |s m e]; try discriminate.
  - intros [= <-] H. contradiction.
  - assert (Hsign : forall a : Z, 0 <= a -> (if s then - a else a) <> 0 ->
              (if s then "-" else "") +:+ grouped a
              = (if (if s then - a else a) <? 0 then "-" else "")
                +:+ grouped (if s then - a else a)).
    { intros a Ha Hne. destruct s.
      - rewrite grouped_opp. now rewrite (proj2 (Z.ltb_lt (- a) 0)) by lia.
      - now rewrite (proj2 (Z.ltb_ge a 0)) by lia. }
    destruct (0 <=? e) eqn:He.
    + cbv zeta. intros [= <-] Hne. apply Hsign; [|exact Hne].
      apply Z.leb_le in He. apply Z.mul_nonneg_nonneg; [lia|]. now apply Z.pow_nonneg.
    + apply Z.leb_gt in He.
      assert (Hd : 0 < 2 ^ (- e)) by (apply Z.pow_pos_nonneg; lia).
      destruct (Z.pos m mod 2 ^ (- e) =? 0) eqn:Hr; [|discriminate].
      apply Z.eqb_eq in Hr. cbv zeta. rewrite Hr.
      rewrite (proj2 (Z.ltb_lt (2 * 0) (2 ^ (- e)))) by lia.
      intros [= <-] Hne. apply Hsign; [|exact Hne].
      apply Z.div_pos; lia.
Qed.

(** An integer below [2^53] in absolute value is shown as it is. *)
Lemma format_amount_int (z : Z) :
  Z.abs z < 2 ^ 53 -> format_amount (VInt z) = Ok (thousands z).
Proof.
  intros Hz. destruct z as [|m|m]; [reflexivity| |]; cbn [format_amount].
  - rewrite (Prim2SF_Z2float false m) by exact Hz.
    f_equal. apply format_f0_exact; [now apply exact_int_Z2float | lia].
  - rewrite (Prim2SF_Z2float true m) by exact Hz.
    f_equal. apply format_f0_exact; [now apply exact_int_Z2float | lia].
Qed.

(** The page for a served table with rows, an [Amount_CZK] column and a
    total that formats. *)
Lemma budget_widget_total (y : Z) (served : DataFrame) (i : nat)
    (total : value) (shown : string) :
  rows served <> [] ->
  col_index "Amount_CZK" (columns served) = Some i ->
  series_sum (List.map (cell i) (rows served)) = Some total ->
  format_amount total = Ok shown ->
  budget_widget y served
  = Ok (App.Metric ("Total Ministry Budget " +:+ pretty y) (shown +:+ " CZK") "Approved").
Proof.
  intros Hrows Hcol Hsum Hfmt. unfold budget_widget, App.total_budget, column_pos, df_empty.
  rewrite Hcol, Hsum, Hfmt.
  destruct (columns served); [discriminate|].
  destruct (rows served); [contradiction | reflexivity].
Qed.

End Budget.

(** The budget of two lines of [2^62] CZK: the page shows a total below
    zero. *)
Example great_budget_total :
  fst (App.state_budget (L := Fixture.library) 2024
         (Fixture.world [("data/budget_official.csv", Fixture.great_budget_text)]
                        Fixture.offline))
  = Ok (App.Metric "Total Ministry Budget 2024" "-9,223,372,036,854,775,808 CZK" "Approved").
Proof. vm_compute. reflexivity. Qed.

(** C6, as worded, fails: the sum of the amounts of the returned rows is not
    always the total displayed.  A column of integers is added up in
    [int64]; for two budget lines of [2^62] CZK each the page shows a total
    below zero and not their sum. *)
Lemma total_is_not_the_sum :
  ~ (forall (L : Library) (w : World) (y : Z), total_as_specified w y).
Proof.
  intros claim.
  pose proof (claim Fixture.library
                (Fixture.world [("data/budget_official.csv", Fixture.great_budget_text)]
                               Fixture.offline)
                2024 Fixture.great_budget_text Fixture.great_budget_frame 2%nat
                [4611686018427387904; 4611686018427387904]) as H.
  rewrite great_budget_total in H.
  assert (Hshown : Ok (App.Metric "Total Ministry Budget 2024"
                         "-9,223,372,036,854,775,808 CZK" "Approved")
                   = Ok (App.Metric "Total Ministry Budget 2024"
                           "9,223,372,036,854,775,808 CZK" "Approved")).
  { rewrite H; [vm_compute; reflexivity | vm_compute; reflexivity | reflexivity
               | reflexivity | reflexivity | discriminate
               | repeat constructor; unfold in_int64; lia]. }
  discriminate Hshown.
Qed.

(** C6, amended.  For every year and every budget snapshot, [load_budget]
    returns exactly the rows of the snapshot whose [Year] equals the year, in
    their order and as often as they occur: no row of another year, and no
    row of the year left out.  The State Budget module displays the sum of
    [Amount_CZK] over these rows where the sum is exact: for amounts that are
    integers whose sum is below [2^53] in absolute value, and for amounts
    that are floats holding whole numbers, the missing ones skipped, whose
    absolute values sum to less than [2^53] (and not to zero).  Integers are
    added up in [int64], so that a greater sum wraps around. *)
Theorem load_budget_serves_the_year {L : Library}
    (w : World) (c : string) (df : DataFrame) (y : Z) :
  files w !! "data/budget_official.csv" = Some c ->
  read_csv_text c = Some df ->
  exists served : DataFrame,
    fst (DataLoader.load_budget y w) = Ok served
    /\ rows served = List.filter (in_year df y) (rows df)
    /\ (forall row : list value,
          In row (rows served) <-> In row (rows df) /\ in_year df y row = true)
    /\ (forall (i : nat) (zs : list Z),
          col_index "Amount_CZK" (columns df) = Some i ->
          List.map (cell i) (rows served) = List.map VInt zs ->
          zs <> [] ->
          Forall in_int64 zs ->
          App.total_budget served = Ok (VInt (wrap_int64 (Zsum zs)))
          /\ (Z.abs (Zsum zs) < 2 ^ 53 ->
              fst (App.state_budget y w)
              = Ok (App.Metric ("Total Ministry Budget " +:+ pretty y)
                               (thousands (Zsum zs) +:+ " CZK") "Approved")))
    /\ (forall (i : nat) (fs : list float) (zs : list Z),
          col_index "Amount_CZK" (columns df) = Some i ->
          List.map (cell i) (rows served) = List.map VFloat fs ->
          fs <> [] ->
          List.map addend fs = List.map Some zs ->
          Zsum_abs zs < 2 ^ 53 ->
          Zsum zs <> 0 ->
          fst (App.state_budget y w)
          = Ok (App.Metric ("Total Ministry Budget " +:+ pretty y)
                           (thousands (Zsum zs) +:+ " CZK") "Approved")).
Proof.
  intros Hc Hdf. exists (year_rows df y).
  assert (Hload : fst (DataLoader.load_budget y w) = Ok (year_rows df y)).
  { rewrite load_budget_value, Hc. simpl. now rewrite Hdf. }
  assert (Hcols : rows (year_rows df y) <> [] -> columns (year_rows df y) = columns df).
  { unfold year_rows, filter_eq, column_pos.
    destruct (col_index "Year" (columns df)); [reflexivity|]. intros H. now contradiction H. }
  split; [exact Hload|]. split; [apply year_rows_filter|]. split; [|split].
  - intros row. rewrite year_rows_filter. apply filter_In.
  - intros i zs Hi Hcells Hne Hrange.
    assert (Hrows : rows (year_rows df y) <> []).
    { intros Hnil. rewrite Hnil in Hcells. destruct zs; [contradiction | discriminate]. }
    assert (Hsum : series_sum (List.map (cell i) (rows (year_rows df y)))
                   = Some (VInt (wrap_int64 (Zsum zs)))).
    { rewrite Hcells. now apply series_sum_int64. }
    split.
    + unfold App.total_budget, column_pos. now rewrite (Hcols Hrows), Hi, Hsum.
    + intros Hsmall. rewrite (state_budget_value y w _ Hload).
      apply (budget_widget_total y _ i (VInt (wrap_int64 (Zsum zs)))); try assumption.
      * now rewrite (Hcols Hrows).
      * rewrite wrap_int64_small by (unfold in_int64; lia). now apply format_amount_int.
  - intros i fs zs Hi Hcells Hne Hadd Hbound Hnz.
    assert (Hrows : rows (year_rows df y) <> []).
    { intros Hnil. rewrite Hnil in Hcells. destruct fs; [contradiction | discriminate]. }
    destruct (series_sum_float64 fs zs Hne Hadd Hbound) as (f & Hsum & Hf).
    rewrite (state_budget_value y w _ Hload).
    apply (budget_widget_total y _ i (VFloat f)).
    + exact Hrows.
    + now rewrite (Hcols Hrows).
    + now rewrite Hcells.
    + cbn [format_amount]. f_equal. now apply format_f0_exact.
Qed.

(** The snapshot with rows for 2023 and 2024, asked for 2024: the three rows
    of 2024 are served, and the module shows their sum, 1,700,000,000 CZK. *)
Lemma load_budget_serves_the_year_witness :
  exists served : DataFrame,
    fst (DataLoader.load_budget (L := Fixture.library) 2024
           (Fixture.world Fixture.snapshots Fixture.offline)) = Ok served
    /\ rows served
       = [ [ VInt 2024; VStr "Heritage"; VFloat 1250000000; VStr "Monuments care" ];
           [ VInt 2024; VStr "Live Arts"; VFloat 350000000; VStr "Theatres and orchestras" ];
           [ VInt 2024; VStr "Film"; VFloat 100000000; VStr "Film fund" ] ]
    /\ fst (App.state_budget (L := Fixture.library) 2024
              (Fixture.world Fixture.snapshots Fixture.offline))
       = Ok (App.Metric "Total Ministry Budget 2024" "1,700,000,000 CZK" "Approved").
Proof.
  destruct (load_budget_serves_the_year (L := Fixture.library)
              (Fixture.world Fixture.snapshots Fixture.offline)
              Fixture.budget_text Fixture.budget_frame 2024)
    as (served & Hload & Hrows & _ & _ & Hfloats).
  - vm_compute. reflexivity.
  - reflexivity.
  - exists served. split; [exact Hload|]. split; [rewrite Hrows; reflexivity|].
    rewrite (Hfloats 2%nat [1250000000; 350000000; 100000000]%float
               [1250000000; 350000000; 100000000]).
    + reflexivity.
    + reflexivity.
    + rewrite Hrows. reflexivity.
    + discriminate.
    + vm_compute. reflexivity.
    + vm_compute. reflexivity.
    + discriminate.
Defined.

(** ** The top sites *)

Section TopSites.
Context {L : Library}.

Lemma top_sites_value (df : DataFrame) (iN iV iR : nat) :
  col_index "name" (columns df) = Some iN ->
  col_index App.visitor_col (columns df) = Some iV ->
  col_index "renovation_roi" (columns df) = Some iR ->
  App.top_sites df
  = Ok (mkDF ["name"; App.visitor_col; "renovation_roi"]
          (firstn 5
             (List.map (fun j => nth j (List.map (shown_cells iN iV iR) (rows df)) [])
                (argsort_desc (List.map (cell iV) (rows df)))))).
Proof.
  intros HN HV HR.
  unfold App.top_sites, App.select_columns, App.column_positions, column_pos.
  rewrite HN, HV, HR.
  unfold App.sort_values_desc, column_pos, App.head. simpl.
  rewrite List.map_map. reflexivity.
Qed.

Lemma nth_shown (rs : list (list value)) (iN iV iR j : nat) :
  (j < length rs)%nat ->
  nth j (List.map (shown_cells iN iV iR) rs) [] = shown_cells iN iV iR (nth j rs []).
Proof.
  intros Hj.
  rewrite (nth_indep _ [] (shown_cells iN iV iR [])) by now rewrite length_map.
  apply map_nth.
Qed.

End TopSites.

Lemma NoDup_firstn {A} (n : nat) (l : list A) : NoDup l -> NoDup (firstn n l).
Proof. intros Hnd. exact (sublist_NoDup _ _ Hnd (sublist_take l n)). Qed.

Lemma In_firstn {A} (n : nat) (l : list A) (x : A) : In x (firstn n l) -> In x l.
Proof.
  intros Hin. apply list_elem_of_In. apply list_elem_of_In in Hin.
  exact (elem_of_sublist _ _ _ Hin (sublist_take l n)).
Qed.

Lemma Sorted_firstn {A} (R : A -> A -> Prop) (n : nat) (l : list A) :
  Sorted R l -> Sorted R (firstn n l).
Proof.
  revert n. induction l as [|x l IH]; intros [|n] Hs; simpl; try constructor.
  - apply IH. now inversion Hs.
  - inversion Hs as [|? ? _ Hhd]; subst.
    destruct l as [|y l]; destruct n; simpl; constructor.
    now inversion Hhd.
Qed.

(** C4, amended.  When the UNESCO snapshot has 19 rows, [load_unesco_sites]
    returns exactly these 19 records.  The table of top sites shows five of
    them, each once, in the order pandas computes from the [visitors_2024]
    column alone; along it the visitors never increase.  The names do not
    enter the order: where two sites count the same visitors, which comes
    first is left to the sort. *)
Theorem top_sites_by_visitors {L : Library}
    (w : World) (c : string) (df : DataFrame) (iN iV iR : nat) (zs : list Z) :
  files w !! "data/fallback_unesco.csv" = Some c ->
  read_csv_text c = Some df ->
  length (rows df) = 19%nat ->
  col_index "name" (columns df) = Some iN ->
  col_index App.visitor_col (columns df) = Some iV ->
  col_index "renovation_roi" (columns df) = Some iR ->
  List.map (cell iV) (rows df) = List.map VInt zs ->
  let order := firstn 5 (argsort_desc (List.map VInt zs)) in
  fst (DataLoader.load_unesco_sites w) = Ok df
  /\ App.top_sites df
     = Ok (mkDF ["name"; App.visitor_col; "renovation_roi"]
             (List.map (fun j => shown_cells iN iV iR (nth j (rows df) [])) order))
  /\ length order = 5%nat
  /\ NoDup order
  /\ Forall (fun j => (j < 19)%nat) order
  /\ Sorted (fun a b : Z => b <= a) (List.map (fun j => nth j zs 0) order).
Proof.
  intros Hc Hdf Hlen HN HV HR Hkeys order.
  assert (Hzs : length zs = 19%nat).
  { rewrite <- Hlen, <- (length_map (cell iV)), Hkeys. now rewrite length_map. }
  pose proof (argsort_desc_perm (List.map VInt zs)) as Hperm.
  rewrite length_map, Hzs in Hperm.
  assert (Hrange : forall j, In j (argsort_desc (List.map VInt zs)) -> (j < 19)%nat).
  { intros j Hj. apply (Permutation_in _ Hperm), in_seq in Hj. lia. }
  split; [|split; [|split; [|split; [|split]]]].
  - rewrite load_unesco_sites_value, Hc. simpl. now rewrite Hdf.
  - rewrite (top_sites_value df iN iV iR HN HV HR), Hkeys, firstn_map.
    do 2 f_equal. apply map_ext_in. intros j Hj.
    apply nth_shown. rewrite Hlen. apply Hrange. exact (In_firstn _ _ _ Hj).
  - unfold order. rewrite length_firstn, (Permutation_length Hperm), length_seq.
    reflexivity.
  - apply NoDup_firstn. rewrite Hperm. apply NoDup_seq.
  - apply Forall_forall. intros j Hj. apply Hrange.
    apply list_elem_of_In in Hj. exact (In_firstn _ _ _ Hj).
  - unfold order. rewrite <- firstn_map. apply Sorted_firstn, argsort_desc_sorted.
Qed.

(** The snapshot of nineteen sites: the five most visited, Lednice-Valtice
    and Kutna Hora with the same count. *)
Lemma top_sites_by_visitors_witness :
  fst (DataLoader.load_unesco_sites (L := Fixture.library)
         (Fixture.world Fixture.snapshots Fixture.offline)) = Ok Fixture.unesco_frame
  /\ App.top_sites (L := Fixture.library) Fixture.unesco_frame
     = Ok (mkDF ["name"; "visitors_2024"; "renovation_roi"]
             [ [ VStr "Prague"; VInt 8200000; VFloat 320 ];
               [ VStr "Cesky Krumlov"; VInt 2100000; VFloat 450.5 ];
               [ VStr "Spa Towns"; VInt 1900000; VFloat 410 ];
               [ VStr "Lednice-Valtice"; VInt 640000; VFloat 380 ];
               [ VStr "Kutna Hora"; VInt 640000; VFloat 275.5 ] ]).
Proof.
  destruct (top_sites_by_visitors (L := Fixture.library)
              (Fixture.world Fixture.snapshots Fixture.offline)
              Fixture.unesco_text Fixture.unesco_frame 0 3 4
              [ 8200000; 2100000; 310000; 95000; 640000; 640000; 280000; 60000; 120000; 410000; 52000; 88000; 150000; 70000; 1900000; 45000; 98000; 230000; 260000 ])
    as (Hload & Htop & _);
    [ vm_compute; reflexivity | reflexivity | reflexivity | reflexivity
    | reflexivity | reflexivity | reflexivity | ].
  split; [exact Hload|]. rewrite Htop. vm_compute. reflexivity.
Defined.

(** *** Ties are not broken by name *)

Section Ties.
Context {L : Library}.

Lemma tied_top_sites (names : list string) :
  App.top_sites (Fixture.tied_frame names)
  = Ok (mkDF ["name"; App.visitor_col; "renovation_roi"]
          (firstn 5
             (List.map (fun j => nth j (List.map tied_cells names) [])
                (argsort_desc (repeat (VInt 100000) (length names)))))).
Proof.
  rewrite (top_sites_value _ 0 3 4) by reflexivity.
  assert (Hcells : List.map (shown_cells 0 3 4) (rows (Fixture.tied_frame names))
                   = List.map tied_cells names).
  { unfold Fixture.tied_frame. cbn [rows]. rewrite List.map_map. reflexivity. }
  assert (Hkeys : List.map (cell 3) (rows (Fixture.tied_frame names))
                  = repeat (VInt 100000) (length names)).
  { clear Hcells. unfold Fixture.tied_frame. cbn [rows]. rewrite List.map_map.
    induction names as [|n names IH]; [reflexivity|].
    cbn [List.map length repeat]. rewrite IH. reflexivity. }
  now rewrite Hcells, Hkeys.
Qed.

Lemma nth_tied (names : list string) (j : nat) :
  (j < length names)%nat ->
  nth j (List.map tied_cells names) [] = tied_cells (nth j names "").
Proof.
  intros Hj.
  rewrite (nth_indep _ [] (tied_cells "")) by now rewrite length_map.
  apply map_nth.
Qed.

(** When the sort puts the rows [i] and [j] of a table of tied sites first and
    the name of [i] does not come before that of [j], the table of top sites
    is not in order of name. *)
Lemma tied_violation (names : list string) (i j : nat) (rest : list nat) :
  argsort_desc (repeat (VInt 100000) (length names)) = i :: j :: rest ->
  (i < length names)%nat ->
  (j < length names)%nat ->
  String.leb (nth i names "") (nth j names "") = false ->
  forall t : DataFrame,
    App.top_sites (Fixture.tied_frame names) = Ok t -> ~ ties_by_name t.
Proof.
  intros Hp Hi Hj Hle t Ht Hties.
  rewrite tied_top_sites, Hp in Ht. injection Ht as <-.
  cbn [List.map firstn] in Hties.
  rewrite (nth_tied names i Hi), (nth_tied names j Hj) in Hties.
  specialize (Hties 0%nat 1%nat (tied_cells (nth i names "")) (tied_cells (nth j names ""))
                (VInt 100000) (nth i names "") (nth j names "")).
  rewrite Hties in Hle; [discriminate | lia | reflexivity..].
Qed.

End Ties.

(** Of two distinct positions in the ascending list of names, one holds the
    later name in the list or in its reverse. *)
Lemma names_or_reverse (i j : nat) :
  (i < 19)%nat -> (j < 19)%nat -> i <> j ->
  String.leb (nth i Fixture.site_names "") (nth j Fixture.site_names "") = false
  \/ String.leb (nth i (rev Fixture.site_names) "") (nth j (rev Fixture.site_names) "")
     = false.
Proof.
  intros Hi Hj Hne.
  assert (Hall :
    forallb (fun i => forallb (fun j =>
      (i =? j)%nat
      || negb (String.leb (nth i Fixture.site_names "") (nth j Fixture.site_names ""))
      || negb (String.leb (nth i (rev Fixture.site_names) "")
                          (nth j (rev Fixture.site_names) "")))
      (seq 0 19)) (seq 0 19) = true) by (vm_compute; reflexivity).
  rewrite forallb_forall in Hall.
  specialize (Hall i (proj2 (in_seq _ _ _) (conj (Nat.le_0_l _) Hi))).
  rewrite forallb_forall in Hall.
  specialize (Hall j (proj2 (in_seq _ _ _) (conj (Nat.le_0_l _) Hj))).
  apply orb_true_iff in Hall as [Hall | Hall];
    [apply orb_true_iff in Hall as [Hall | Hall]|].
  - apply Nat.eqb_eq in Hall. contradiction.
  - left. now apply negb_true_iff.
  - right. now apply negb_true_iff.
Qed.

(** C4, as worded, fails, whatever the sort does with equal keys: it is
    handed the visitors alone, so it arranges two tables with the same
    visitors and other names alike.  Of the nineteen sites with one and the
    same count, listed by ascending name and by descending name, one comes
    out with its two first rows against the order of their names. *)
Lemma ties_not_broken_by_name :
  ~ exists L : Library,
      forall df : DataFrame,
        length (rows df) = 19%nat ->
        forall t : DataFrame, App.top_sites df = Ok t -> ties_by_name t.
Proof.
  intros [L claim].
  pose proof (argsort_desc_perm (repeat (VInt 100000) 19)) as Hperm.
  rewrite repeat_length in Hperm.
  destruct (argsort_desc (repeat (VInt 100000) 19)) as [|i [|j rest]] eqn:Hp;
    [apply Permutation_length in Hperm; discriminate..|].
  assert (Hi : (i < 19)%nat).
  { assert (Hin : In i (seq 0 19)) by (apply (Permutation_in _ Hperm); now left).
    apply in_seq in Hin. lia. }
  assert (Hj : (j < 19)%nat).
  { assert (Hin : In j (seq 0 19)) by (apply (Permutation_in _ Hperm); right; now left).
    apply in_seq in Hin. lia. }
  assert (Hne : i <> j).
  { assert (Hnd : NoDup (i :: j :: rest)) by (rewrite Hperm; apply NoDup_seq).
    apply NoDup_cons in Hnd as [Hnotin _]. intros ->. apply Hnotin. now left. }
  destruct (names_or_reverse i j Hi Hj Hne) as [Hle | Hle].
  - eapply (tied_violation Fixture.site_names i j rest Hp Hi Hj Hle); [reflexivity|].
    apply (claim (Fixture.tied_frame Fixture.site_names)); [reflexivity|].
    apply tied_top_sites.
  - eapply (tied_violation (rev Fixture.site_names) i j rest Hp Hi Hj Hle); [reflexivity|].
    apply (claim (Fixture.tied_frame (rev Fixture.site_names))); [reflexivity|].
    apply tied_top_sites.
Qed.

(** * Further properties *)

(** ** The disciplines of the registry *)

Section Iterrows.

Lemma fold_common_object (ts : list dtype) (t : dtype) :
  t = Object \/ In Object ts -> fold_left common_dtype ts t = Object.
Proof.
  revert t. induction ts as [|u ts IH]; intros t [Ht | Hin]; cbn [fold_left].
  - exact Ht.
  - destruct Hin.
  - apply IH. left. subst t. reflexivity.
  - apply IH. destruct Hin as [-> | Hin]; [left; now destruct t | now right].
Qed.

Lemma common_dtypes_object (ts : list dtype) : In Object ts -> common_dtypes ts = Object.
Proof.
  destruct ts as [|t ts]; [intros []|]. intros [-> | Hin]; apply fold_common_object; auto.
Qed.

Lemma col_index_lt (name : string) (cols : list string) (i : nat) :
  col_index name cols = Some i -> (i < length cols)%nat.
Proof.
  revert i. induction cols as [|c cols IH]; intros i; cbn [col_index length]; [discriminate|].
  destruct (String.eqb c name); [intros [= <-]; lia|].
  destruct (col_index name cols) as [j|]; [|discriminate].
  intros [= <-]. specialize (IH j eq_refl). lia.
Qed.

(** A column that holds a string is an [object] column ... *)
Lemma column_dtype_string (i : nat) (rs : list (list value)) (row : list value)
    (t : string) :
  In row rs -> cell i row = VStr t -> column_dtype i rs = Object.
Proof.
  intros Hin Ht. apply common_dtypes_object, in_map_iff.
  exists row. split; [now rewrite Ht | exact Hin].
Qed.

(** ... and so is the array of a table with such a column. *)
Lemma values_dtype_string (df : DataFrame) (i : nat) (row : list value) (t : string) :
  (i < length (columns df))%nat -> In row (rows df) -> cell i row = VStr t ->
  values_dtype df = Object.
Proof.
  intros Hi Hin Ht. apply common_dtypes_object, in_map_iff.
  exists i. split; [now apply column_dtype_string with row t|].
  apply in_seq. lia.
Qed.

Lemma cell_as_dtype (t : dtype) (i : nat) (row : list value) :
  cell i (List.map (as_dtype t) row) = as_dtype t (cell i row).
Proof.
  unfold cell. revert i. induction row as [|v row IH]; intros [|i]; cbn [List.map nth];
    first [apply IH | now destruct t].
Qed.

Lemma iterrows_object (df : DataFrame) : values_dtype df = Object -> iterrows df = rows df.
Proof.
  intros Ht. unfold iterrows. rewrite Ht.
  rewrite (map_ext _ id), map_id; [reflexivity|].
  intros row. now rewrite (map_ext _ id), map_id.
Qed.

(** In a table whose indicators are strings the rows come out as stored, and
    a missing indicator would be the one [numpy.nan]. *)
Lemma iterrows_strings (df : DataFrame) (iI : nat) :
  col_index "indicator" (columns df) = Some iI ->
  (forall row, In row (rows df) -> exists t : string, cell iI row = VStr t) ->
  iterrows df = rows df
  /\ (rows df <> [] -> nan_is_one_object df "indicator" = true).
Proof.
  intros HI Hstr. destruct (rows df) as [|row rs] eqn:Hrows.
  - split; [|intros H; now contradiction H]. unfold iterrows. now rewrite Hrows.
  - destruct (Hstr row (or_introl eq_refl)) as [t Ht]. rewrite <- Hrows. split.
    + apply iterrows_object.
      apply (values_dtype_string df iI row t); [now apply col_index_lt with "indicator"| |exact Ht].
      rewrite Hrows. now left.
    + intros _. unfold nan_is_one_object. rewrite HI.
      rewrite (column_dtype_string iI (rows df) row t); [reflexivity| |exact Ht].
      rewrite Hrows. now left.
Qed.

End Iterrows.

Section Disciplines.
Context {L : Library}.

Lemma disciplines_loop_fold (df : DataFrame) (iI : nat) (rs : list (list value))
    (d : list (value * float)) :
  col_index "indicator" (columns df) = Some iI ->
  DataLoader.disciplines_loop df rs d
  = Ok (fold_left (discipline_step (nan_is_one_object df "indicator") iI
                     (col_index "value" (columns df))) rs d).
Proof.
  intros HI. revert d. induction rs as [|row rs IH]; intros d; [reflexivity|].
  cbn [DataLoader.disciplines_loop fold_left].
  unfold row_get, column_pos. rewrite HI. rewrite IH. do 2 f_equal.
  unfold discipline_step.
  destruct (negb (py_eq (cell iI row) (VStr "registered_count"))); [|reflexivity].
  destruct (col_index "value" (columns df)); reflexivity.
Qed.

(** NaN equals no key. *)
Lemma py_eq_nan_r (k' k : value) : is_nan_value k = true -> py_eq k' k = false.
Proof.
  destruct k as [z|f|t|b]; cbn [is_nan_value]; try discriminate. intros Hnan.
  destruct k' as [z'|f'|t'|b']; cbn [py_eq]; try reflexivity;
    first [now apply eqb_nan_r | now apply eqb_nan_l].
Qed.

Lemma dict_set_keys {V} (d : list (value * V)) (k : value) (v : V) :
  List.map fst (dict_set d k v) = List.map fst d
  \/ (List.map fst (dict_set d k v) = (List.map fst d ++ [k])%list
      /\ Forall (fun p => key_eqb (fst p) k = false) d).
Proof.
  induction d as [|[k' v'] d IH]; cbn [dict_set List.map fst].
  - right. split; [reflexivity | constructor].
  - destruct (key_eqb k' k) eqn:Hk; cbn [List.map fst].
    + now left.
    + destruct IH as [IH | [IH Hall]].
      * left. now rewrite IH.
      * right. split; [now rewrite IH | now constructor].
Qed.

Lemma setitem_keys {V} (one_nan : bool) (d : list (value * V)) (k : value) (v : V) :
  List.map fst (setitem one_nan d k v) = List.map fst d
  \/ List.map fst (setitem one_nan d k v) = (List.map fst d ++ [k])%list.
Proof.
  unfold setitem. destruct (is_nan_value k && negb one_nan).
  - right. now rewrite map_app.
  - destruct (dict_set_keys d k v) as [H | [H _]]; auto.
Qed.

Lemma dict_set_distinct {V} (d : list (value * V)) (k : value) (v : V) :
  distinct_keys d -> distinct_keys (dict_set d k v).
Proof.
  induction d as [|[k' v'] d IH]; cbn [dict_set distinct_keys].
  - intros _. split; [constructor | exact I].
  - intros [Hhead Htail]. destruct (key_eqb k' k) eqn:Hk; cbn [distinct_keys].
    + split; assumption.
    + split; [|now apply IH].
      apply orb_false_iff in Hk as [Hk _].
      clear IH Htail. induction d as [|[k'' v''] d IH]; cbn [dict_set].
      * repeat constructor. exact Hk.
      * apply Forall_cons in Hhead as [Hk'' Hhead].
        destruct (key_eqb k'' k); constructor; auto.
Qed.

Lemma dict_set_unique {V} (d : list (value * V)) (k : value) (v : V) :
  unique_keys d -> unique_keys (dict_set d k v).
Proof.
  induction d as [|[k' v'] d IH]; cbn [dict_set unique_keys].
  - intros _. split; [constructor | exact I].
  - intros [Hhead Htail]. destruct (key_eqb k' k) eqn:Hk; cbn [unique_keys].
    + split; assumption.
    + split; [|now apply IH].
      clear IH Htail. induction d as [|[k'' v''] d IH]; cbn [dict_set].
      * repeat constructor. exact Hk.
      * apply Forall_cons in Hhead as [Hk'' Hhead].
        destruct (key_eqb k'' k); constructor; auto.
Qed.

Lemma distinct_keys_snoc {V} (d : list (value * V)) (k : value) (v : V) :
  distinct_keys d ->
  Forall (fun p => py_eq (fst p) k = false) d ->
  distinct_keys (d ++ [(k, v)]).
Proof.
  induction d as [|[k' v'] d IH]; cbn [app distinct_keys].
  - intros _ _. split; [constructor | exact I].
  - intros [Hhead Htail] Hall. apply Forall_cons in Hall as [Hk Hall]. split.
    + apply Forall_app. split; [exact Hhead | repeat constructor; exact Hk].
    + now apply IH.
Qed.

Lemma setitem_distinct {V} (one_nan : bool) (d : list (value * V)) (k : value) (v : V) :
  distinct_keys d -> distinct_keys (setitem one_nan d k v).
Proof.
  intros Hd. unfold setitem. destruct (is_nan_value k && negb one_nan) eqn:Hnan.
  - apply distinct_keys_snoc; [exact Hd|].
    apply andb_true_iff in Hnan as [Hnan _].
    apply List.Forall_forall. intros p _. now apply py_eq_nan_r.
  - now apply dict_set_distinct.
Qed.

Lemma setitem_unique {V} (d : list (value * V)) (k : value) (v : V) :
  unique_keys d -> unique_keys (setitem true d k v).
Proof.
  intros Hd. unfold setitem. rewrite andb_false_r. now apply dict_set_unique.
Qed.

Lemma discipline_step_from_rows (df : DataFrame) (iI : nat) (iV : option nat)
    (d : list (value * float)) (row : list value) :
  In row (iterrows df) ->
  from_rows df iI d ->
  from_rows df iI (discipline_step (nan_is_one_object df "indicator") iI iV d row).
Proof.
  intros Hrow (Hd & Hu & Hkeys). unfold discipline_step.
  destruct (negb (py_eq (cell iI row) (VStr "registered_count"))) eqn:Hrc;
    [|exact (conj Hd (conj Hu Hkeys))].
  destruct iV as [v|]; [|exact (conj Hd (conj Hu Hkeys))].
  destruct (py_float (cell v row)) as [f|e]; [|exact (conj Hd (conj Hu Hkeys))].
  split; [now apply setitem_distinct|]. split.
  - intros Hone. rewrite Hone. apply setitem_unique. now apply Hu.
  - intros k Hk.
    destruct (setitem_keys (nan_is_one_object df "indicator") d (cell iI row) f)
      as [Heq | Heq]; rewrite Heq in Hk.
    + now apply Hkeys.
    + apply in_app_or in Hk as [Hk | [<- | []]]; [now apply Hkeys|].
      split; [now apply negb_true_iff|].
      unfold iterrows in Hrow. apply in_map_iff in Hrow as (row0 & <- & Hrow0).
      exists row0. split; [exact Hrow0 | apply cell_as_dtype].
Qed.

Lemma fold_from_rows (df : DataFrame) (iI : nat) (iV : option nat)
    (rs : list (list value)) (d : list (value * float)) :
  (forall row, In row rs -> In row (iterrows df)) ->
  from_rows df iI d ->
  from_rows df iI
    (fold_left (discipline_step (nan_is_one_object df "indicator") iI iV) rs d).
Proof.
  revert d. induction rs as [|row rs IH]; intros d Hsub Hd; [exact Hd|].
  cbn [fold_left]. apply IH; [intros r Hr; apply Hsub; now right|].
  apply discipline_step_from_rows; [apply Hsub; now left | exact Hd].
Qed.

(** The dictionary of a served record is filled by the loop from the rows
    of the registry table. *)
Lemma served_record_from_rows (w : World) (a : ArtistStatus) :
  fst (DataLoader.load_artist_status w) = Ok (Some a) ->
  exists (c : string) (df : DataFrame) (iI : nat),
    files w !! "data/fallback_artists.csv" = Some c
    /\ read_csv_text c = Some df
    /\ col_index "indicator" (columns df) = Some iI
    /\ from_rows df iI (disciplines a).
Proof.
  intros Ha. rewrite load_artist_status_value in Ha.
  destruct (files w !! "data/fallback_artists.csv") as [c|] eqn:Hc; [|discriminate].
  simpl in Ha. destruct (read_csv_text c) as [df|] eqn:Hdf; [|discriminate].
  simpl in Ha. unfold artist_record, filter_eq, column_pos in Ha.
  destruct (col_index "indicator" (columns df)) as [iI|] eqn:HI; [|discriminate].
  rewrite (disciplines_loop_fold df iI _ _ HI) in Ha.
  exists c, df, iI. split; [reflexivity|]. split; [exact Hdf|]. split; [exact HI|].
  assert (Hd : disciplines a
               = fold_left (discipline_step (nan_is_one_object df "indicator") iI
                              (col_index "value" (columns df)))
                   (iterrows df) []).
  { destruct (if negb _ then _ else _) as [n|e]; [|discriminate].
    now injection Ha as <-. }
  rewrite Hd. apply fold_from_rows; [auto|].
  split; [exact I|]. split; [intros _; exact I | intros k []].
Qed.

End Disciplines.

(** In a table of numbers the keys of [disciplines] are floats, and every
    missing indicator is a key of its own. *)
Example numbered_registry :
  artist_record (L := Fixture.library) Cases.numbered_frame
  = Ok (mkArtistStatus 0 [(VFloat 1, 4.5%float); (VFloat 2, 3.5%float)])
  /\ artist_record (L := Fixture.library) Cases.unnamed_frame
     = Ok (mkArtistStatus 0 [(VFloat 1, 4.5%float); (VFloat nan, 3.5%float);
                             (VFloat nan, 2.5%float)]).
Proof. split; vm_compute; reflexivity. Qed.



Section LastRowWins.
Context {L : Library}.

Lemma key_eqb_str (s t : string) : key_eqb (VStr s) (VStr t) = String.eqb s t.
Proof. unfold key_eqb. simpl. apply orb_false_r. Qed.

Lemma dict_set_string_keys {V} (d : list (value * V)) (t : string) (v : V) :
  string_keys d -> string_keys (dict_set d (VStr t) v).
Proof.
  unfold string_keys. induction d as [|[k' v'] d IH]; cbn [dict_set]; intros Hd.
  - repeat constructor. now exists t.
  - apply Forall_cons in Hd as [Hk Hd]. destruct (key_eqb k' (VStr t)).
    + now constructor.
    + constructor; [exact Hk | now apply IH].
Qed.

(** Assignment and membership for a dictionary keyed by strings. *)
Lemma dict_set_In_str {V} (d : list (value * V)) (t s : string) (v0 v : V) :
  string_keys d -> distinct_keys d ->
  In (VStr s, v) (dict_set d (VStr t) v0)
  <-> (s = t /\ v = v0) \/ (s <> t /\ In (VStr s, v) d).
Proof.
  induction d as [|[k' v'] d IH]; cbn [dict_set]; intros Hstr Hdist.
  - split.
    + intros [[= -> ->] | []]. now left.
    + intros [[-> ->] | [_ []]]. now left.
  - apply Forall_cons in Hstr as [[k Hk] Hstr]. cbn [fst] in Hk. subst k'.
    destruct Hdist as [Hhead Hdist]. rewrite key_eqb_str.
    destruct (String.eqb_spec k t) as [->|Hne].
    + split.
      * intros [[= -> ->] | Hin]; [now left|]. right. split; [|now right].
        intros ->. rewrite Forall_forall in Hhead.
        apply list_elem_of_In in Hin. specialize (Hhead _ Hin).
        cbn [fst py_eq] in Hhead. rewrite String.eqb_refl in Hhead. discriminate.
      * intros [[-> ->] | [Hst [[= <-] | Hin]]]; [now left | contradiction | now right].
    + split.
      * intros [[= <- <-] | Hin].
        -- right. split; [exact Hne | now left].
        -- apply (IH Hstr Hdist) in Hin as [Heq | [Hst Hin]]; [now left|].
           right. split; [exact Hst | now right].
      * intros [Heq | [Hst [Hhd | Hin]]].
        -- right. apply (IH Hstr Hdist). now left.
        -- now left.
        -- right. apply (IH Hstr Hdist). right. now split.
Qed.

Lemma last_float_snoc (iI iV : nat) (s : string) (pre : list (list value))
    (row : list value) :
  last_float iI iV s (pre ++ [row])
  = match last_float iI iV s [row] with
    | Some f => Some f
    | None => last_float iI iV s pre
    end.
Proof.
  induction pre as [|x pre IH]; cbn [app].
  - cbn [last_float]. now destruct (if py_eq _ _ then _ else _).
  - change (last_float iI iV s (x :: pre ++ [row]))
      with (match last_float iI iV s (pre ++ [row]) with
            | Some f => Some f
            | None => last_float iI iV s [x]
            end).
    rewrite IH.
    change (last_float iI iV s (x :: pre))
      with (match last_float iI iV s pre with
            | Some f => Some f
            | None => last_float iI iV s [x]
            end).
    destruct (last_float iI iV s [row]); [reflexivity|].
    reflexivity.
Qed.

Lemma discipline_step_holds_last (one_nan : bool) (iI iV : nat)
    (pre : list (list value)) (d : list (value * float)) (row : list value)
    (t : string) :
  cell iI row = VStr t ->
  holds_last iI iV pre d ->
  holds_last iI iV (pre ++ [row]) (discipline_step one_nan iI (Some iV) d row).
Proof.
  intros Ht (Hstr & Hdist & Hlast). unfold discipline_step. rewrite Ht.
  change (setitem one_nan d (VStr t)) with (dict_set d (VStr t)).
  assert (Hrow : forall s, last_float iI iV s [row]
                           = if String.eqb t s
                             then match py_float (cell iV row) with
                                  | Ok f => Some f
                                  | Raise _ => None
                                  end
                             else None).
  { intros s. cbn [last_float]. now rewrite Ht. }
  cbn [py_eq]. destruct (String.eqb_spec t "registered_count") as [->|Hrc]; cbn [negb].
  - split; [exact Hstr|]. split; [exact Hdist|]. intros s f.
    rewrite last_float_snoc, Hrow, Hlast.
    destruct (String.eqb_spec "registered_count" s) as [<-|Hs]; [|reflexivity].
    split; intros [Hne _]; contradiction.
  - destruct (py_float (cell iV row)) as [f0|e] eqn:Hf.
    + split; [now apply dict_set_string_keys|]. split; [now apply dict_set_distinct|].
      intros s f. rewrite (dict_set_In_str d t s f0 f Hstr Hdist).
      rewrite last_float_snoc, Hrow, Hlast.
      destruct (String.eqb_spec t s) as [<-|Hs].
      * split.
        -- intros [[_ ->] | [Hne _]]; [now split | contradiction].
        -- intros [_ [= <-]]. now left.
      * split.
        -- intros [[-> _] | [_ H]]; [contradiction | exact H].
        -- intros H. right. split; [now intros -> | exact H].
    + split; [exact Hstr|]. split; [exact Hdist|]. intros s f.
      rewrite last_float_snoc, Hrow, Hlast.
      now destruct (String.eqb t s).
Qed.

Lemma fold_holds_last (one_nan : bool) (iI iV : nat) (rs pre : list (list value))
    (d : list (value * float)) :
  (forall row, In row rs -> exists t : string, cell iI row = VStr t) ->
  holds_last iI iV pre d ->
  holds_last iI iV (pre ++ rs)
    (fold_left (discipline_step one_nan iI (Some iV)) rs d).
Proof.
  revert pre d. induction rs as [|row rs IH]; intros pre d Hstr Hd.
  - now rewrite app_nil_r.
  - cbn [fold_left]. replace (pre ++ row :: rs)%list with ((pre ++ [row]) ++ rs)%list
      by now rewrite <- app_assoc.
    destruct (Hstr row (or_introl eq_refl)) as [t Ht].
    apply IH; [intros r Hr; apply Hstr; now right|].
    now apply discipline_step_holds_last with (t := t).
Qed.

End LastRowWins.

(** X2.  For a registry table whose indicators are strings, [disciplines]
    holds, for every discipline, the float of the last row with that indicator
    whose value converts to a float: a discipline listed twice shows its later
    number, a row without a number is passed over, and [registered_count] is
    never among the disciplines.  The loop runs over the rows as [iterrows]
    yields them, which for such a table are the rows as stored. *)
Theorem disciplines_last_row_wins {L : Library}
    (df : DataFrame) (iI iV : nat) (d : list (value * float)) :
  col_index "indicator" (columns df) = Some iI ->
  col_index "value" (columns df) = Some iV ->
  (forall row, In row (rows df) -> exists t : string, cell iI row = VStr t) ->
  DataLoader.disciplines_loop df (iterrows df) [] = Ok d ->
  forall (s : string) (f : float),
    In (VStr s, f) d
    <-> s <> "registered_count" /\ last_float iI iV s (rows df) = Some f.
Proof.
  intros HI HV Hstr Hloop.
  rewrite (proj1 (iterrows_strings df iI HI Hstr)) in Hloop.
  rewrite (disciplines_loop_fold df iI _ _ HI), HV in Hloop. injection Hloop as <-.
  apply (fold_holds_last _ iI iV (rows df) [] [] Hstr).
  split; [constructor|]. split; [exact I|].
  intros s f. split; [intros [] | intros [_ [=]]].
Qed.

(** Music is listed with 40 and later with 45, Dance has no number. *)
Lemma disciplines_last_row_wins_witness :
  DataLoader.disciplines_loop (L := Fixture.library) Cases.registry_frame
    (iterrows Cases.registry_frame) [] = Ok [(VStr "Music", 45%float)]
  /\ (In (VStr "Music", 45%float) [(VStr "Music", 45%float)]
      <-> "Music" <> "registered_count"
          /\ last_float (L := Fixture.library) 0 1 "Music" (rows Cases.registry_frame)
             = Some 45%float).
Proof.
  split; [vm_compute; reflexivity|].
  apply (disciplines_last_row_wins (L := Fixture.library) Cases.registry_frame 0 1).
  - reflexivity.
  - reflexivity.
  - intros row [<- | [<- | [<- | [<- | []]]]]; eexists; reflexivity.
  - vm_compute. reflexivity.
Defined.

(** ** Fallback to the snapshot *)

Section Specified.
Context {L : Library}.

Lemma whole_number_py_int (v : value) (n : Z) :
  whole_number v = Some n -> py_int v = Ok n.
Proof.
  destruct v as [z|f|t|b]; cbn [whole_number py_int]; try discriminate.
  - now intros [= ->].
  - unfold exact_int, float_trunc.
    destruct (Prim2SF f) as [s|s| |s m e]; try discriminate.
    + now intros [= <-].
    + destruct (0 <=? e); [now intros [= <-]|].
      destruct (_ =? 0); [now intros [= <-] | discriminate].
  - intros H. now rewrite H.
Qed.

Lemma percentage_py_float (v : value) (f : float) :
  percentage v = Some f -> py_float v = Ok f.
Proof.
  destruct v as [z|g|t|b]; cbn [percentage py_float]; try discriminate.
  - now intros [= ->].
  - destruct (PrimFloat.is_nan g); [discriminate | now intros [= ->]].
  - intros H. now rewrite H.
Qed.

Lemma Forall2_filter_both {A B} (R : A -> B -> Prop) (p : A -> bool) (q : B -> bool)
    (l : list A) (k : list B) :
  (forall a b, R a b -> p a = q b) ->
  Forall2 R l k -> Forall2 R (List.filter p l) (List.filter q k).
Proof.
  intros Hpq. induction 1 as [|a b l k Hab _ IH]; cbn [List.filter]; [constructor|].
  rewrite (Hpq a b Hab). destruct (q b); [now constructor | exact IH].
Qed.

(** The row of a registry table behind an entry. *)
Definition entry_of (iI iV : nat) (row : list value) (e : string * value) : Prop :=
  cell iI row = VStr e.1 /\ e.2 = cell iV row.

Lemma registry_entries_rows (df : DataFrame) (entries : list (string * value)) :
  registry_entries df = Some entries ->
  exists iI iV : nat,
    col_index "indicator" (columns df) = Some iI
    /\ col_index "value" (columns df) = Some iV
    /\ Forall2 (entry_of iI iV) (rows df) entries.
Proof.
  unfold registry_entries.
  destruct (col_index "indicator" (columns df)) as [iI|]; [|discriminate].
  destruct (col_index "value" (columns df)) as [iV|]; [|discriminate].
  cbn [mbind option_bind]. intros H. exists iI, iV. split; [reflexivity|].
  split; [reflexivity|]. apply mapM_Some_1 in H.
  eapply Forall2_impl; [exact H|]. intros row e. cbn beta.
  destruct (cell iI row) as [z|f|t|b] eqn:Hcell; try discriminate.
  intros [= <-]. split; [exact Hcell | reflexivity].
Qed.

(** A new string key goes last. *)
Lemma dict_set_new (d : list (string * float)) (t : string) (f : float) :
  ~ In t d.*1 ->
  dict_set (List.map (fun e => (VStr e.1, e.2)) d) (VStr t) f
  = List.map (fun e => (VStr e.1, e.2)) (d ++ [(t, f)])%list.
Proof.
  induction d as [|[u g] d IH]; cbn [List.map dict_set app fst snd fmap list_fmap];
    [reflexivity|].
  intros Hnew. rewrite key_eqb_str.
  destruct (String.eqb_spec u t) as [->|Hne]; [contradiction Hnew; now left|].
  f_equal. apply IH. intros Hin. apply Hnew. now right.
Qed.

(** Over the rows of a table in the format of the specification the loop
    collects the disciplines in their order. *)
Lemma fold_disciplines (one_nan : bool) (iI iV : nat) (rs : list (list value))
    (entries : list (string * value)) (d ds : list (string * float)) :
  Forall2 (entry_of iI iV) rs entries ->
  Forall2 (fun e x => (f ← percentage e.2; Some (e.1, f)) = Some x)
          (List.filter (fun e => negb (String.eqb e.1 "registered_count")) entries) ds ->
  NoDup (d ++ ds)%list.*1 ->
  fold_left (discipline_step one_nan iI (Some iV)) rs
            (List.map (fun e => (VStr e.1, e.2)) d)
  = List.map (fun e => (VStr e.1, e.2)) (d ++ ds)%list.
Proof.
  intros Hrows. revert d ds.
  induction Hrows as [|row e rs entries [Hind Hval] _ IH]; intros d ds Hds Hnodup.
  - cbn [List.filter] in Hds. inversion Hds; subst. now rewrite app_nil_r.
  - cbn [fold_left List.filter] in *. unfold discipline_step at 2.
    rewrite Hind. cbn [py_eq].
    destruct (String.eqb e.1 "registered_count"); cbn [negb] in *; [now apply IH|].
    inversion Hds as [|e' x es' ds' Hx Hds']; subst.
    destruct (percentage e.2) as [f|] eqn:Hf; [|discriminate].
    cbn [mbind option_bind] in Hx. injection Hx as <-.
    rewrite <- Hval, (percentage_py_float _ _ Hf).
    change (setitem one_nan ?d0 (VStr e.1) f) with (dict_set d0 (VStr e.1) f).
    assert (Hnew : ~ In e.1 d.*1).
    { rewrite fmap_app in Hnodup. apply NoDup_app in Hnodup as (_ & Hdisj & _).
      intros Hin. apply list_elem_of_In in Hin. apply (Hdisj _ Hin). now left. }
    rewrite (dict_set_new d e.1 f Hnew).
    replace (d ++ (e.1, f) :: ds')%list with ((d ++ [(e.1, f)]) ++ ds')%list
      by now rewrite <- app_assoc.
    apply IH; [exact Hds'|]. now rewrite <- app_assoc.
Qed.

Lemma Forall2_left {A B} (R : A -> B -> Prop) (l : list A) (k : list B) (a : A) :
  Forall2 R l k -> In a l -> exists b : B, R a b.
Proof.
  induction 1 as [|x y l k Hxy _ IH]; [intros []|].
  intros [<- | Hin]; [now exists y | now apply IH].
Qed.

(** The loader builds the record of a registry table that is in the format
    of the specification. *)
Lemma registry_as_specified_built (df : DataFrame) (a : ArtistStatus) :
  registry_as_specified df = Some a -> artist_record df = Ok a.
Proof.
  unfold registry_as_specified.
  destruct (registry_entries df) as [entries|] eqn:Hentries; [|discriminate].
  cbn [mbind option_bind].
  destruct (registry_entries_rows df entries Hentries) as (iI & iV & HI & HV & Hrows).
  assert (Hcount : Forall2 (entry_of iI iV)
                     (List.filter (fun r => py_eq (cell iI r) (VStr "registered_count"))
                        (rows df))
                     (List.filter (fun e => String.eqb e.1 "registered_count") entries)).
  { apply Forall2_filter_both; [|exact Hrows].
    intros row e [Hind _]. now rewrite Hind. }
  destruct (List.filter (fun e => String.eqb e.1 "registered_count") entries)
    as [|[s0 v] [|e2 es]]; try discriminate.
  apply Forall2_cons_inv_r in Hcount as (first & rest & [_ Hv] & Hrest & Hfilter).
  apply Forall2_nil_inv_r in Hrest as ->. cbn [snd] in Hv.
  destruct (whole_number v) as [n|] eqn:Hn; [|discriminate]. cbn [mbind option_bind].
  destruct (mapM _ _) as [ds|] eqn:Hds; [|discriminate]. cbn [mbind option_bind].
  destruct (bool_decide (NoDup ds.*1)) eqn:Hnodup; [|discriminate].
  apply bool_decide_eq_true in Hnodup. intros [= <-].
  assert (Hstr : forall row, In row (rows df) -> exists t : string, cell iI row = VStr t).
  { intros row Hin. destruct (Forall2_left _ _ _ _ Hrows Hin) as [e [He _]]. eauto. }
  unfold artist_record, filter_eq, column_pos, row_get, column_pos. rewrite HI.
  cbn [columns rows]. rewrite Hfilter, HV.
  assert (Hfull : df_empty (mkDF (columns df) [first]) = false).
  { unfold df_empty. cbn [columns rows].
    destruct (columns df); [discriminate | reflexivity]. }
  rewrite Hfull. cbn [negb hd_error].
  rewrite <- Hv, (whole_number_py_int v n Hn).
  rewrite (proj1 (iterrows_strings df iI HI Hstr)).
  rewrite (disciplines_loop_fold df iI _ _ HI), HV.
  apply mapM_Some_1 in Hds.
  now rewrite (fold_disciplines _ iI iV (rows df) entries [] ds Hrows Hds Hnodup).
Qed.

Lemma budget_as_specified_served (df t : DataFrame) (y : Z) :
  budget_as_specified df y = Some t -> filter_eq df "Year" (VInt y) = Ok t.
Proof.
  unfold budget_as_specified, filter_eq, column_pos, in_year.
  destruct (col_index "Year" (columns df)); [now intros [= <-] | discriminate].
Qed.

(** The loaders serve the content of a snapshot that is in its format. *)
Lemma snapshot_content_read (D : Dataset) (c : string) (v : Resolved) :
  snapshot_content D c = Some v -> snapshot_read D c = Some v.
Proof.
  destruct D; cbn [snapshot_content snapshot_read]; try (intros H; exact H).
  - destruct (read_csv_text c) as [df|]; [|discriminate]. cbn [mbind option_bind].
    destruct (budget_as_specified df year) as [t|] eqn:Ht; [|discriminate].
    intros [= <-]. now rewrite (budget_as_specified_served df t year Ht).
  - destruct (read_csv_text c) as [df|]; [|discriminate]. cbn [mbind option_bind].
    destruct (registry_as_specified df) as [a|] eqn:Ha; [|discriminate].
    cbn [mbind option_bind]. intros [= <-].
    now rewrite (registry_as_specified_built df a Ha).
Qed.

End Specified.

(** C2.  For every dataset, when the live probe fails (the request raises or
    the status is not 200; a dataset whose probe is disabled counts as
    failed) and the snapshot file exists and holds a snapshot in the format
    of the specification, the accessor returns exactly the content of the
    snapshot: the parsed record of the economic indicators, the table of the
    sites, the budget lines of the year, the registry record with the
    registered count and the percentage of each discipline.  The premise on
    the probe is not used: the loaders turn to the snapshot whatever the
    probe yields. *)
Theorem probe_failure_serves_snapshot {L : Library}
    (D : Dataset) (w : World) (p c : string) (v : Resolved) :
  probe_fails D w ->
  snapshot_path D = Some p ->
  files w !! p = Some c ->
  snapshot_content D c = Some v ->
  fst (resolve D w) = Ok v.
Proof.
  intros _ Hp Hc Hv.
  rewrite (resolve_value D p w Hp), Hc. cbn [mbind option_bind].
  now rewrite (snapshot_content_read D c v Hv).
Qed.

(** With every endpoint unreachable and the economics snapshot holding
    [avg_monthly_wage = 28500], the served record holds 28500; and the
    registry snapshot of 1250 artists in three disciplines is served as that
    record. *)
Lemma probe_failure_serves_snapshot_witness :
  fst (resolve (L := Fixture.library) economic_indicators
         (Fixture.world Fixture.snapshots Fixture.offline))
  = Ok (RJson Fixture.economics_json)
  /\ getitem Fixture.economics_json "avg_monthly_wage" = Ok (JInt 28500)
  /\ fst (resolve (L := Fixture.library) artist_status
            (Fixture.world Fixture.snapshots Fixture.offline))
     = Ok (RArtist (Some (mkArtistStatus 1250
                            [ (VStr "Music", 40%float);
                              (VStr "Visual Arts", 35%float);
                              (VStr "Theatre", 25%float) ]))).
Proof.
  split; [|split; [reflexivity|]].
  - apply (probe_failure_serves_snapshot (L := Fixture.library) economic_indicators
             (Fixture.world Fixture.snapshots Fixture.offline)
             "data/fallback_economics.json" Fixture.economics_text).
    + exact I.
    + reflexivity.
    + vm_compute. reflexivity.
    + reflexivity.
  - apply (probe_failure_serves_snapshot (L := Fixture.library) artist_status
             (Fixture.world Fixture.snapshots Fixture.offline)
             "data/fallback_artists.csv" Fixture.artists_text).
    + exact I.
    + reflexivity.
    + vm_compute. reflexivity.
    + vm_compute. reflexivity.
Defined.

(** ** When the registry is unavailable *)

Lemma artist_record_raises_iff {L : Library} (df : DataFrame) :
  (exists e : exn, artist_record df = Raise e) <-> count_unreadable df.
Proof.
  unfold artist_record, count_unreadable.
  destruct (filter_eq df "indicator" (VStr "registered_count")) as [reg|e0] eqn:Hreg.
  - pose proof (filter_eq_empty _ _ _ _ Hreg) as Hempty.
    unfold filter_eq, column_pos in Hreg.
    destruct (col_index "indicator" (columns df)) as [iI|] eqn:HI; [|discriminate].
    injection Hreg as <-. cbn [rows] in *.
    rewrite (disciplines_loop_fold df iI _ _ HI). rewrite Hempty.
    destruct (List.filter _ (rows df)) as [|first rest]; cbn [negb hd_error].
    + split; [intros [e [=]] | intros []].
    + unfold row_get, column_pos. cbn [columns].
      destruct (col_index "value" (columns df)) as [iV|].
      * destruct (py_int (cell iV first)) as [n|e]; split.
        -- intros [e [=]].
        -- intros [e [=]].
        -- intros _. now exists e.
        -- intros _. now exists e.
      * split; [intros _; exact I | intros _; eexists; reflexivity].
  - unfold filter_eq, column_pos in Hreg.
    destruct (col_index "indicator" (columns df)); [discriminate|].
    split; [intros _; exact I | intros _; now exists e0].
Qed.

(** X3.  [load_artist_status] returns [None] exactly when the registry file
    is absent or does not parse, when the table has no [indicator] column, or
    when its first [registered_count] row has no value that converts to an
    integer.  Rows of disciplines never make the record unavailable. *)
Theorem artist_status_unavailable_iff {L : Library} (w : World) :
  fst (DataLoader.load_artist_status w) = Ok None
  <-> match files w !! "data/fallback_artists.csv" ≫= read_csv_text with
      | None => True
      | Some df => count_unreadable df
      end.
Proof.
  rewrite load_artist_status_value.
  destruct (files w !! "data/fallback_artists.csv" ≫= read_csv_text) as [df|];
    cbn [mbind option_bind]; [|tauto].
  rewrite <- artist_record_raises_iff.
  destruct (artist_record df) as [a|e]; split.
  - intros [=].
  - intros [e [=]].
  - intros _. now exists e.
  - reflexivity.
Qed.

(** ** Every answer of the nameday service *)

(** X4.  Whatever the service answers, [load_nameday] returns [None],
    "Unknown", or the [name] member of the first entry of the list it
    received.  It returns "Unknown" for every body that parses to a false
    value (the empty list, but also [null], [false], [0], the empty string or
    object), and [None] for every other body that is not a list and for a
    list whose first entry has no [name]. *)
Theorem load_nameday_results {L : Library} (w : World) :
  (fst (DataLoader.load_nameday w) = Ok JNull
   \/ fst (DataLoader.load_nameday w) = Ok (JStr "Unknown")
   \/ exists (r : Response) (first name : json) (rest : list json),
        net w "https://svatky.adresa.info/json" 3 = Ok r
        /\ json_loads (text r) = Some (JList (first :: rest))
        /\ getitem first "name" = Ok name
        /\ fst (DataLoader.load_nameday w) = Ok name)
  /\ (forall (r : Response) (data : json),
        net w "https://svatky.adresa.info/json" 3 = Ok r ->
        (400 <=? status_code r) && (status_code r <? 600) = false ->
        json_loads (text r) = Some data ->
        (truthy data = false ->
         fst (DataLoader.load_nameday w) = Ok (JStr "Unknown"))
        /\ (truthy data = true -> (forall l : list json, data <> JList l) ->
            fst (DataLoader.load_nameday w) = Ok JNull)
        /\ (forall (first : json) (rest : list json) (e : exn),
              data = JList (first :: rest) -> getitem first "name" = Raise e ->
              fst (DataLoader.load_nameday w) = Ok JNull)).
Proof.
  split.
  - rewrite load_nameday_value.
    destruct (net w "https://svatky.adresa.info/json" 3) as [r|e] eqn:Hnet; [|now left].
    destruct ((400 <=? status_code r) && (status_code r <? 600)); [now left|].
    destruct (json_loads (text r)) as [data|] eqn:Hjs; [|now left].
    unfold nameday_of.
    destruct data as [|b|z|f|s|l|kv]; cbn [truthy py_len index0 getitem assoc].
    + right; now left.
    + destruct b; [now left | right; now left].
    + destruct (negb (z =? 0)); [now left | right; now left].
    + destruct (negb (PrimFloat.eqb f 0)); [now left | right; now left].
    + destruct s as [|ch s]; [right; now left|]. cbn. now left.
    + destruct l as [|first rest]; [right; now left|].
      change (0 <? Z.of_nat (length (first :: rest))) with true. cbn iota.
      destruct (getitem first "name") as [name|e] eqn:Hname; [|now left].
      right; right. exists r, first, name, rest. repeat split; assumption.
    + destruct kv as [|p kv]; [right; now left|].
      change (0 <? Z.of_nat (length (p :: kv))) with true. now left.
  - intros r data Hnet Hst Hjs. rewrite load_nameday_value, Hnet, Hst, Hjs.
    unfold nameday_of. split; [|split].
    + now intros ->.
    + intros Htrue Hlist. rewrite Htrue.
      destruct data as [|b|z|f|s|l|kv]; cbn [py_len index0 getitem]; try reflexivity.
      * destruct s as [|ch s]; [discriminate Htrue|].
        change (0 <? Z.of_nat (String.length (String ch s))) with true. reflexivity.
      * now destruct (Hlist l).
      * destruct kv as [|p kv]; [discriminate Htrue|].
        change (0 <? Z.of_nat (length (p :: kv))) with true. reflexivity.
    + intros first rest e -> Hname. cbn [truthy py_len].
      change (0 <? Z.of_nat (length (first :: rest))) with true.
      cbn [index0]. now rewrite Hname.
Qed.

(** ** What the accessors touch *)

Section Effects.

Lemma effects_ret {A} (a : A) : effects [] (ret a).
Proof. intros w. simpl. now rewrite app_nil_r. Qed.

Lemma effects_raise {A} (e : exn) : effects [] (raise (A := A) e).
Proof. intros w. simpl. now rewrite app_nil_r. Qed.

Lemma effects_print (line : string) : effects [] (print line).
Proof. intros w. simpl. now rewrite app_nil_r. Qed.

Lemma effects_lift {A} (e : exn) (o : option A) : effects [] (lift e o).
Proof. destruct o; [apply effects_ret | apply effects_raise]. Qed.

Lemma effects_of_res {A} (r : res A) : effects [] (of_res r).
Proof. destruct r; [apply effects_ret | apply effects_raise]. Qed.

Lemma effects_read_file (path : string) : effects [] (read_file path).
Proof. intros w. unfold read_file. apply effects_lift. Qed.

Lemma effects_requests_get (url : string) (t : Z) : effects [(url, t)] (requests_get url t).
Proof. intros w. unfold requests_get. now destruct (net w url t). Qed.

Lemma effects_bind {A B} (sent : list (string * Z)) (m : M A) (k : A -> M B) :
  effects sent m -> (forall a, effects [] (k a)) -> effects sent (bind m k).
Proof.
  intros Hm Hk w. unfold bind. specialize (Hm w).
  destruct (m w) as [[a|e] w1]; simpl in *; [|exact Hm].
  destruct Hm as (Hf & Hn & Hl & Hw & Hr).
  destruct (Hk a w1) as (Hf' & Hn' & Hl' & Hw' & Hr').
  rewrite Hf', Hn', Hl', Hw', Hr', app_nil_r. auto.
Qed.

Lemma effects_try {A} (sent : list (string * Z)) (body : M A) (handler : exn -> M A) :
  effects sent body -> (forall e, effects [] (handler e)) ->
  effects sent (try_except body handler).
Proof.
  intros Hm Hk w. unfold try_except. specialize (Hm w).
  destruct (body w) as [[a|e] w1]; simpl in *; [exact Hm|].
  destruct Hm as (Hf & Hn & Hl & Hw & Hr).
  destruct (Hk e w1) as (Hf' & Hn' & Hl' & Hw' & Hr').
  rewrite Hf', Hn', Hl', Hw', Hr', app_nil_r. auto.
Qed.

End Effects.

Create HintDb effects.
#[local] Hint Resolve effects_ret effects_raise effects_print effects_lift
  effects_of_res effects_read_file effects_requests_get : effects.

Ltac effects_step :=
  match goal with
  | |- forall _, _ => intro
  | |- effects _ (try_except _ _) => apply effects_try
  | |- effects _ (bind _ _) => apply effects_bind
  | |- effects _ (requests_get _ _) => exact (effects_requests_get _ _)
  | |- effects _ (if ?b then _ else _) => destruct b
  | |- effects _ (match ?x with _ => _ end) => destruct x
  | |- effects _ _ => solve [auto with effects]
  end.

Section AccessorEffects.
Context {L : Library}.

Lemma effects_raise_for_status (r : Response) : effects [] (raise_for_status r).
Proof. unfold raise_for_status. destruct (_ && _); auto with effects. Qed.

Lemma effects_load_economic_indicators :
  effects (requests_of economic_indicators) DataLoader.load_economic_indicators.
Proof.
  unfold DataLoader.load_economic_indicators, DataLoader.json_load. repeat effects_step.
Qed.

Lemma effects_load_unesco_sites : effects [] DataLoader.load_unesco_sites.
Proof.
  unfold DataLoader.load_unesco_sites, DataLoader.read_csv. repeat effects_step.
Qed.

Lemma effects_load_budget (year : Z) : effects [] (DataLoader.load_budget year).
Proof.
  unfold DataLoader.load_budget, DataLoader.read_csv. repeat effects_step.
Qed.

Lemma effects_load_nameday : effects (requests_of nameday) DataLoader.load_nameday.
Proof.
  unfold DataLoader.load_nameday.
  apply effects_try; [|repeat effects_step].
  apply effects_bind; [exact (effects_requests_get _ _)|]. intros r.
  apply effects_bind; [apply effects_raise_for_status|]. repeat effects_step.
Qed.

Lemma effects_load_artist_status : effects [] DataLoader.load_artist_status.
Proof.
  unfold DataLoader.load_artist_status, DataLoader.read_csv. repeat effects_step.
Qed.

End AccessorEffects.

(** X5.  An accessor changes nothing but the standard output and the list of
    sent requests: it leaves every file, the log and the network as they are
    and writes no file, whether its snapshot is there or not.  Only the
    economic indicators and the nameday send a request, exactly one each,
    with a timeout of three seconds, on every path. *)
Theorem accessors_only_read {L : Library} (D : Dataset) (w : World) :
  files (snd (resolve D w)) = files w
  /\ net (snd (resolve D w)) = net w
  /\ log (snd (resolve D w)) = log w
  /\ written (snd (resolve D w)) = written w
  /\ requests (snd (resolve D w)) = (requests w ++ requests_of D)%list.
Proof.
  revert w. change (effects (requests_of D) (resolve D)).
  destruct D; unfold resolve; (apply effects_bind; [|intro; apply effects_ret]).
  - apply effects_load_economic_indicators.
  - apply effects_load_unesco_sites.
  - apply effects_load_budget.
  - apply effects_load_nameday.
  - apply effects_load_artist_status.
Qed.

(** X6.  What an accessor with a snapshot returns is decided by the files
    alone: two worlds with the same files give the same value, whatever the
    network answers in either.  The answer of the CZSO endpoint, also a 200,
    is never served. *)
Theorem snapshot_alone_decides {L : Library} (D : Dataset) (w1 w2 : World) :
  snapshot_path D <> None ->
  files w1 = files w2 ->
  fst (resolve D w1) = fst (resolve D w2).
Proof.
  intros Hpath Hfiles.
  destruct (snapshot_path D) as [p|] eqn:Hp; [|contradiction].
  now rewrite (resolve_value D p w1 Hp), (resolve_value D p w2 Hp), Hfiles.
Qed.

(** The economic indicators with the endpoint unreachable and with the
    endpoint answering 200: the snapshot is served both times. *)
Lemma snapshot_alone_decides_witness :
  fst (resolve (L := Fixture.library) economic_indicators
         (Fixture.world Fixture.snapshots (Fixture.online "{}")))
  = Ok (RJson Fixture.economics_json).
Proof.
  rewrite (snapshot_alone_decides (L := Fixture.library) economic_indicators
             (Fixture.world Fixture.snapshots (Fixture.online "{}"))
             (Fixture.world Fixture.snapshots Fixture.offline)).
  - vm_compute. reflexivity.
  - discriminate.
  - reflexivity.
Defined.

(** ** The integrity tests *)

Section Tests.
Context {L : Library}.
Import TestDataIntegrity.

Lemma fst_bind {A B} (m : M A) (k : A -> M B) (w : World) :
  fst (bind m k w)
  = match fst (m w) with
    | Ok a => fst (k a (snd (m w)))
    | Raise e => Raise e
    end.
Proof. unfold bind. now destruct (m w) as [[a|e] w']. Qed.

Lemma run_test_bind {A} (m : M A) (k : A -> M verdict) (w : World) :
  run_test (bind m k) w
  = match fst (m w) with
    | Ok a => run_test (k a) (snd (m w))
    | Raise e => Error e
    end.
Proof. unfold run_test, bind. now destruct (m w) as [[a|e] w']. Qed.

Lemma run_test_check (v : verdict) (k : M verdict) (w : World) :
  run_test (check v k) w = match v with Pass => run_test k w | _ => v end.
Proof. unfold run_test, check. now destruct v. Qed.

Lemma run_test_print_pass (line : string) (w : World) :
  run_test (print line ;; ret Pass) w = Pass.
Proof. reflexivity. Qed.

Lemma existsb_col_index (col : string) (cols : list string) :
  existsb (String.eqb col) cols = true <-> col_index col cols <> None.
Proof.
  induction cols as [|c cols IH]; cbn [existsb col_index].
  - split; [discriminate | intros H; now contradiction H].
  - rewrite (String.eqb_sym col c). destruct (String.eqb c col); cbn [orb].
    + split; [discriminate | reflexivity].
    + rewrite IH. now destruct (col_index col cols).
Qed.

Lemma existsb_assoc {V} (key : string) (kv : list (string * V)) :
  existsb (fun p => String.eqb (fst p) key) kv = true <-> assoc key kv <> None.
Proof.
  induction kv as [|[k v] kv IH]; cbn [existsb assoc fst].
  - split; [discriminate | intros H; now contradiction H].
  - destruct (String.eqb k key); cbn [orb]; [|exact IH].
    split; [discriminate | reflexivity].
Qed.

Lemma py_eq_str (v : value) (s : string) : py_eq v (VStr s) = true -> v = VStr s.
Proof.
  destruct v; cbn [py_eq]; try discriminate.
  intros H. apply String.eqb_eq in H. now subst.
Qed.

(** The verdict of [test_unesco_sites], from the table the loader serves. *)
Lemma test_unesco_sites_value (w : World) :
  run_test test_unesco_sites w
  = let df := default empty_frame (files w !! "data/fallback_unesco.csv" ≫= read_csv_text) in
    match assertFalse (df_empty df) "UNESCO dataframe should not be empty" with
    | Pass =>
        match assert_columns ["name"; "lat"; "lon"; "visitors_2024"] df with
        | Pass => assertTrue (15 <=? Z.of_nat (length (rows df)))
                             "Expected at least 15 UNESCO sites"
        | v => v
        end
    | v => v
    end.
Proof.
  unfold test_unesco_sites. rewrite run_test_bind. cbn [print fst snd].
  rewrite run_test_bind, load_unesco_sites_value. cbn [files].
  set (df := default empty_frame _). cbn zeta. rewrite run_test_check.
  destruct (assertFalse _ _); try reflexivity. rewrite run_test_check.
  destruct (assert_columns _ _); try reflexivity. rewrite run_test_check.
  destruct (assertTrue _ _); reflexivity.
Qed.

Lemma assert_columns_pass (cols : list string) (df : DataFrame) :
  assert_columns cols df = Pass
  <-> Forall (fun col => col_index col (columns df) <> None) cols.
Proof.
  induction cols as [|col cols IH]; cbn [assert_columns].
  - split; [constructor | reflexivity].
  - unfold assertTrue.
    destruct (existsb (String.eqb col) (columns df)) eqn:Hcol.
    + rewrite IH. apply existsb_col_index in Hcol.
      split; [now constructor | intros H; now apply Forall_cons in H as [_ H]].
    + split; [discriminate|]. intros H. apply Forall_cons in H as [H _].
      apply existsb_col_index in H. congruence.
Qed.

(** The verdict of [test_artist_registry], from the record the loader
    serves. *)
Lemma test_artist_registry_value (w : World) :
  run_test test_artist_registry w
  = match fst (DataLoader.load_artist_status w) with
    | Ok (Some a) =>
        match assertTrue (0 <? registered_count a) "Registered count should be positive" with
        | Pass => assertTrue (0 <? Z.of_nat (length (disciplines a)))
                             "Should have discipline breakdown"
        | v => v
        end
    | Ok None => Fail "Artist data should not be None"
    | Raise e => Error e
    end.
Proof.
  unfold test_artist_registry. rewrite run_test_bind. cbn [print fst snd].
  rewrite run_test_bind, !load_artist_status_value. cbn [files].
  destruct (_ ≫= _) as [a|]; [|reflexivity].
  cbn zeta. rewrite run_test_check.
  destruct (assertTrue _ _); try reflexivity. rewrite run_test_check.
  destruct (assertTrue _ _); reflexivity.
Qed.

(** The verdict of [test_economic_indicators], from the value the loader
    serves. *)
Lemma test_economic_indicators_value (w : World) :
  run_test test_economic_indicators w
  = let data := default JNull (files w !! "data/fallback_economics.json" ≫= json_loads) in
    match assertTrue (negb (match data with JNull => true | _ => false end))
                     "Economic data should not be None" with
    | Pass =>
        match assert_keys ["culture_share_gdp"; "total_financial_resources";
                           "avg_monthly_wage"] data with
        | Pass =>
            match assert_item_greater data "culture_share_gdp" 0
                    "GDP share should be positive" with
            | Pass => assert_item_greater data "avg_monthly_wage" 20000
                        "Wage seems abnormally low"
            | v => v
            end
        | v => v
        end
    | v => v
    end.
Proof.
  unfold test_economic_indicators. rewrite run_test_bind. cbn [print fst snd].
  rewrite run_test_bind, load_economic_indicators_value. cbn [files].
  set (data := default JNull _). cbn zeta. rewrite run_test_check.
  destruct (assertTrue _ _); try reflexivity. rewrite run_test_check.
  destruct (assert_keys _ _); try reflexivity. rewrite run_test_check.
  destruct (assert_item_greater _ _ _ _); try reflexivity. rewrite run_test_check.
  destruct (assert_item_greater _ _ _ _); reflexivity.
Qed.

(** Where the count of a served record comes from. *)
Lemma artist_count_source (w : World) (a : ArtistStatus) :
  fst (DataLoader.load_artist_status w) = Ok (Some a) ->
  0 < registered_count a ->
  count_from_snapshot w a.
Proof.
  intros Ha Hpos. rewrite load_artist_status_value in Ha.
  destruct (files w !! "data/fallback_artists.csv") as [c|] eqn:Hc; [|discriminate].
  simpl in Ha. destruct (read_csv_text c) as [df|] eqn:Hdf; [|discriminate].
  simpl in Ha. unfold artist_record in Ha.
  destruct (filter_eq df "indicator" (VStr "registered_count")) as [reg|e] eqn:Hreg;
    [|discriminate].
  rewrite (filter_eq_empty _ _ _ _ Hreg) in Ha.
  unfold filter_eq, column_pos in Hreg.
  destruct (col_index "indicator" (columns df)) as [iI|] eqn:HI; [|discriminate].
  injection Hreg as <-. cbn [rows] in Ha.
  destruct (List.filter _ (rows df)) as [|first rest] eqn:Hfilter; cbn [negb hd_error] in Ha.
  - destruct (DataLoader.disciplines_loop df (iterrows df) []); [|discriminate].
    injection Ha as <-. cbn in Hpos. lia.
  - assert (Hin : In first (List.filter
                              (fun r => py_eq (cell iI r) (VStr "registered_count"))
                              (rows df))) by (rewrite Hfilter; now left).
    apply filter_In in Hin as [Hin Hrc]. apply py_eq_str in Hrc.
    unfold row_get, column_pos in Ha. cbn [columns] in Ha.
    destruct (col_index "value" (columns df)) as [iV|] eqn:HV; [|discriminate].
    destruct (py_int (cell iV first)) as [n|e] eqn:Hn; [|discriminate].
    destruct (DataLoader.disciplines_loop df (iterrows df) []); [|discriminate].
    injection Ha as <-.
    exists c, df, first, (cell iV first). unfold row_get, column_pos.
    rewrite HI, HV, Hrc. repeat split; assumption.
Qed.

End Tests.

(** X7.  [test_unesco_sites] passes exactly when the UNESCO snapshot parses
    to a table with the columns [name], [lat], [lon] and [visitors_2024] and
    at least fifteen rows.  It asks nothing of [renovation_roi]. *)
Theorem test_unesco_sites_passes_iff {L : Library} (w : World) :
  TestDataIntegrity.run_test TestDataIntegrity.test_unesco_sites w
  = TestDataIntegrity.Pass
  <-> exists (c : string) (df : DataFrame),
        files w !! "data/fallback_unesco.csv" = Some c
        /\ read_csv_text c = Some df
        /\ Forall (fun col => col_index col (columns df) <> None)
                  ["name"; "lat"; "lon"; "visitors_2024"]
        /\ (15 <= length (rows df))%nat.
Proof.
  rewrite test_unesco_sites_value. cbn zeta.
  destruct (files w !! "data/fallback_unesco.csv") as [c|] eqn:Hc;
    [destruct (read_csv_text c) as [df|] eqn:Hdf|]; cbn [mbind option_bind default].
  - rewrite Hdf. cbn [default from_option]. unfold id. split.
    + intros Hpass.
      destruct (TestDataIntegrity.assertFalse (df_empty df) _); try discriminate.
      destruct (TestDataIntegrity.assert_columns _ df) eqn:Hcols; try discriminate.
      apply assert_columns_pass in Hcols.
      unfold TestDataIntegrity.assertTrue in Hpass.
      destruct (15 <=? Z.of_nat (length (rows df))) eqn:Hn; [|discriminate].
      apply Z.leb_le in Hn. exists c, df. repeat split; try assumption. lia.
    + intros (c' & df' & [= <-] & Hdf' & Hcols & Hn).
      rewrite Hdf in Hdf'. injection Hdf' as <-.
      assert (Hne : df_empty df = false).
      { unfold df_empty. pose proof Hcols as Hcols'.
        apply Forall_cons in Hcols' as [Hname _].
        destruct (columns df); [now contradiction Hname|].
        destruct (rows df); [simpl in Hn; lia | reflexivity]. }
      rewrite Hne. cbn [TestDataIntegrity.assertFalse].
      apply assert_columns_pass in Hcols. rewrite Hcols.
      unfold TestDataIntegrity.assertTrue.
      now rewrite (proj2 (Z.leb_le _ _)) by lia.
  - rewrite Hdf. cbn [default from_option]. unfold id.
    split; [discriminate|]. intros (c' & df' & [= <-] & Hdf' & _). congruence.
  - split; [discriminate|]. intros (c' & df' & [=] & _).
Qed.

(** X8.  [test_artist_registry] passes exactly when [load_artist_status]
    serves a record with a positive [registered_count] and at least one
    discipline; the count of such a record is read from a [registered_count]
    row of the snapshot.  A record that got its count by default does not
    pass. *)
Theorem test_artist_registry_passes_iff {L : Library} (w : World) :
  TestDataIntegrity.run_test TestDataIntegrity.test_artist_registry w
  = TestDataIntegrity.Pass
  <-> exists a : ArtistStatus,
        fst (DataLoader.load_artist_status w) = Ok (Some a)
        /\ 0 < registered_count a
        /\ disciplines a <> []
        /\ count_from_snapshot w a.
Proof.
  rewrite test_artist_registry_value.
  destruct (fst (DataLoader.load_artist_status w)) as [[a|]|e] eqn:Hload.
  - unfold TestDataIntegrity.assertTrue. split.
    + intros Hpass.
      destruct (0 <? registered_count a) eqn:Hc; [|discriminate].
      destruct (0 <? Z.of_nat (length (disciplines a))) eqn:Hd; [|discriminate].
      apply Z.ltb_lt in Hc. apply Z.ltb_lt in Hd.
      exists a. split; [reflexivity|]. split; [exact Hc|]. split.
      * intros Hnil. rewrite Hnil in Hd. simpl in Hd. lia.
      * now apply artist_count_source.
    + intros (a' & [= <-] & Hc & Hd & _).
      rewrite (proj2 (Z.ltb_lt _ _) Hc).
      destruct (disciplines a) as [|x d]; [contradiction|]. reflexivity.
  - split; [discriminate | intros (a' & [=] & _)].
  - split; [discriminate | intros (a' & [=] & _)].
Qed.

(** X9.  [test_economic_indicators] passes exactly when the economics
    snapshot parses to an object that has the three keys, with a
    [culture_share_gdp] that is a number above 0 and an [avg_monthly_wage]
    that is a number above 20000.  Of [total_financial_resources] it asks
    only that the key is there. *)
Theorem test_economic_indicators_passes_iff {L : Library} (w : World) :
  TestDataIntegrity.run_test TestDataIntegrity.test_economic_indicators w
  = TestDataIntegrity.Pass
  <-> exists (c : string) (kv : list (string * json)) (gdp wage : json),
        files w !! "data/fallback_economics.json" = Some c
        /\ json_loads c = Some (JDict kv)
        /\ assoc "culture_share_gdp" kv = Some gdp
        /\ assoc "total_financial_resources" kv <> None
        /\ assoc "avg_monthly_wage" kv = Some wage
        /\ TestDataIntegrity.py_gt gdp 0 = Ok true
        /\ TestDataIntegrity.py_gt wage 20000 = Ok true.
Proof.
  rewrite test_economic_indicators_value. cbn zeta.
  assert (Hgt : forall a n msg,
             TestDataIntegrity.assert_res (TestDataIntegrity.py_gt a n) msg
             = TestDataIntegrity.Pass
             <-> TestDataIntegrity.py_gt a n = Ok true).
  { intros a n msg. destruct (TestDataIntegrity.py_gt a n) as [[|]|e];
      cbn; split; congruence. }
  assert (Hkey : forall key kv msg,
             TestDataIntegrity.assert_res (TestDataIntegrity.py_in key (JDict kv)) msg
             = TestDataIntegrity.Pass
             <-> assoc key kv <> None).
  { intros key kv msg. cbn [TestDataIntegrity.py_in TestDataIntegrity.assert_res].
    rewrite <- existsb_assoc. unfold TestDataIntegrity.assertTrue.
    destruct (existsb _ kv); split; congruence. }
  destruct (files w !! "data/fallback_economics.json") as [c|] eqn:Hc;
    [destruct (json_loads c) as [data|] eqn:Hdata|]; cbn [mbind option_bind].
  - rewrite Hdata. cbn [default from_option]. unfold id. split.
    + intros Hpass.
      destruct data as [|b|z|f|s|l|kv]; try discriminate Hpass.
      * cbn [negb TestDataIntegrity.assertTrue] in Hpass.
        destruct (TestDataIntegrity.assert_keys _ _); discriminate Hpass.
      * cbn [negb TestDataIntegrity.assertTrue] in Hpass.
        destruct (TestDataIntegrity.assert_keys _ _); discriminate Hpass.
      * cbn [negb TestDataIntegrity.assertTrue TestDataIntegrity.assert_keys] in Hpass.
        destruct (TestDataIntegrity.assert_res
                    (TestDataIntegrity.py_in "culture_share_gdp" (JDict kv)) _) eqn:H1;
          try discriminate Hpass. apply Hkey in H1.
        destruct (TestDataIntegrity.assert_res
                    (TestDataIntegrity.py_in "total_financial_resources" (JDict kv)) _) eqn:H2;
          try discriminate Hpass. apply Hkey in H2.
        destruct (TestDataIntegrity.assert_res
                    (TestDataIntegrity.py_in "avg_monthly_wage" (JDict kv)) _) eqn:H3;
          try discriminate Hpass. apply Hkey in H3.
        unfold TestDataIntegrity.assert_item_greater in Hpass. cbn [getitem] in Hpass.
        destruct (assoc "culture_share_gdp" kv) as [gdp|] eqn:Hgdp; [|congruence].
        destruct (assoc "avg_monthly_wage" kv) as [wage|] eqn:Hwage; [|congruence].
        destruct (TestDataIntegrity.assert_res (TestDataIntegrity.py_gt gdp 0) _) eqn:H4;
          try discriminate Hpass. apply Hgt in H4. apply Hgt in Hpass.
        exists c, kv, gdp, wage. repeat split; assumption.
    + intros (c' & kv & gdp & wage & [= <-] & Hkv & Hgdp & Htot & Hwage & H4 & H5).
      rewrite Hdata in Hkv. injection Hkv as ->.
      cbn [negb TestDataIntegrity.assertTrue TestDataIntegrity.assert_keys].
      rewrite (proj2 (Hkey "culture_share_gdp" kv _)) by congruence.
      rewrite (proj2 (Hkey "total_financial_resources" kv _)) by assumption.
      rewrite (proj2 (Hkey "avg_monthly_wage" kv _)) by congruence.
      unfold TestDataIntegrity.assert_item_greater. cbn [getitem].
      rewrite Hgdp, Hwage.
      rewrite (proj2 (Hgt gdp 0 _) H4). now apply Hgt.
  - rewrite Hdata. cbn [default from_option]. unfold id.
    split; [discriminate|]. intros (c' & kv & gdp & wage & [= <-] & Hkv & _). congruence.
  - split; [discriminate|]. intros (c' & kv & gdp & wage & [=] & _).
Qed.

(** ** Reruns and process exit *)

(** X10.  A rerun of the script in a session that has already run changes
    nothing in the process: no further scheduler, no further exit handler, the
    same session states. *)
Theorem startup_rerun_changes_nothing (sid : nat) (p : App.Process) :
  App.startup sid (App.startup sid p) = App.startup sid p.
Proof.
  assert (Hdefault : forall (st : gmap string value) (m : gmap nat (gmap string value)),
             default ∅ (<[sid := st]> m !! sid) = st).
  { intros st m. now rewrite lookup_insert_eq. }
  unfold App.startup at 2.
  set (st := default ∅ (App.session_states p !! sid)).
  destruct (bool_decide (is_Some (st !! "scheduler_started"))) eqn:Hflag.
  - unfold App.startup. cbn [App.session_states App.schedulers App.atexit_handlers].
    fold st. rewrite Hdefault, !Hflag. now rewrite insert_insert_eq.
  - unfold App.startup.
    cbn [App.session_states App.schedulers App.atexit_handlers].
    fold st. rewrite Hdefault, Hflag, lookup_insert_eq.
    rewrite bool_decide_eq_true_2 by eauto.
    now rewrite insert_insert_eq.
Qed.

Section Exit.

Lemma run_handler_alter (i : nat) (ss : list App.BackgroundScheduler) :
  Pages.run_handler i ss = alter stopped i ss.
Proof.
  unfold Pages.run_handler. apply list_eq. intros j.
  destruct (ss !! i) as [s|] eqn:Hs.
  - destruct (decide (j = i)) as [->|Hne].
    + rewrite list_lookup_alter_eq, Hs.
      change (stopped <$> Some s) with (Some (stopped s)). unfold stopped.
      destruct (App.running s); [|exact Hs].
      apply list_lookup_insert_eq. now apply lookup_lt_Some in Hs.
    + rewrite list_lookup_alter_ne by congruence.
      destruct (App.running s); [|reflexivity].
      now rewrite list_lookup_insert_ne by congruence.
  - destruct (decide (j = i)) as [->|Hne].
    + now rewrite list_lookup_alter_eq, Hs.
    + now rewrite list_lookup_alter_ne by congruence.
Qed.

Lemma stopped_twice (s : App.BackgroundScheduler) : stopped (stopped s) = stopped s.
Proof. unfold stopped. destruct (App.running s) eqn:Hs; [reflexivity | now rewrite Hs]. Qed.

Lemma handlers_stop (l : list nat) (ss : list App.BackgroundScheduler)
    (j : nat) (s : App.BackgroundScheduler) :
  foldr Pages.run_handler ss l !! j = Some s ->
  exists s0, ss !! j = Some s0
             /\ (s = s0 \/ s = stopped s0)
             /\ (In j l -> s = stopped s0).
Proof.
  revert s. induction l as [|i l IH]; intros s; cbn [foldr].
  - intros Hs. exists s. split; [exact Hs|]. split; [now left | intros []].
  - rewrite run_handler_alter. destruct (decide (j = i)) as [->|Hne].
    + rewrite list_lookup_alter_eq.
      destruct (foldr Pages.run_handler ss l !! i) as [s1|] eqn:Hs1; [|discriminate].
      intros [= <-]. destruct (IH s1 eq_refl) as (s0 & Hs0 & Hcase & _).
      assert (Hstop : stopped s1 = stopped s0).
      { destruct Hcase as [-> | ->]; [reflexivity | apply stopped_twice]. }
      exists s0. split; [exact Hs0|]. split; [now right | now intros _].
    + rewrite list_lookup_alter_ne by congruence. intros Hs.
      destruct (IH s Hs) as (s0 & Hs0 & Hcase & Hstop).
      exists s0. split; [exact Hs0|]. split; [exact Hcase|].
      intros [Hi | Hin]; [congruence | now apply Hstop].
Qed.

Lemma handlers_length (l : list nat) (ss : list App.BackgroundScheduler) :
  length (foldr Pages.run_handler ss l) = length ss.
Proof.
  induction l as [|i l IH]; cbn [foldr]; [reflexivity|].
  rewrite run_handler_alter. now rewrite length_alter.
Qed.

(** Every scheduler has its exit handler. *)
Lemma startup_handlers (sid : nat) (p : App.Process) :
  App.atexit_handlers p = seq 0 (length (App.schedulers p)) ->
  App.atexit_handlers (App.startup sid p)
  = seq 0 (length (App.schedulers (App.startup sid p))).
Proof.
  intros Hp. unfold App.startup, App.init_scheduler.
  destruct (bool_decide _); cbn [App.schedulers App.atexit_handlers]; [exact Hp|].
  rewrite Hp, length_app, seq_app. reflexivity.
Qed.

Lemma runs_handlers (sids : list nat) (p : App.Process) :
  App.atexit_handlers p = seq 0 (length (App.schedulers p)) ->
  App.atexit_handlers (App.runs sids p)
  = seq 0 (length (App.schedulers (App.runs sids p))).
Proof.
  revert p. induction sids as [|sid sids IH]; intros p Hp; [exact Hp|].
  apply IH. now apply startup_handlers.
Qed.

Lemma fired_stopped (h m : Z) (ss : list App.BackgroundScheduler)
    (hs : list nat) (st : gmap nat (gmap string value)) :
  Forall (fun s => App.running s = false) ss ->
  App.fired h m (App.mkProcess ss hs st) = [].
Proof.
  unfold App.fired. cbn [App.schedulers].
  induction 1 as [|s ss Hs _ IH]; cbn [List.map List.concat]; [reflexivity|].
  now rewrite Hs, IH.
Qed.

End Exit.

(** X11.  When the process exits after the script has run for the sessions
    [sids], the exit handlers shut down every scheduler that was started:
    each scheduler is still there, stopped and with its job store emptied,
    and no job fires at any time of day. *)
Theorem at_exit_stops_every_scheduler (sids : list nat) (h m : Z) :
  let p := App.runs sids App.fresh_process in
  length (App.schedulers (Pages.at_exit p)) = length (App.schedulers p)
  /\ Forall (fun s => s = App.mkScheduler [] false)
            (App.schedulers (Pages.at_exit p))
  /\ App.fired h m (Pages.at_exit p) = [].
Proof.
  intros p.
  pose proof (runs_handlers sids App.fresh_process eq_refl) as Hhs. fold p in Hhs.
  destruct (runs_inv sids App.fresh_process fresh_process_inv) as [(_ & _ & Hjobs) _].
  fold p in Hjobs.
  assert (Hall : Forall (fun s => s = App.mkScheduler [] false)
                        (App.schedulers (Pages.at_exit p))).
  { unfold Pages.at_exit. cbn [App.schedulers].
    apply List.Forall_forall. intros s Hin.
    apply list_elem_of_In, list_elem_of_lookup in Hin as [j Hj].
    destruct (handlers_stop _ _ _ _ Hj) as (s0 & Hs0 & _ & Hstop).
    assert (Hs0' : s0 = App.mkScheduler [daily_job] true).
    { rewrite List.Forall_forall in Hjobs. apply Hjobs.
      apply list_elem_of_In, list_elem_of_lookup. now exists j. }
    rewrite Hstop, Hs0'; [reflexivity|].
    rewrite Hhs. apply in_seq. apply lookup_lt_Some in Hs0. lia. }
  split; [|split].
  - unfold Pages.at_exit. cbn [App.schedulers]. apply handlers_length.
  - exact Hall.
  - unfold Pages.at_exit in *. cbn [App.schedulers] in Hall.
    apply fired_stopped.
    eapply List.Forall_impl; [|exact Hall]. now intros s ->.
Qed.

(** ** The State Budget page without a total *)

Section BudgetPage.
Context {L : Library}.

Lemma year_rows_empty (df : DataFrame) (y : Z) :
  df_empty (year_rows df y) = true <-> List.filter (in_year df y) (rows df) = [].
Proof.
  unfold year_rows, filter_eq, column_pos, in_year, df_empty.
  destruct (columns df) as [|col cols] eqn:Hcols; cbn [col_index].
  - cbn [columns empty_frame]. split; [|reflexivity]. intros _. now induction (rows df).
  - destruct (if String.eqb col "Year" then Some 0%nat
              else option_map S (col_index "Year" cols)) as [i|].
    + cbn [columns rows]. rewrite ?Hcols.
      destruct (List.filter _ (rows df)); split; congruence.
    + cbn [columns empty_frame]. split; [|reflexivity]. intros _. now induction (rows df).
Qed.

Lemma year_rows_columns (df : DataFrame) (y : Z) :
  df_empty (year_rows df y) = false -> columns (year_rows df y) = columns df.
Proof.
  unfold year_rows, filter_eq, column_pos.
  destruct (col_index "Year" (columns df)); [reflexivity | discriminate].
Qed.

(** Formatting raises for a string, or for an integer no float holds. *)
Lemma format_amount_raises (total : value) (e : exn) :
  format_amount total = Raise e -> e = OverflowError \/ e = ValueError.
Proof.
  destruct total as [z|f|t|b]; cbn [format_amount]; try discriminate.
  - destruct (Prim2SF (Z2float z)); intros [= <-]; auto.
  - intros [= <-]. auto.
Qed.

End BudgetPage.

(** X12.  The State Budget page shows its error box exactly when no row of
    the year is served: the budget file is missing or unreadable, or the
    table has no row whose [Year] is the year.  It raises [KeyError] for
    [Amount_CZK], uncaught, exactly when rows of the year are served from a
    table without that column. *)
Theorem state_budget_without_total {L : Library} (w : World) (y : Z) :
  (fst (App.state_budget y w)
   = Ok (App.ErrorBox ("Budget Data Unavailable for " +:+ pretty y))
   <-> match files w !! "data/budget_official.csv" ≫= read_csv_text with
       | None => True
       | Some df => List.filter (in_year df y) (rows df) = []
       end)
  /\ (fst (App.state_budget y w) = Raise (KeyError "Amount_CZK")
      <-> exists df : DataFrame,
            files w !! "data/budget_official.csv" ≫= read_csv_text = Some df
            /\ List.filter (in_year df y) (rows df) <> []
            /\ col_index "Amount_CZK" (columns df) = None).
Proof.
  rewrite (state_budget_value y w _ (load_budget_value y w)).
  unfold budget_widget.
  destruct (files w !! "data/budget_official.csv" ≫= read_csv_text) as [df|];
    cbn [fmap option_fmap option_map default from_option]; unfold id, flip.
  - pose proof (year_rows_empty df y) as Hempty.
    pose proof (year_rows_columns df y) as Hcols.
    destruct (df_empty (year_rows df y)); cbn [negb].
    + split.
      * split; [intros _; now apply Hempty | reflexivity].
      * split; [discriminate|]. intros (df' & [= <-] & Hne & _).
        contradiction Hne. now apply Hempty.
    + assert (Hne : List.filter (in_year df y) (rows df) <> []).
      { intros H. apply Hempty in H. discriminate. }
      unfold App.total_budget, column_pos. rewrite (Hcols eq_refl).
      destruct (col_index "Amount_CZK" (columns df)) as [i|] eqn:HA.
      * destruct (series_sum _) as [total|];
          [destruct (format_amount total) as [shown|e] eqn:Hfmt|].
        -- split; [split; [discriminate | intros H; contradiction]|].
           split; [discriminate | intros (df' & [= <-] & _ & H); congruence].
        -- split; [split; [discriminate | intros H; contradiction]|].
           split; [|intros (df' & [= <-] & _ & H); congruence].
           intros [= ->]. apply format_amount_raises in Hfmt as [H | H]; discriminate H.
        -- split; [split; [discriminate | intros H; contradiction]|].
           split; [discriminate | intros (df' & [= <-] & _ & H); congruence].
      * split; [split; [discriminate | intros H; contradiction]|].
        split; [intros _; now exists df | reflexivity].
  - cbn [df_empty columns rows empty_frame negb]. split.
    + split; [trivial | reflexivity].
    + split; [discriminate | intros (df' & [=] & _)].
Qed.

(** ** The Heritage page *)

Section Heritage.
Context {L : Library}.

(** The table of top sites of any table: either the three columns are there
    and the rows shown are rows of the table at distinct positions, five of
    them or all when there are fewer, or a column is missing. *)
Lemma top_sites_cases (df : DataFrame) :
  (exists (iN iV iR : nat),
     col_index "name" (columns df) = Some iN
     /\ col_index App.visitor_col (columns df) = Some iV
     /\ col_index "renovation_roi" (columns df) = Some iR
     /\ let order := firstn 5 (argsort_desc (List.map (cell iV) (rows df))) in
        App.top_sites df
        = Ok (mkDF ["name"; App.visitor_col; "renovation_roi"]
                (List.map (fun j => shown_cells iN iV iR (nth j (rows df) [])) order))
        /\ length order = Nat.min 5 (length (rows df))
        /\ NoDup order
        /\ Forall (fun j => (j < length (rows df))%nat) order)
  \/ (exists (col k : string),
        In col ["name"; App.visitor_col; "renovation_roi"]
        /\ col_index col (columns df) = None
        /\ App.top_sites df = Raise (KeyError k)).
Proof.
  destruct (col_index "name" (columns df)) as [iN|] eqn:HN;
    [destruct (col_index App.visitor_col (columns df)) as [iV|] eqn:HV;
     [destruct (col_index "renovation_roi" (columns df)) as [iR|] eqn:HR|]|].
  - left. exists iN, iV, iR. repeat (split; [reflexivity|]). intros order.
    pose proof (argsort_desc_perm (List.map (cell iV) (rows df))) as Hperm.
    rewrite length_map in Hperm.
    assert (Hrange : forall j, In j (argsort_desc (List.map (cell iV) (rows df))) ->
                               (j < length (rows df))%nat).
    { intros j Hj. apply (Permutation_in _ Hperm), in_seq in Hj. lia. }
    split; [|split; [|split]].
    + rewrite (top_sites_value df iN iV iR HN HV HR), firstn_map.
      do 2 f_equal. apply map_ext_in. intros j Hj.
      apply nth_shown. apply Hrange. exact (In_firstn _ _ _ Hj).
    + unfold order. rewrite length_firstn, (Permutation_length Hperm), length_seq.
      reflexivity.
    + apply NoDup_firstn. rewrite Hperm. apply NoDup_seq.
    + apply Forall_forall. intros j Hj. apply Hrange.
      apply list_elem_of_In in Hj. exact (In_firstn _ _ _ Hj).
  - right. exists "renovation_roi", "renovation_roi". split; [cbn; tauto|].
    split; [exact HR|].
    unfold App.top_sites, App.select_columns, App.column_positions, column_pos.
    now rewrite HN, HV, HR.
  - right. exists App.visitor_col, App.visitor_col. split; [cbn; tauto|].
    split; [exact HV|].
    unfold App.top_sites, App.select_columns, App.column_positions, column_pos.
    now rewrite HN, HV.
  - right. exists "name", "name". split; [cbn; tauto|]. split; [exact HN|].
    unfold App.top_sites, App.select_columns, App.column_positions, column_pos.
    now rewrite HN.
Qed.

(** What the page shows, from the table [load_unesco_sites] serves. *)
Lemma heritage_value (show_roi : bool) (w : World) :
  fst (Pages.heritage show_roi w)
  = let sites_df := default empty_frame
                      (files w !! "data/fallback_unesco.csv" ≫= read_csv_text) in
    if negb (df_empty sites_df) then
      match App.top_sites sites_df with
      | Ok top => Ok [ Pages.Markdown "Heritage & UNESCO Sites";
                       Pages.Map show_roi sites_df;
                       Pages.Markdown "### Top Sites by Visitor Volume";
                       Pages.Table top ]
      | Raise e => Raise e
      end
    else Ok [ Pages.Markdown "Heritage & UNESCO Sites";
              Pages.Warning "No UNESCO Data Available. Please check NKOD connection." ].
Proof.
  unfold Pages.heritage. rewrite fst_bind, load_unesco_sites_value.
  cbn zeta. destruct (negb (df_empty _)); [|reflexivity].
  rewrite fst_bind. unfold of_res.
  destruct (App.top_sites _); reflexivity.
Qed.

End Heritage.

(** X13.  For any table of sites, the table of top sites either has the
    columns [name], [visitors_2024] and [renovation_roi] and shows rows of the
    table at distinct positions, five of them or all when the table has fewer,
    in an order along which integer visitor counts never increase; or one of
    the three columns is missing and a [KeyError] is raised. *)
Theorem top_sites_of_any_table {L : Library} (df : DataFrame) :
  match App.top_sites df with
  | Ok t =>
      columns t = ["name"; App.visitor_col; "renovation_roi"]
      /\ length (rows t) = Nat.min 5 (length (rows df))
      /\ exists (iN iV iR : nat) (order : list nat),
           col_index "name" (columns df) = Some iN
           /\ col_index App.visitor_col (columns df) = Some iV
           /\ col_index "renovation_roi" (columns df) = Some iR
           /\ rows t = List.map (fun j => shown_cells iN iV iR (nth j (rows df) [])) order
           /\ NoDup order
           /\ Forall (fun j => (j < length (rows df))%nat) order
           /\ forall zs : list Z,
                List.map (cell iV) (rows df) = List.map VInt zs ->
                Sorted (fun a b : Z => b <= a) (List.map (fun j => nth j zs 0) order)
  | Raise e =>
      exists (col k : string),
        In col ["name"; App.visitor_col; "renovation_roi"]
        /\ col_index col (columns df) = None
        /\ e = KeyError k
  end.
Proof.
  destruct (top_sites_cases df)
    as [(iN & iV & iR & HN & HV & HR & Htop & Hlen & Hnd & Hrange)
       | (col & k & Hin & Hcol & Hraise)].
  - rewrite Htop. cbn [columns rows]. split; [reflexivity|]. split.
    + now rewrite length_map.
    + exists iN, iV, iR, (firstn 5 (argsort_desc (List.map (cell iV) (rows df)))).
      repeat (split; [assumption || reflexivity|]).
      intros zs Hkeys. rewrite Hkeys, <- firstn_map.
      apply Sorted_firstn, argsort_desc_sorted.
  - rewrite Hraise. exists col, k. repeat split; assumption.
Qed.

(** X14.  When [test_unesco_sites] passes, the Heritage page never shows its
    warning: with either state of the toggle it shows the map of all sites
    and a table of exactly five top sites, or, when the snapshot has no
    [renovation_roi] column, which the test does not ask for, it raises a
    [KeyError] after the map is drawn. *)
Theorem heritage_after_passing_test {L : Library} (w : World) (show_roi : bool) :
  TestDataIntegrity.run_test TestDataIntegrity.test_unesco_sites w
  = TestDataIntegrity.Pass ->
  exists (c : string) (df : DataFrame),
    files w !! "data/fallback_unesco.csv" = Some c
    /\ read_csv_text c = Some df
    /\ match col_index "renovation_roi" (columns df) with
       | Some _ =>
           exists top : DataFrame,
             fst (Pages.heritage show_roi w)
             = Ok [ Pages.Markdown "Heritage & UNESCO Sites";
                    Pages.Map show_roi df;
                    Pages.Markdown "### Top Sites by Visitor Volume";
                    Pages.Table top ]
             /\ App.top_sites df = Ok top
             /\ length (rows top) = 5%nat
       | None =>
           exists k : string, fst (Pages.heritage show_roi w) = Raise (KeyError k)
       end.
Proof.
  intros Hpass. rewrite test_unesco_sites_value in Hpass. cbn zeta in Hpass.
  rewrite heritage_value. cbn zeta.
  destruct (files w !! "data/fallback_unesco.csv") as [c|];
    [destruct (read_csv_text c) as [df|] eqn:Hdf|];
    cbn [mbind option_bind] in *; rewrite ?Hdf in *;
    cbn [default from_option] in *; unfold id in *;
    try discriminate Hpass.
  exists c, df. split; [reflexivity|]. split; [exact Hdf|].
  destruct (df_empty df); [discriminate Hpass|].
  cbn [TestDataIntegrity.assertFalse negb] in *.
  destruct (TestDataIntegrity.assert_columns _ df) eqn:Hcols; try discriminate Hpass.
  unfold TestDataIntegrity.assertTrue in Hpass.
  destruct (15 <=? Z.of_nat (length (rows df))) eqn:Hn; [|discriminate Hpass].
  apply Z.leb_le in Hn.
  destruct (top_sites_cases df)
    as [(iN & iV & iR & HN & HV & HR & Htop & Hlen & _) | (col & k & Hin & Hcol & Hraise)].
  - rewrite HR, Htop. eexists. split; [reflexivity|]. split; [reflexivity|].
    cbn [rows]. rewrite length_map, Hlen. lia.
  - apply assert_columns_pass in Hcols.
    assert (Hroi : col = "renovation_roi").
    { rewrite !Forall_cons in Hcols. destruct Hcols as (H1 & _ & _ & H4 & _).
      cbn in Hin. destruct Hin as [<-|[<-|[<-|[]]]]; [congruence | | reflexivity].
      unfold App.visitor_col in Hcol. congruence. }
    subst col. rewrite Hcol, Hraise. now exists k.
Qed.

(** The nineteen sites of the snapshot pass the test; the page shows the map
    and five sites. *)
Lemma heritage_after_passing_test_witness :
  exists top : DataFrame,
    fst (Pages.heritage (L := Fixture.library) true
           (Fixture.world Fixture.snapshots Fixture.offline))
    = Ok [ Pages.Markdown "Heritage & UNESCO Sites";
           Pages.Map true Fixture.unesco_frame;
           Pages.Markdown "### Top Sites by Visitor Volume";
           Pages.Table top ]
    /\ length (rows top) = 5%nat.
Proof.
  destruct (heritage_after_passing_test (L := Fixture.library)
              (Fixture.world Fixture.snapshots Fixture.offline) true)
    as (c & df & Hc & Hdf & Hpage); [vm_compute; reflexivity|].
  vm_compute in Hc. injection Hc as <-.
  vm_compute in Hdf. injection Hdf as <-.
  cbn [columns Fixture.unesco_frame col_index String.eqb option_map] in Hpage.
  destruct Hpage as (top & Hpage & _ & Hlen).
  exists top. split; assumption.
Defined.

(** ** The Status of the Artist page *)

(** X15.  What [load_artist_status] serves decides the Status of the Artist
    page.  When it serves no record the page shows the error box and no
    figure; otherwise it shows the registered count and hands the pie chart
    the disciplines: slices of which no two have equal labels, none of them
    [registered_count].  (Labels that are NaN, the missing indicators of a
    numeric column, equal nothing and may repeat.) *)
Theorem status_page_shows_the_record {L : Library} (w : World) :
  match fst (DataLoader.load_artist_status w) with
  | Ok (Some a) =>
      fst (Pages.status_of_the_artist w)
      = Ok [ Pages.Markdown "Status of the Artist: Implementation Leaderboard";
             Pages.Markdown "### Registered Artists";
             Pages.Metric "Total Registrations" (registered_count a) "+4 this week";
             Pages.Markdown "*Live data from Registry API*";
             Pages.Markdown "### Breakdown by Discipline";
             Pages.Pie (disciplines a) ]
      /\ distinct_keys (disciplines a)
      /\ Forall (fun slice => py_eq (fst slice) (VStr "registered_count") = false)
                (disciplines a)
  | Ok None =>
      fst (Pages.status_of_the_artist w)
      = Ok [ Pages.Markdown "Status of the Artist: Implementation Leaderboard";
             Pages.ErrorBox "Registry API Offline. No artist data available." ]
  | Raise _ => False
  end.
Proof.
  unfold Pages.status_of_the_artist. rewrite fst_bind.
  destruct (fst (DataLoader.load_artist_status w)) as [[a|]|e] eqn:Hload.
  - split; [reflexivity|].
    destruct (served_record_from_rows w a Hload) as (c & df & iI & _ & _ & _ & Hdist & Hkeys).
    split; [exact Hdist|].
    apply List.Forall_forall. intros [k f] Hin. apply Hkeys.
    now apply (in_map fst) in Hin.
  - reflexivity.
  - rewrite load_artist_status_value in Hload. discriminate.
Qed.

(** ** The refresh and the accessors *)

(** X16.  The daily refresh changes nothing any accessor serves: after a run
    of [update_all_data] every accessor returns what it returned before. *)
Theorem refresh_changes_no_accessor {L : Library}
    (DATA_DIR : string) (D : Dataset) (w : World) :
  fst (resolve D (snd (UpdateData.update_all_data DATA_DIR w))) = fst (resolve D w).
Proof.
  rewrite update_all_data_run. cbn [snd].
  destruct (snapshot_path D) as [p|] eqn:Hp.
  - now rewrite !(resolve_value D p _ Hp).
  - destruct D; try discriminate Hp.
    unfold resolve. now rewrite !fst_bind_ret, !load_nameday_value.
Qed.
